(** * Money Manager client: the dual-mode persistence layer

    A shallow embedding of the TypeScript client of the Money Manager
    application: [services/apiService.ts] (the data access facade),
    [config/axiosConfig.ts] (the HTTP client and its interceptors),
    [components/Login.tsx], [components/Register.tsx] and
    [components/CategoryPage.tsx].

    Conventions of the embedding.
    - A JavaScript value of type [any] (a response body, a stored user) is a
      [JSValue]. A number is a [JSNumber]: an integer, which stands for any
      finite number (the modelled code only tests numbers against 0 and
      prints them), [NaN] or an infinity.
    - A JavaScript string is a [string] holding its UTF-8 encoding. Equality
      and [includes] are the same on the encoding; [length] counts UTF-16
      code units and [trim] removes the white space of ECMAScript, both read
      off the encoding. [toLowerCase] is the lower-casing of the JavaScript
      engine, a table of Unicode that is no code of this repository: the
      category form is modelled for every such function.
    - [localStorage] is a record [LocalStorage].  Every entry is kept parsed:
      the application only stores [JSON.stringify] of values it later reads
      back with [JSON.parse], so an entry holds what JSON can hold; a record
      is written after its trip through JSON ([JS.json]).  The collections
      live in one finite map from the full key ([incomes_<userId>], ...) to
      the stored array of objects.
    - The network and the clock are the environment: an operation receives a
      [Server] (what the HTTP call answers, were it made) and the value of
      [Date.now()]; the requests really made are logged in the [World].
    - A JavaScript function that can throw returns an [Outcome]. *)

From Stdlib Require Import ZArith Ascii.
From stdpp Require Import gmap strings list fin_maps pretty.

Open Scope string_scope.
Set Warnings "-register-all".
Set Default Proof Using "Type".

(** ** JavaScript values *)

(** A number: [Finite z] stands for a finite number (the modelled code only
    tests numbers against 0 and prints them), [NaN] is what
    [Number('cat_...')] gives, and the two infinities. *)
Inductive JSNumber :=
  | Finite (z : Z)
  | NaN
  | Infinity (negative : bool).

Bind Scope Z_scope with JSNumber.
Coercion Finite : Z >-> JSNumber.

Module Num.

(** [!n] *)
Definition falsy (n : JSNumber) : bool :=
match n with
| Finite z => (z =? 0)%Z
| NaN => true
| Infinity _ => false
end.

(** [n <= 0] *)
Definition le0 (n : JSNumber) : bool :=
match n with
| Finite z => (z <=? 0)%Z
| NaN => false
| Infinity negative => negative
end.

(** [String(n)] *)
Definition to_string (n : JSNumber) : string :=
match n with
| Finite z => pretty z
| NaN => "NaN"
| Infinity false => "Infinity"
| Infinity true => "-Infinity"
end.

End Num.

Inductive JSValue : Type :=
  | JUndefined
  | JNull
  | JBool (b : bool)
  | JNum (n : JSNumber)
  | JStr (s : string)
  | JArr (l : list JSValue)
  | JObj (fields : list (string * JSValue)).

(** A JSON object: its fields in insertion order, each key at most once. *)
Abbreviation JSObject := (list (string * JSValue)).

Module JS.

(** [!!v] of JavaScript. *)
Definition truthy (v : JSValue) : bool :=
match v with
| JUndefined | JNull => false
| JBool b => b
| JNum n => negb (Num.falsy n)
| JStr s => negb (String.eqb s "")
| JArr _ | JObj _ => true
end.

(** [a || b] *)
Definition or (a b : JSValue) : JSValue := if truthy a then a else b.

(** [a && b] *)
Definition and (a b : JSValue) : JSValue := if truthy a then b else a.

Definition nullish (v : JSValue) : bool :=
match v with JUndefined | JNull => true | _ => false end.

Definition isArray (v : JSValue) : bool :=
match v with JArr _ => true | _ => false end.

Fixpoint lookup_field (k : string) (fs : JSObject) : JSValue :=
match fs with
| [] => JUndefined
| (k', v) :: fs' => if String.eqb k' k then v else lookup_field k fs'
end.

(** [v.k] for a value that is not nullish (or [v?.k] for any value): none of
  the keys the program reads is a built-in property of a string, a number,
  a boolean or an array. *)
Definition prop (v : JSValue) (k : string) : JSValue :=
match v with
| JObj fs => lookup_field k fs
| _ => JUndefined
end.

(** [{ ...fs, k: v }] : an existing key keeps its place and takes the new
  value, a new key goes last. *)
Fixpoint set_field (k : string) (v : JSValue) (fs : JSObject) : JSObject :=
match fs with
| [] => [(k, v)]
| (k', v') :: fs' =>
    if String.eqb k' k then (k, v) :: fs' else (k', v') :: set_field k v fs'
end.

(** [a === b] when [b] is a string. *)
Definition eq_string (a : JSValue) (s : string) : bool :=
match a with JStr s' => String.eqb s' s | _ => false end.

Definition join (sep : string) (l : list string) : string :=
match l with
| [] => ""
| x :: l' => foldl (fun acc y => acc +:+ sep +:+ y) x l'
end.

(** [String(v)], as in a template literal or a string concatenation. *)
Fixpoint to_string (v : JSValue) : string :=
match v with
| JUndefined => "undefined"
| JNull => "null"
| JBool true => "true"
| JBool false => "false"
| JNum n => Num.to_string n
| JStr s => s
| JArr l =>
    join "," (map (fun x => if nullish x then "" else to_string x) l)
| JObj _ => "[object Object]"
end.

(** [l.join(sep)] *)
Definition joinValues (sep : string) (l : list JSValue) : string :=
join sep (map (fun x => if nullish x then "" else to_string x) l).

(** The indexed properties of a string of ASCII characters. *)
Fixpoint chars (i : nat) (s : string) : JSObject :=
match s with
| EmptyString => []
| String c s' => (pretty i, JStr (String c EmptyString)) :: chars (S i) s'
end.

(** The own enumerable properties copied by [{ ...v }]. *)
Definition spread (v : JSValue) : JSObject :=
match v with
| JObj fs => fs
| JArr l => imap (fun i x => (pretty i, x)) l
| JStr s => chars 0 s
| _ => []
end.

(** [JSON.parse(JSON.stringify(v))] for a value [v] held by an array or an
  object: a number that is not finite becomes [null], so does [undefined]
  in an array, and a field that is [undefined] is left out. *)
Fixpoint json (v : JSValue) : JSValue :=
match v with
| JUndefined => JNull
| JNum (Finite z) => JNum (Finite z)
| JNum _ => JNull
| JArr l => JArr (List.map json l)
| JObj fs =>
    JObj ((fix fields (fs : list (string * JSValue)) : list (string * JSValue) :=
             match fs with
             | [] => []
             | (_, JUndefined) :: fs' => fields fs'
             | (k, x) :: fs' => (k, json x) :: fields fs'
             end) fs)
| _ => v
end.

(** The same for the fields of an object. *)
Definition json_object (fs : JSObject) : JSObject :=
match json (JObj fs) with
| JObj fs' => fs'
| _ => []
end.

End JS.

(** ** Thrown values and the result of a call *)

Record HttpResponse := mkResponse {
  status : Z;
  data : JSValue;
}.

(** What a [catch (error: any)] clause inspects of the caught value. *)
Record JSError := mkJSError {
  code : option string;
  message : string;
  response : option HttpResponse;
}.

(** [new Error(msg)] *)
Definition Error (msg : string) : JSError :=
  {| code := None; message := msg; response := None |}.

(** The [TypeError] of reading property [k] of [null] or [undefined]. *)
Definition TypeError_read (v : JSValue) (k : string) : JSError :=
  Error ("Cannot read properties of " +:+ JS.to_string v +:+
         " (reading '" +:+ k +:+ "')").

Inductive Outcome (A : Type) : Type :=
  | Returned (a : A)
  | Thrown (e : JSError).
Arguments Returned {A} a.
Arguments Thrown {A} e.

#[global] Instance Outcome_ret : MRet Outcome := fun _ a => Returned a.
#[global] Instance Outcome_bind : MBind Outcome := fun _ _ f m =>
  match m with
  | Returned a => f a
  | Thrown e => Thrown e
  end.

(** [v.k], which throws when [v] is [null] or [undefined]. *)
Definition get (v : JSValue) (k : string) : Outcome JSValue :=
  if JS.nullish v then Thrown (TypeError_read v k) else Returned (JS.prop v k).

(** ** String helpers *)

(** [hay.includes(needle)] *)
Fixpoint includes (needle hay : string) : bool :=
  String.prefix needle hay ||
  match hay with
  | EmptyString => false
  | String _ hay' => includes needle hay'
  end.

(** [s.split(sep)[0]] for a one-character separator. *)
Fixpoint before (sep : ascii) (s : string) : string :=
  match s with
  | EmptyString => EmptyString
  | String c s' => if Ascii.eqb c sep then EmptyString else String c (before sep s')
  end.

(** The string with these bytes. *)
Definition utf8 (bytes : list nat) : string :=
  String.string_of_list_ascii (List.map ascii_of_nat bytes).

Module Str.

(** The UTF-16 code units of the character a byte begins: none for a
  continuation byte, two (a surrogate pair) for the first byte of a
  character of four bytes, one otherwise. *)
Definition units (c : ascii) : nat :=
let n := nat_of_ascii c in
if (n <? 128)%nat then 1%nat
else if (n <? 192)%nat then 0%nat
else if (n <? 240)%nat then 1%nat
else 2%nat.

(** [s.length] *)
Fixpoint length (s : string) : nat :=
match s with
| EmptyString => 0%nat
| String c s' => (units c + length s')%nat
end.

End Str.

(** The characters that [trim] removes, WhiteSpace and LineTerminator of
    ECMAScript, each in UTF-8. *)
Definition whiteSpace : list string :=
  [ utf8 [9]; utf8 [10]; utf8 [11]; utf8 [12]; utf8 [13]; utf8 [32];
    utf8 [194; 160];        (* U+00A0 *)
    utf8 [225; 154; 128];   (* U+1680 *)
    utf8 [226; 128; 128]; utf8 [226; 128; 129]; utf8 [226; 128; 130];
    utf8 [226; 128; 131]; utf8 [226; 128; 132]; utf8 [226; 128; 133];
    utf8 [226; 128; 134]; utf8 [226; 128; 135]; utf8 [226; 128; 136];
    utf8 [226; 128; 137]; utf8 [226; 128; 138];   (* U+2000 to U+200A *)
    utf8 [226; 128; 168]; utf8 [226; 128; 169];   (* U+2028, U+2029 *)
    utf8 [226; 128; 175];   (* U+202F *)
    utf8 [226; 129; 159];   (* U+205F *)
    utf8 [227; 128; 128];   (* U+3000 *)
    utf8 [239; 187; 191]    (* U+FEFF *) ].

(** The first byte, the first two bytes, the first three bytes of a string
    are a character of [whiteSpace]. *)
Definition space1 (a : ascii) : bool :=
  let x := nat_of_ascii a in
  (x =? 32)%nat || ((9 <=? x)%nat && (x <=? 13)%nat).

Definition space2 (a b : ascii) : bool :=
  (nat_of_ascii a =? 194)%nat && (nat_of_ascii b =? 160)%nat.

Definition space3 (a b c : ascii) : bool :=
  let x := nat_of_ascii a in
  let y := nat_of_ascii b in
  let z := nat_of_ascii c in
  ((x =? 225) && (y =? 154) && (z =? 128))%nat
  || ((x =? 226) && (y =? 128)
      && (((128 <=? z) && (z <=? 138)) || (z =? 168) || (z =? 169) || (z =? 175)))%nat
  || ((x =? 226) && (y =? 129) && (z =? 159))%nat
  || ((x =? 227) && (y =? 128) && (z =? 128))%nat
  || ((x =? 239) && (y =? 187) && (z =? 191))%nat.

(** [s.trimStart()] *)
Fixpoint trimStart (s : string) : string :=
  match s with
  | String a s1 =>
      if space1 a then trimStart s1
      else
        match s1 with
        | String b s2 =>
            if space2 a b then trimStart s2
            else
              match s2 with
              | String c s3 => if space3 a b c then trimStart s3 else s
              | EmptyString => s
              end
        | EmptyString => s
        end
  | EmptyString => s
  end.

(** [s.trimEnd()]: what precedes the last run of white space. No white
    space character begins with a continuation byte, so the run is found
    at a character boundary. *)
Fixpoint trimEnd (s : string) : string :=
  match s with
  | EmptyString => EmptyString
  | String a s' => if String.eqb (trimStart s) "" then EmptyString else String a (trimEnd s')
  end.

(** [s.trim()] *)
Definition trim (s : string) : string := trimEnd (trimStart s).

(** Lower-casing of the ASCII letters: what [toLowerCase] does on a string of
    ASCII characters. It is used for sample data only. *)
Definition lower_char (c : ascii) : ascii :=
  let n := nat_of_ascii c in
  if (65 <=? n)%nat && (n <=? 90)%nat then ascii_of_nat (n + 32) else c.

Fixpoint asciiLowerCase (s : string) : string :=
  match s with
  | EmptyString => EmptyString
  | String c s' => String (lower_char c) (asciiLowerCase s')
  end.

(** ** localStorage *)

Record LocalStorage := mkStorage {
  backendMode : option string;               (* 'backendMode' *)
  token : option string;                     (* 'token' *)
  currentUser : option JSValue;              (* 'currentUser' *)
  users : list JSObject;                     (* 'users' *)
  collections : gmap string (list JSObject); (* every '<kind>_<userId>' *)
}.

Definition set_backendMode (v : option string) (ls : LocalStorage) : LocalStorage :=
  mkStorage v (token ls) (currentUser ls) (users ls) (collections ls).
Definition set_token (v : option string) (ls : LocalStorage) : LocalStorage :=
  mkStorage (backendMode ls) v (currentUser ls) (users ls) (collections ls).
Definition set_currentUser (v : option JSValue) (ls : LocalStorage) : LocalStorage :=
  mkStorage (backendMode ls) (token ls) v (users ls) (collections ls).
Definition set_users (v : list JSObject) (ls : LocalStorage) : LocalStorage :=
  mkStorage (backendMode ls) (token ls) (currentUser ls) v (collections ls).

(** [JSON.parse(localStorage.getItem(key) || '[]')] *)
Definition getCollection (key : string) (ls : LocalStorage) : list JSObject :=
  default [] (collections ls !! key).

(** [localStorage.setItem(key, JSON.stringify(items))] *)
Definition setCollection (key : string) (items : list JSObject)
    (ls : LocalStorage) : LocalStorage :=
  mkStorage (backendMode ls) (token ls) (currentUser ls) (users ls)
            (<[key := items]> (collections ls)).

(** ** The HTTP client (axiosConfig.ts) *)

Inductive Method := GET | POST | PUT | DELETE.

Record Request := mkRequest {
  method : Method;
  url : string;
  body : JSValue;
  authorization : option string;   (* the Authorization header *)
}.

(** How a request can fail in axios: no response was received (the error
    carries a code and a message only), or a response arrived whose status is
    outside 2xx. *)
Inductive AxiosFailure :=
  | NoResponse (c : option string) (msg : string)
  | BadStatus (r : HttpResponse).

Inductive RemoteOutcome :=
  | Responded (r : HttpResponse)
  | Failed (f : AxiosFailure).

(** The remote store and the network, as seen by one request. *)
Definition Server := Request -> RemoteOutcome.

(** The error object axios rejects with. *)
Definition AxiosError (f : AxiosFailure) : JSError :=
  match f with
  | NoResponse c msg => {| code := c; message := msg; response := None |}
  | BadStatus r =>
      {| code :=
           if (400 <=? status r)%Z && (status r <? 500)%Z then Some "ERR_BAD_REQUEST"
           else if (500 <=? status r)%Z && (status r <? 600)%Z then Some "ERR_BAD_RESPONSE"
           else None;
         message := "Request failed with status code " +:+ pretty (status r);
         response := Some r |}
  end.

(** The browser state the client reads and writes. *)
Record World := mkWorld {
  storage : LocalStorage;
  requests : list Request;   (* the requests sent so far, oldest first *)
  href : option string;      (* an assignment to window.location.href *)
  origin : string;           (* window.location.origin *)
}.

Definition set_storage (ls : LocalStorage) (w : World) : World :=
  mkWorld ls (requests w) (href w) (origin w).
Definition update_storage (f : LocalStorage -> LocalStorage) (w : World) : World :=
  set_storage (f (storage w)) w.
Definition send (r : Request) (w : World) : World :=
  mkWorld (storage w) (requests w ++ [r]) (href w) (origin w).
Definition set_href (h : string) (w : World) : World :=
  mkWorld (storage w) (requests w) (Some h) (origin w).

Definition excludeEndpoints : list string := ["/login"; "/register"].

(** request interceptor *)
Definition requestInterceptor (ls : LocalStorage) (config : Request) : Request :=
  let shouldSkipToken :=
    existsb (fun endpoint => includes endpoint (url config)) excludeEndpoints in
  if negb shouldSkipToken then
    match token ls with
    | Some accessToken =>
        if negb (String.eqb accessToken "") then
          mkRequest (method config) (url config) (body config)
                    (Some ("Bearer " +:+ accessToken))
        else config
    | None => config
    end
  else config.

(** response interceptor, the error handler *)
Definition responseInterceptor (error : JSError) (w : World) : World :=
  let status := status <$> response error in
  if bool_decide (status = Some 401%Z) then
    set_href "/"
      (update_storage
         (fun ls => set_backendMode (Some "offline")
                      (set_currentUser None (set_token None ls))) w)
  else if bool_decide (status = Some 403%Z) then w
  else if bool_decide (status = Some 500%Z) then w
  else if bool_decide (code error = Some "ECONNABORTED")
          || bool_decide (message error = "Network Error") then
    update_storage (set_backendMode (Some "offline")) w
  else w.

(** [await axiosConfig.<method>(url, body)] *)
Definition axios (srv : Server) (m : Method) (u : string) (b : JSValue)
    (w : World) : Outcome HttpResponse * World :=
  let config := requestInterceptor (storage w) (mkRequest m u b None) in
  let w1 := send config w in
  match srv config with
  | Responded r => (Returned r, w1)
  | Failed f => let error := AxiosError f in (Thrown error, responseInterceptor error w1)
  end.

(** apiEndpoints.ts *)
Module API_END_POINTS.
Definition LOGIN := "/login".
Definition REGISTER := "/register".
Definition INCOME := "/incomes".
Definition EXPENSE := "/expenses".
Definition CATEGORY := "/categories".
Definition FILTER := "/filter".
End API_END_POINTS.

(** ** The data access facade (apiService.ts) *)

Definition isOfflineMode (ls : LocalStorage) : bool :=
  bool_decide (backendMode ls = Some "offline").

(** [currentUser] is only ever written with the user of a successful
    authentication or of a profile update, an object, so the two property
    reads do not throw. *)
Definition getUserId (ls : LocalStorage) : JSValue :=
  match currentUser ls with
  | Some user => JS.or (JS.prop user "id") (JS.prop user "email")
  | None => JStr "offline_user"
  end.

(** The template literal [`<kind>_${userId}`]. *)
Definition storageKey (kind : string) (ls : LocalStorage) : string :=
  kind +:+ "_" +:+ JS.to_string (getUserId ls).

(** [error.code === 'ERR_NETWORK' || error.message === 'Network Error'] *)
Definition isNetworkError (error : JSError) : bool :=
  bool_decide (code error = Some "ERR_NETWORK")
  || bool_decide (message error = "Network Error").

(** [response.data.<kind> || response.data.data || response.data] followed by
    [Array.isArray(data) ? data : []]. *)
Definition listOf (kind : string) (body : JSValue) : Outcome JSValue :=
  a ← get body kind;
  d ← (if JS.truthy a then Returned a
        else b ← get body "data";
             Returned (JS.or b body));
  Returned (if JS.isArray d then d else JArr []).

Definition asArray (items : list JSObject) : JSValue := JArr (JObj <$> items).

(** The offline branch shared by the three list operations that read a
    collection as it is. *)
Definition loadLocal (kind : string) (w : World) : Outcome JSValue * World :=
  let key := storageKey kind (storage w) in
  (Returned (asArray (getCollection key (storage w))), w).

Definition setOffline (w : World) : World :=
  update_storage (set_backendMode (Some "offline")) w.

(** A [try { await call; return f(response) } catch (error) { handler }]
    block: [attempt] is the outcome of the [try] body, whatever threw. *)
Definition attempt {A} (r : Outcome HttpResponse) (f : HttpResponse -> Outcome A)
    : Outcome A := response ← r; f response.

Definition fetchIncomes (srv : Server) (w : World) : Outcome JSValue * World :=
  if isOfflineMode (storage w) then loadLocal "incomes" w
  else
    let '(r, w1) := axios srv GET API_END_POINTS.INCOME JUndefined w in
    match attempt r (fun response => listOf "incomes" (data response)) with
    | Returned v => (Returned v, w1)
    | Thrown error =>
        if isNetworkError error then loadLocal "incomes" (setOffline w1)
        else (Thrown error, w1)
    end.

Definition fetchExpenses (srv : Server) (w : World) : Outcome JSValue * World :=
  if isOfflineMode (storage w) then loadLocal "expenses" w
  else
    let '(r, w1) := axios srv GET API_END_POINTS.EXPENSE JUndefined w in
    match attempt r (fun response => listOf "expenses" (data response)) with
    | Returned v => (Returned v, w1)
    | Thrown error =>
        if isNetworkError error then loadLocal "expenses" (setOffline w1)
        else (Thrown error, w1)
    end.

(** The argument of [createIncome] and [createExpense]. *)
Record TransactionInput := mkInput {
  in_name : option string;
  in_categoryId : JSNumber;
  in_amount : JSNumber;
  in_date : string;
  in_description : option string;
}.

Definition optional (k : string) (v : option string) : JSObject :=
  match v with Some s => [(k, JStr s)] | None => [] end.

Definition of_option (v : option string) : JSValue :=
  match v with Some s => JStr s | None => JUndefined end.

(** The object passed by the caller; a field that is [undefined] is left
    out, as [JSON.stringify] does. *)
Definition input_fields (i : TransactionInput) : JSObject :=
  optional "name" (in_name i) ++
  [("categoryId", JNum (in_categoryId i)); ("amount", JNum (in_amount i));
   ("date", JStr (in_date i))] ++
  optional "description" (in_description i).

Inductive CategoryType := income | expense.

#[global] Instance CategoryType_eq_dec : EqDecision CategoryType.
Proof. solve_decision. Defined.

Definition type_name (t : CategoryType) : string :=
  match t with income => "income" | expense => "expense" end.

(** [Omit<Category, 'id'>]; the category form passes no color. *)
Record CategoryInput := mkCategoryInput {
  cat_name : string;
  cat_type : CategoryType;
  cat_color : option string;
}.

Definition category_fields (c : CategoryInput) : JSObject :=
  [("name", JStr (cat_name c)); ("type", JStr (type_name (cat_type c)))] ++
  optional "color" (cat_color c).

(** [{ ...base, ...extra }] *)
Definition merge (base extra : JSObject) : JSObject :=
  foldl (fun acc kv => JS.set_field kv.1 kv.2 acc) base extra.

(** The offline branch of a create operation: read the collection, push
    [{ id: prefix + Date.now(), ...fields }], write the collection back with
    [JSON.stringify] and return the object pushed. What is stored is what
    [JSON.parse] will read: the new object after its trip through JSON. *)
Definition saveLocal (kind prefix : string) (fields : JSObject) (now : N)
    (w : World) : Outcome JSValue * World :=
  let key := storageKey kind (storage w) in
  let items := getCollection key (storage w) in
  let newItem := merge [("id", JStr (prefix +:+ pretty now))] fields in
  (Returned (JObj newItem),
   update_storage (setCollection key (items ++ [JS.json_object newItem])) w).

Definition missingFields (i : TransactionInput) : list string :=
  (if Num.falsy (in_categoryId i) then ["category"] else []) ++
  (if Num.falsy (in_amount i) || Num.le0 (in_amount i) then ["amount"] else []) ++
  (if String.eqb (in_date i) "" then ["date"] else []).

(** Validate required fields *)
Definition validate (i : TransactionInput) : Outcome () :=
  if Num.falsy (in_categoryId i) || Num.le0 (in_amount i) || String.eqb (in_date i) ""
  then Thrown (Error ("Missing required fields: " +:+ JS.join ", " (missingFields i)))
  else Returned ().

(** [{ ...response.data, name: response.data.name || input.name }] *)
Definition withName (i : TransactionInput) (response : HttpResponse) : Outcome JSValue :=
  n ← get (data response) "name";
  Returned (JObj (JS.set_field "name" (JS.or n (of_option (in_name i)))
                               (JS.spread (data response)))).

(** [errorData?.message || errorData?.error || fallback] *)
Definition serverMessage (errorData : JSValue) (fallback : string) : JSValue :=
  JS.or (JS.prop errorData "message") (JS.or (JS.prop errorData "error") (JStr fallback)).

Definition createIncomeErrorMessage (w : World) (status : Z) (errorData : JSValue)
    : JSValue :=
  if (status =? 400)%Z then
    serverMessage errorData "Invalid data. Please check all fields."
  else if (status =? 401)%Z then JStr "Unauthorized. Please login again."
  else if (status =? 403)%Z then
    if bool_decide (token (storage w) = None) || bool_decide (token (storage w) = Some "")
    then JStr "Access denied. No authentication token found. Please login again."
    else JStr ("Access denied. Backend is available but request was blocked. " +:+
               "This is usually a CORS or backend security configuration issue. " +:+
               "Please check: 1) Backend CORS allows your frontend origin (" +:+
               origin w +:+ "), " +:+
               "2) Token is valid, 3) Backend security configuration. " +:+
               "Check browser console and backend logs for details.")
  else if (status =? 404)%Z then
    JStr "Endpoint not found. Please check backend configuration."
  else if (status =? 422)%Z then
    serverMessage errorData "Validation error. Please check your input."
  else if (status =? 500)%Z then
    JStr "Server error. Backend is available but encountered an error. Please try again later."
  else
    serverMessage errorData
      ("Server error (" +:+ pretty status +:+ "). Please try again.").

(** Include validation errors if available *)
Definition withValidationErrors (errorMessage errorData : JSValue) : Outcome string :=
  match JS.prop errorData "errors" with
  | JArr errors =>
      parts ← mapM (fun e => m ← get e "message"; Returned (JS.or m e)) errors;
      Returned (JS.to_string errorMessage +:+ " Validation errors: " +:+
                JS.joinValues ", " parts)
  | _ => Returned (JS.to_string errorMessage)
  end.

Definition createIncome (srv : Server) (now : N) (i : TransactionInput) (w : World)
    : Outcome JSValue * World :=
  match validate i with
  | Thrown e => (Thrown e, w)
  | Returned _ =>
    if isOfflineMode (storage w) then saveLocal "incomes" "inc_" (input_fields i) now w
    else
      let '(r, w1) := axios srv POST API_END_POINTS.INCOME (JObj (input_fields i)) w in
      match attempt r (withName i) with
      | Returned v => (Returned v, w1)
      | Thrown error =>
          if isNetworkError error then
            saveLocal "incomes" "inc_" (input_fields i) now (setOffline w1)
          else
            match response error with
            | Some resp =>
                let errorMessage :=
                  createIncomeErrorMessage w1 (status resp) (data resp) in
                match withValidationErrors errorMessage (data resp) with
                | Returned msg => (Thrown (Error msg), w1)
                | Thrown e => (Thrown e, w1)
                end
            | None =>
                (Thrown (Error (if String.eqb (message error) ""
                                then "Failed to save income to database. Please try again."
                                else message error)), w1)
            end
      end
  end.

Definition updateIncome (srv : Server) (id : string) (patch : JSValue) (w : World)
    : Outcome JSValue * World :=
  let '(r, w1) := axios srv PUT (API_END_POINTS.INCOME +:+ "/" +:+ id) patch w in
  (response ← r; Returned (data response), w1).

Definition success : JSValue := JObj [("success", JBool true)].

(** The offline branch of a delete operation:
    [items.filter(x => x.id !== id)] written back under the same key. *)
Definition removeLocal (kind : string) (id : string) (w : World)
    : Outcome JSValue * World :=
  let key := storageKey kind (storage w) in
  let items := getCollection key (storage w) in
  let filtered :=
    List.filter (fun x => negb (JS.eq_string (JS.lookup_field "id" x) id)) items in
  (Returned success, update_storage (setCollection key filtered) w).

(** [deleteIncome] calls itself after a network error; [fuel] bounds the
    depth of that recursion. *)
Fixpoint deleteIncome (fuel : nat) (srv : Server) (id : string) (w : World)
    : option (Outcome JSValue * World) :=
  match fuel with
  | O => None
  | S fuel' =>
    if isOfflineMode (storage w) then Some (removeLocal "incomes" id w)
    else
      let '(r, w1) := axios srv DELETE (API_END_POINTS.INCOME +:+ "/" +:+ id) JUndefined w in
      match attempt r (fun response => Returned (data response)) with
      | Returned v => Some (Returned v, w1)
      | Thrown error =>
          if isNetworkError error then deleteIncome fuel' srv id (setOffline w1)
          else Some (Thrown error, w1)
      end
  end.

Definition createExpense (srv : Server) (now : N) (i : TransactionInput) (w : World)
    : Outcome JSValue * World :=
  match validate i with
  | Thrown e => (Thrown e, w)
  | Returned _ =>
    if isOfflineMode (storage w) then saveLocal "expenses" "exp_" (input_fields i) now w
    else
      let '(r, w1) := axios srv POST API_END_POINTS.EXPENSE (JObj (input_fields i)) w in
      match attempt r (withName i) with
      | Returned v => (Returned v, w1)
      | Thrown error =>
          if isNetworkError error then
            saveLocal "expenses" "exp_" (input_fields i) now (setOffline w1)
          else
            match response error with
            | Some resp =>
                let errorMessage :=
                  if (status resp =? 403)%Z then
                    JStr ("Access denied. Backend is available but request was blocked. " +:+
                          "Check CORS configuration allows: " +:+ origin w1)
                  else serverMessage (data resp) "Failed to save expense to database" in
                (Thrown (Error (JS.to_string errorMessage)), w1)
            | None => (Thrown error, w1)
            end
      end
  end.

Definition updateExpense (srv : Server) (id : string) (patch : JSValue) (w : World)
    : Outcome JSValue * World :=
  let '(r, w1) := axios srv PUT (API_END_POINTS.EXPENSE +:+ "/" +:+ id) patch w in
  (response ← r; Returned (data response), w1).

Fixpoint deleteExpense (fuel : nat) (srv : Server) (id : string) (w : World)
    : option (Outcome JSValue * World) :=
  match fuel with
  | O => None
  | S fuel' =>
    if isOfflineMode (storage w) then Some (removeLocal "expenses" id w)
    else
      let '(r, w1) := axios srv DELETE (API_END_POINTS.EXPENSE +:+ "/" +:+ id) JUndefined w in
      match attempt r (fun response => Returned (data response)) with
      | Returned v => Some (Returned v, w1)
      | Thrown error =>
          if isNetworkError error then deleteExpense fuel' srv id (setOffline w1)
          else Some (Thrown error, w1)
      end
  end.

Definition category (id name type color : string) : JSObject :=
  [("id", JStr id); ("name", JStr name); ("type", JStr type); ("color", JStr color)].

Definition defaultCategories : list JSObject :=
  [ category "1" "Salary" "income" "#10b981";
    category "2" "Freelance" "income" "#34d399";
    category "3" "Investment" "income" "#6ee7b7";
    category "4" "Food" "expense" "#ef4444";
    category "5" "Transport" "expense" "#f87171";
    category "6" "Entertainment" "expense" "#fca5a5";
    category "7" "Bills" "expense" "#dc2626" ].

(** The offline branch of [fetchCategories]. *)
Definition loadCategoriesLocal (w : World) : Outcome JSValue * World :=
  let key := storageKey "categories" (storage w) in
  let categories := getCollection key (storage w) in
  (* If no categories, return defaults *)
  if (length categories =? 0)%nat then
    (Returned (asArray defaultCategories),
     update_storage (setCollection key defaultCategories) w)
  else (Returned (asArray categories), w).

Fixpoint fetchCategories (fuel : nat) (srv : Server) (w : World)
    : option (Outcome JSValue * World) :=
  match fuel with
  | O => None
  | S fuel' =>
    if isOfflineMode (storage w) then Some (loadCategoriesLocal w)
    else
      let '(r, w1) := axios srv GET API_END_POINTS.CATEGORY JUndefined w in
      match attempt r (fun response => listOf "categories" (data response)) with
      | Returned v => Some (Returned v, w1)
      | Thrown error =>
          if isNetworkError error then fetchCategories fuel' srv (setOffline w1)
          else Some (Thrown error, w1)
      end
  end.

Fixpoint createCategory (fuel : nat) (srv : Server) (now : N) (c : CategoryInput)
    (w : World) : option (Outcome JSValue * World) :=
  match fuel with
  | O => None
  | S fuel' =>
    if isOfflineMode (storage w) then
      Some (saveLocal "categories" "cat_" (category_fields c) now w)
    else
      let '(r, w1) := axios srv POST API_END_POINTS.CATEGORY (JObj (category_fields c)) w in
      match attempt r (fun response => Returned (data response)) with
      | Returned v => Some (Returned v, w1)
      | Thrown error =>
          if isNetworkError error then createCategory fuel' srv now c (setOffline w1)
          else Some (Thrown error, w1)
      end
  end.

Definition updateCategory (srv : Server) (id : string) (patch : JSValue) (w : World)
    : Outcome JSValue * World :=
  let '(r, w1) := axios srv PUT (API_END_POINTS.CATEGORY +:+ "/" +:+ id) patch w in
  (response ← r; Returned (data response), w1).

Fixpoint deleteCategory (fuel : nat) (srv : Server) (id : string) (w : World)
    : option (Outcome JSValue * World) :=
  match fuel with
  | O => None
  | S fuel' =>
    if isOfflineMode (storage w) then Some (removeLocal "categories" id w)
    else
      let '(r, w1) := axios srv DELETE (API_END_POINTS.CATEGORY +:+ "/" +:+ id) JUndefined w in
      match attempt r (fun response => Returned (data response)) with
      | Returned v => Some (Returned v, w1)
      | Thrown error =>
          if isNetworkError error then deleteCategory fuel' srv id (setOffline w1)
          else Some (Thrown error, w1)
      end
  end.

Definition filterTransactions (srv : Server) (filters : JSValue) (w : World)
    : Outcome JSValue * World :=
  let '(r, w1) := axios srv POST API_END_POINTS.FILTER filters w in
  (attempt r (fun response => listOf "transactions" (data response)), w1).

(** *** The operations of the facade, as one type *)

Inductive Operation :=
  | FetchIncomes
  | CreateIncome (i : TransactionInput)
  | UpdateIncome (id : string) (patch : JSValue)
  | DeleteIncome (id : string)
  | FetchExpenses
  | CreateExpense (i : TransactionInput)
  | UpdateExpense (id : string) (patch : JSValue)
  | DeleteExpense (id : string)
  | FetchCategories
  | CreateCategory (c : CategoryInput)
  | UpdateCategory (id : string) (patch : JSValue)
  | DeleteCategory (id : string)
  | FilterTransactions (filters : JSValue).

(** One call of the facade: [srv] is the remote store, [now] the value of
    [Date.now()] during the call, [fuel] the bound on the retry recursion. *)
Definition run (fuel : nat) (srv : Server) (now : N) (op : Operation) (w : World)
    : option (Outcome JSValue * World) :=
  match op with
  | FetchIncomes => Some (fetchIncomes srv w)
  | CreateIncome i => Some (createIncome srv now i w)
  | UpdateIncome id patch => Some (updateIncome srv id patch w)
  | DeleteIncome id => deleteIncome fuel srv id w
  | FetchExpenses => Some (fetchExpenses srv w)
  | CreateExpense i => Some (createExpense srv now i w)
  | UpdateExpense id patch => Some (updateExpense srv id patch w)
  | DeleteExpense id => deleteExpense fuel srv id w
  | FetchCategories => fetchCategories fuel srv w
  | CreateCategory c => createCategory fuel srv now c w
  | UpdateCategory id patch => Some (updateCategory srv id patch w)
  | DeleteCategory id => deleteCategory fuel srv id w
  | FilterTransactions filters => Some (filterTransactions srv filters w)
  end.

(** The operations that have an offline branch. *)
Definition hasOfflineBranch (op : Operation) : bool :=
  match op with
  | UpdateIncome _ _ | UpdateExpense _ _ | UpdateCategory _ _
  | FilterTransactions _ => false
  | _ => true
  end.

(** ** Authentication (Login.tsx, Register.tsx) *)

(** "Handle different response formats": the token and the user found in the
    response body, [null] when no format matches. *)
Definition extractAuth (d : JSValue) : Outcome (JSValue * JSValue) :=
  tok ← get d "token";
  let user := JS.prop d "user" in
  let inner := JS.prop d "data" in
  (* Format 1: { token, user } *)
  if JS.truthy tok && JS.truthy user then Returned (tok, user)
  (* Format 2: { success, token, data: { user } } *)
  else if JS.truthy (JS.prop d "success") && JS.truthy tok
          && JS.truthy (JS.prop inner "user")
  then Returned (tok, JS.prop inner "user")
  (* Format 3: { accessToken, user } *)
  else if JS.truthy (JS.prop d "accessToken") && JS.truthy user
  then Returned (JS.prop d "accessToken", user)
  (* Format 4: { data: { token, user } } *)
  else if JS.truthy (JS.prop inner "token") && JS.truthy (JS.prop inner "user")
  then Returned (JS.prop inner "token", JS.prop inner "user")
  else Returned (JNull, JNull).

Definition InvalidServerResponse : JSError := Error "Invalid response from server".

(** The rest of the [try] body up to the writes: the token check, the
    fallback user and [token.substring(0, 20)], which throws unless the
    token is a string. *)
Definition normalizeAuth (fallbackUser : JSValue) (d : JSValue)
    : Outcome (string * JSValue) :=
  '(tok, user) ← extractAuth d;
  if negb (JS.truthy tok) then Thrown InvalidServerResponse
  else
    let user := if negb (JS.truthy user) then fallbackUser else user in
    match tok with
    | JStr t => Returned (t, user)
    | _ => Thrown (Error "token.substring is not a function")
    end.

(** What the form does in the end: show an error, or hand the user and the
    token to the application ([onLogin], [onRegister]). *)
Inductive AuthResult :=
  | ShowError (msg : JSValue)
  | Authenticated (user : JSValue) (tok : string).

(** The three writes of a successful authentication, and the write of
    [App.handleLogin] / [App.handleRegister] that follows. *)
Definition storeSession (tok : string) (user : JSValue) (mode : string)
    (ls : LocalStorage) : LocalStorage :=
  set_currentUser (Some user)
    (set_backendMode (Some mode) (set_currentUser (Some user) (set_token (Some tok) ls))).

Definition without (k : string) (fs : JSObject) : JSObject :=
  List.filter (fun kv => negb (String.eqb kv.1 k)) fs.

(** [apiError.code === 'ERR_NETWORK' || apiError.message === 'Network Error'
     || !apiError.response] *)
Definition usesOfflineFallback (apiError : JSError) : bool :=
  isNetworkError apiError || bool_decide (response apiError = None).

(** [d?.message || d?.error || d?.msg || fallback] on [apiError.response?.data] *)
Definition authErrorMessage (apiError : JSError) (fallback : string) : JSValue :=
  let d := match response apiError with Some r => data r | None => JUndefined end in
  JS.or (JS.prop d "message")
    (JS.or (JS.prop d "error") (JS.or (JS.prop d "msg") (JStr fallback))).

Module Login.

Definition handleSubmit (srv : Server) (now : N) (email password : string) (w : World)
  : AuthResult * World :=
if String.eqb email "" || String.eqb password "" then
  (ShowError (JStr "Please fill in all fields"), w)
else
  let '(r, w1) :=
    axios srv POST API_END_POINTS.LOGIN
          (JObj [("email", JStr email); ("password", JStr password)]) w in
  let fallbackUser :=
    JObj [("email", JStr email); ("username", JStr (before "@" email))] in
  match attempt r (fun response => normalizeAuth fallbackUser (data response)) with
  | Returned (tok, user) =>
      (Authenticated user tok, update_storage (storeSession tok user "online") w1)
  | Thrown apiError =>
      if usesOfflineFallback apiError then
        match List.find (fun u => JS.eq_string (JS.lookup_field "email" u) email
                                  && JS.eq_string (JS.lookup_field "password" u) password)
                        (users (storage w1)) with
        | Some user =>
            let offlineToken := "offline_" +:+ pretty now in
            let userWithoutPassword := JObj (without "password" user) in
            (Authenticated userWithoutPassword offlineToken,
             update_storage (storeSession offlineToken userWithoutPassword "offline") w1)
        | None =>
            (ShowError (JStr "Invalid email or password. (Offline Mode - Create an account first)"),
             w1)
        end
      else (ShowError (authErrorMessage apiError "Invalid email or password"), w1)
  end.

End Login.

Module Register.

Definition handleSubmit (srv : Server) (now1 now2 : N)
  (username email password confirmPassword : string) (w : World)
  : AuthResult * World :=
if String.eqb username "" || String.eqb email "" || String.eqb password ""
   || String.eqb confirmPassword "" then
  (ShowError (JStr "Please fill in all fields"), w)
else if negb (String.eqb password confirmPassword) then
  (ShowError (JStr "Passwords do not match"), w)
else if (Str.length password <? 6)%nat then
  (ShowError (JStr "Password must be at least 6 characters"), w)
else
  let '(r, w1) :=
    axios srv POST API_END_POINTS.REGISTER
          (JObj [("username", JStr username); ("email", JStr email);
                 ("password", JStr password)]) w in
  let fallbackUser := JObj [("email", JStr email); ("username", JStr username)] in
  match attempt r (fun response => normalizeAuth fallbackUser (data response)) with
  | Returned (tok, user) =>
      (Authenticated user tok, update_storage (storeSession tok user "online") w1)
  | Thrown apiError =>
      if usesOfflineFallback apiError then
        let users := users (storage w1) in
        if existsb (fun u => JS.eq_string (JS.lookup_field "email" u) email) users then
          (ShowError (JStr "Email already exists"), w1)
        else
          let newUser :=
            [("id", JStr ("user_" +:+ pretty now1)); ("username", JStr username);
             ("email", JStr email); ("password", JStr password)] in
          let offlineToken := "offline_" +:+ pretty now2 in
          let userWithoutPassword := JObj (without "password" newUser) in
          (Authenticated userWithoutPassword offlineToken,
           update_storage
             (fun ls => storeSession offlineToken userWithoutPassword "offline"
                          (set_users (users ++ [newUser]) ls)) w1)
      else
        (ShowError (authErrorMessage apiError "Registration failed. Email may already exist."),
         w1)
  end.

End Register.

(** ** The category form (CategoryPage.tsx) *)

(** [Category] of App.tsx, the element type of the form's [categories]. *)
Record Category := mkCategory {
  category_id : string;
  category_name : string;
  category_type : CategoryType;
  category_color : string;
}.

Inductive FormResult :=
  | FormError (msg : JSValue)
  | Added (newCategory : JSValue).

Module CategoryPage.

Section Form.
(** [String.prototype.toLowerCase] *)
Variable toLowerCase : string -> string.

(** [categories.some(cat => cat.name.toLowerCase() === name.toLowerCase()
                          && cat.type === type)] *)
Definition isDuplicate (categories : list Category) (name : string)
  (type : CategoryType) : bool :=
existsb (fun cat => String.eqb (toLowerCase (category_name cat)) (toLowerCase name)
                    && bool_decide (category_type cat = type)) categories.

(** [handleSubmit], with [addCategory] bound to [App.addCategory], that is to
  [apiService.createCategory]. *)
Definition handleSubmit (fuel : nat) (srv : Server) (now : N)
  (categories : list Category) (name : string) (type : CategoryType) (w : World)
  : option (FormResult * World) :=
if String.eqb (trim name) "" then
  Some (FormError (JStr "Please enter a category name"), w)
else if isDuplicate categories name type then
  Some (FormError (JStr "A category with this name already exists for this type"), w)
else
  match createCategory fuel srv now (mkCategoryInput name type None) w with
  | Some (Returned newCategory, w1) => Some (Added newCategory, w1)
  | Some (Thrown err, w1) =>
      let d := match response err with Some r => data r | None => JUndefined end in
      Some (FormError (JS.or (JS.prop d "message")
                             (JStr "Failed to add category. Please try again.")), w1)
  | None => None
  end.

End Form.

End CategoryPage.

(** ** Vocabulary of the statements *)

Inductive Resource := Incomes | Expenses | Categories.

(** The [<kind>] of the storage key [<kind>_<userId>]. *)
Definition kind (r : Resource) : string :=
  match r with
  | Incomes => "incomes"
  | Expenses => "expenses"
  | Categories => "categories"
  end.

Definition Fetch (r : Resource) : Operation :=
  match r with
  | Incomes => FetchIncomes
  | Expenses => FetchExpenses
  | Categories => FetchCategories
  end.

Definition Delete (r : Resource) (id : string) : Operation :=
  match r with
  | Incomes => DeleteIncome id
  | Expenses => DeleteExpense id
  | Categories => DeleteCategory id
  end.

(** The stored collection of resource [r] for the current user. *)
Definition stored (r : Resource) (w : World) : list JSObject :=
  getCollection (storageKey (kind r) (storage w)) (storage w).

(** The check an operation makes before it looks at the mode. *)
Definition precheck (op : Operation) : Outcome () :=
  match op with
  | CreateIncome i | CreateExpense i => validate i
  | _ => Returned ()
  end.

(** The offline branch of an operation that has one. *)
Definition localStore (now : N) (op : Operation) (w : World) : Outcome JSValue * World :=
  match op with
  | FetchIncomes => loadLocal "incomes" w
  | FetchExpenses => loadLocal "expenses" w
  | FetchCategories => loadCategoriesLocal w
  | CreateIncome i => saveLocal "incomes" "inc_" (input_fields i) now w
  | CreateExpense i => saveLocal "expenses" "exp_" (input_fields i) now w
  | CreateCategory c => saveLocal "categories" "cat_" (category_fields c) now w
  | DeleteIncome id => removeLocal "incomes" id w
  | DeleteExpense id => removeLocal "expenses" id w
  | DeleteCategory id => removeLocal "categories" id w
  | UpdateIncome _ _ | UpdateExpense _ _ | UpdateCategory _ _
  | FilterTransactions _ => (Returned JUndefined, w)
  end.

(** The HTTP call an operation makes when it goes to the remote store. *)
Definition remoteCall (op : Operation) (srv : Server) (w : World)
    : Outcome HttpResponse * World :=
  match op with
  | FetchIncomes => axios srv GET API_END_POINTS.INCOME JUndefined w
  | FetchExpenses => axios srv GET API_END_POINTS.EXPENSE JUndefined w
  | FetchCategories => axios srv GET API_END_POINTS.CATEGORY JUndefined w
  | CreateIncome i => axios srv POST API_END_POINTS.INCOME (JObj (input_fields i)) w
  | CreateExpense i => axios srv POST API_END_POINTS.EXPENSE (JObj (input_fields i)) w
  | CreateCategory c => axios srv POST API_END_POINTS.CATEGORY (JObj (category_fields c)) w
  | UpdateIncome id patch => axios srv PUT (API_END_POINTS.INCOME +:+ "/" +:+ id) patch w
  | UpdateExpense id patch => axios srv PUT (API_END_POINTS.EXPENSE +:+ "/" +:+ id) patch w
  | UpdateCategory id patch => axios srv PUT (API_END_POINTS.CATEGORY +:+ "/" +:+ id) patch w
  | DeleteIncome id => axios srv DELETE (API_END_POINTS.INCOME +:+ "/" +:+ id) JUndefined w
  | DeleteExpense id => axios srv DELETE (API_END_POINTS.EXPENSE +:+ "/" +:+ id) JUndefined w
  | DeleteCategory id => axios srv DELETE (API_END_POINTS.CATEGORY +:+ "/" +:+ id) JUndefined w
  | FilterTransactions filters => axios srv POST API_END_POINTS.FILTER filters w
  end.


(** [createIncome] or [createExpense], by the type of the transaction. *)
Definition Create (t : CategoryType) (i : TransactionInput) : Operation :=
  match t with
  | income => CreateIncome i
  | expense => CreateExpense i
  end.

Definition resourceOf (t : CategoryType) : Resource :=
  match t with income => Incomes | expense => Expenses end.

Definition idPrefix (t : CategoryType) : string :=
  match t with income => "inc_" | expense => "exp_" end.

(** The ids of all the transactions stored for the current user. *)
Definition transactionIds (w : World) : list JSValue :=
  map (JS.lookup_field "id") (stored Incomes w ++ stored Expenses w).

(** The record carries the id a local create gave it at a clock reading
    earlier than [now]. *)
Definition generatedBefore (t : CategoryType) (now : N) (x : JSObject) : Prop :=
  ∃ at_ : N, JS.lookup_field "id" x = JStr (idPrefix t +:+ pretty at_) ∧ (at_ < now)%N.

(** The invariant of the local transaction store at clock reading [now]. *)
Definition locallyGenerated (now : N) (w : World) : Prop :=
  Forall (generatedBefore income now) (stored Incomes w)
  ∧ Forall (generatedBefore expense now) (stored Expenses w).

(** [x.id !== id] *)
Definition otherId (id : string) (x : JSObject) : bool :=
  negb (JS.eq_string (JS.lookup_field "id" x) id).

(** ** Sample data *)

Module Sample.
Definition user : JSValue :=
  JObj [("id", JStr "u1"); ("username", JStr "joe"); ("email", JStr "joe@example.com")].

Definition salary : JSObject :=
  [("id", JStr "inc_1"); ("name", JStr "Salary"); ("categoryId", JNum 1);
   ("amount", JNum 5000); ("date", JStr "2025-01-01")].

Definition bonus : JSObject :=
  [("id", JStr "inc_2"); ("name", JStr "Bonus"); ("categoryId", JNum 1);
   ("amount", JNum 700); ("date", JStr "2025-02-01")].

Definition offlineStorage : LocalStorage :=
  mkStorage (Some "offline") (Some "offline_1") (Some user) []
            {[ "incomes_u1" := [salary; bonus] ]}.

Definition onlineStorage : LocalStorage :=
  mkStorage (Some "online") (Some "jwt") (Some user) [] ∅.

Definition offlineWorld : World := mkWorld offlineStorage [] None "http://localhost:5173".
Definition onlineWorld : World := mkWorld onlineStorage [] None "http://localhost:5173".

(** A server nobody can reach. *)
Definition unreachable : Server :=
  fun _ => Failed (NoResponse (Some "ERR_NETWORK") "Network Error").

(** A server that answers every request with the same status and body. *)
Definition answers (st : Z) (d : JSValue) : Server :=
  fun _ => if (200 <=? st)%Z && (st <? 300)%Z then Responded (mkResponse st d)
           else Failed (BadStatus (mkResponse st d)).

Definition salaryInput : TransactionInput :=
  mkInput (Some "Salary") 1 5000 "2025-01-01" None.

Definition patch : JSValue := JObj [("amount", JNum 6000)].

(** [{ success: true, data: { incomes: [salary] } }] *)
Definition nested : JSValue :=
  JObj [("success", JBool true); ("data", JObj [("incomes", JArr [JObj salary])])].

(** [{ incomes: [salary] }] *)
Definition keyed : JSValue := JObj [("incomes", JArr [JObj salary])].

(** An account registered earlier while offline. *)
Definition localUser : JSObject :=
  [("id", JStr "user_1"); ("username", JStr "joe"); ("email", JStr "joe@example.com");
   ("password", JStr "secret")].

(** Nobody is logged in; one local account exists. *)
Definition loggedOutWorld : World :=
  mkWorld (mkStorage None None None [localUser] ∅) [] None "http://localhost:5173".

(** Nobody is logged in and no local account exists. *)
Definition freshWorld : World :=
  mkWorld (mkStorage None None None [] ∅) [] None "http://localhost:5173".

Definition food : CategoryInput := mkCategoryInput "Food" expense None.

Definition freelance : TransactionInput :=
  mkInput (Some "Freelance") 2 300 "2025-01-01" (Some "side job").

(** The categories the form shows. *)
Definition shown : list Category :=
  [mkCategory "4" "Food" expense "#ef4444"; mkCategory "1" "Salary" income "#10b981"].

Definition loginRequest : Request :=
  mkRequest POST "/login"
            (JObj [("email", JStr "joe@example.com"); ("password", JStr "secret")]) None.
End Sample.

(** The normalization of a list response as the specification words it: the
    shapes bare array, [{ <kind>: array }], [{ data: array }] and
    [{ success, data: { <kind>: array } }] tried in this order, the first
    that fits returned, the empty collection when none fits. *)
Definition firstRecognizedShape (kind : string) (body : JSValue) : JSValue :=
  match body with
  | JArr _ => body
  | _ =>
    match JS.prop body kind with
    | JArr l => JArr l
    | _ =>
      match JS.prop body "data" with
      | JArr l => JArr l
      | d => match JS.prop d kind with
             | JArr l => JArr l
             | _ => JArr []
             end
      end
    end
  end.

(** ** More of the client *)

(** *** apiService.ts: mode helpers and the authentication services *)

Definition forceOnlineMode (w : World) : World :=
  update_storage (set_backendMode (Some "online")) w.

(** [!!localStorage.getItem('token')] *)
Definition hasToken (ls : LocalStorage) : bool :=
  match token ls with
  | Some t => negb (String.eqb t "")
  | None => false
  end.

(** The request carries [{ timeout: 5000 }]; a timeout is one of the answers
    of the [Server]. *)
Definition checkBackendAvailable (srv : Server) (w : World) : bool * World :=
  if negb (hasToken (storage w)) then (false, w)
  else
    let '(r, w1) := axios srv GET API_END_POINTS.INCOME JUndefined w in
    match r with
    | Returned response =>
        ((status response =? 200)%Z || (status response =? 204)%Z, w1)
    | Thrown error =>
        (* Only network errors mean backend is unavailable *)
        (negb (isNetworkError error), w1)
    end.

(** The [catch] of [loginUser] and [registerUser]. *)
Definition authServiceError (fallback : string) (error : JSError) : JSError :=
  match response error with
  | Some resp => Error (JS.to_string (serverMessage (data resp) fallback))
  | None => error
  end.

Definition loginUser (srv : Server) (email password : string) (w : World)
    : Outcome JSValue * World :=
  let '(r, w1) :=
    axios srv POST API_END_POINTS.LOGIN
          (JObj [("email", JStr email); ("password", JStr password)]) w in
  match r with
  | Returned response => (Returned (data response), w1)
  | Thrown error => (Thrown (authServiceError "Login failed" error), w1)
  end.

Definition registerUser (srv : Server) (username email password : string) (w : World)
    : Outcome JSValue * World :=
  let '(r, w1) :=
    axios srv POST API_END_POINTS.REGISTER
          (JObj [("username", JStr username); ("email", JStr email);
                 ("password", JStr password)]) w in
  match r with
  | Returned response => (Returned (data response), w1)
  | Thrown error => (Thrown (authServiceError "Registration failed" error), w1)
  end.

(** *** tokenManager.ts *)

Definition getToken (ls : LocalStorage) : option string := token ls.

Definition isAuthenticated (ls : LocalStorage) : bool := hasToken ls.

Definition clearAuthToken (ls : LocalStorage) : LocalStorage :=
  set_backendMode None (set_currentUser None (set_token None ls)).

Record TokenUsage := mkTokenUsage {
  tokenExists : bool;
  tokenValue : option string;
  tokenLength : nat;
  bearerFormat : bool;
}.

(** A token is a JWT or [offline_<digits>]: ASCII characters, one byte and
    one code unit each, so its [length] and [substring] are taken on the
    bytes. *)
Definition verifyTokenUsage (ls : LocalStorage) : TokenUsage :=
  let tok := getToken ls in
  let tokenExists := hasToken ls in
  let tokenLength := match tok with Some t => String.length t | None => 0%nat end in
  {| tokenExists := tokenExists;
     tokenValue := match tok with
                   | Some t => if String.eqb t "" then None
                               else Some (String.substring 0 20 t +:+ "...")
                   | None => None
                   end;
     tokenLength := tokenLength;
     bearerFormat := tokenExists && (20 <? tokenLength)%nat |}.

(** *** App.tsx: the session handlers *)

Module App.

Inductive Page :=
  | dashboard | incomePage | expensePage | categoryPage | filterPage | profilePage | about.

(** The state hooks of [App]. *)
Record State := mkState {
  st_isAuthenticated : bool;
  st_showRegister : bool;
  st_currentUser : option JSValue;
  st_currentPage : Page;
  st_transactions : list JSValue;
  st_categories : list JSValue;
  st_loading : bool;
  st_dataLoading : bool;
  st_error : option string;
  st_backendMode : string;
}.

Definition initial : State :=
  mkState false false None dashboard [] [] true false None "online".

(** "Check authentication on mount", the first effect. *)
Definition checkAuthentication (st : State) (w : World) : State * World :=
  let mode := match backendMode (storage w) with
              | Some m => if String.eqb m "" then "online" else m
              | None => "online"
              end in
  match currentUser (storage w) with
  | Some authUser =>
      if hasToken (storage w) then
        (mkState true (st_showRegister st) (Some authUser) (st_currentPage st)
                 (st_transactions st) (st_categories st) (st_loading st)
                 (st_dataLoading st) (st_error st) "online",
         update_storage (set_backendMode (Some "online")) w)
      else
        (mkState (st_isAuthenticated st) (st_showRegister st) (st_currentUser st)
                 (st_currentPage st) (st_transactions st) (st_categories st) false
                 (st_dataLoading st) (st_error st) mode, w)
  | None =>
      (mkState (st_isAuthenticated st) (st_showRegister st) (st_currentUser st)
               (st_currentPage st) (st_transactions st) (st_categories st) false
               (st_dataLoading st) (st_error st) mode, w)
  end.

(** [handleLogin] and [handleRegister] are the same function. *)
Definition handleLogin (user : JSValue) (tok : string) (st : State) (w : World)
    : State * World :=
  (mkState true (st_showRegister st) (Some user) (st_currentPage st)
           (st_transactions st) (st_categories st) (st_loading st)
           (st_dataLoading st) (st_error st) (st_backendMode st),
   update_storage (set_currentUser (Some user)) w).

Definition handleLogout (st : State) (w : World) : State * World :=
  (mkState false (st_showRegister st) None dashboard [] [] (st_loading st)
           (st_dataLoading st) (st_error st) (st_backendMode st),
   update_storage
     (fun ls => set_backendMode None (set_currentUser None (set_token None ls))) w).

Definition handleUpdateProfile (updatedUser : JSValue) (st : State) (w : World)
    : State * World :=
  (mkState (st_isAuthenticated st) (st_showRegister st) (Some updatedUser)
           (st_currentPage st) (st_transactions st) (st_categories st)
           (st_loading st) (st_dataLoading st) (st_error st) (st_backendMode st),
   update_storage (set_currentUser (Some updatedUser)) w).

End App.

(** *** Profile.tsx *)

Module Profile.

(** The [UserProfile] object built by the form; a password that is
    [undefined] is a field [JSON.stringify] leaves out. *)
Definition profile (username email : string) (password : JSValue)
    (profileImage : string) : JSValue :=
  JObj ([("username", JStr username); ("email", JStr email)] ++
        match password with
        | JUndefined => []
        | v => [("password", v)]
        end ++
        [("profileImage", JStr profileImage)]).

(** [handleSubmit]: the error shown, or the profile handed to
    [onUpdateProfile]. *)
Definition handleSubmit (user : JSValue)
    (username email currentPassword newPassword confirmPassword profileImage : string)
    : string + JSValue :=
  if String.eqb username "" || String.eqb email "" then
    inl "Username and email are required"
  (* If changing password, validate *)
  else if negb (String.eqb newPassword "") || negb (String.eqb confirmPassword "")
          || negb (String.eqb currentPassword "") then
    if String.eqb currentPassword "" then inl "Please enter your current password"
    else if negb (JS.eq_string (JS.prop user "password") currentPassword) then
      inl "Current password is incorrect"
    else if negb (String.eqb newPassword confirmPassword) then
      inl "New passwords do not match"
    else if (Str.length newPassword <? 6)%nat then
      inl "Password must be at least 6 characters"
    else inr (profile username email (JStr newPassword) profileImage)
  else inr (profile username email (JS.prop user "password") profileImage).

End Profile.

(** *** Vocabulary of the further statements *)

(** The [<kind>] of the collection an operation works on. *)
Definition kindOf (op : Operation) : string :=
  match op with
  | FetchIncomes | CreateIncome _ | UpdateIncome _ _ | DeleteIncome _ => "incomes"
  | FetchExpenses | CreateExpense _ | UpdateExpense _ _ | DeleteExpense _ => "expenses"
  | FetchCategories | CreateCategory _ | UpdateCategory _ _ | DeleteCategory _ =>
      "categories"
  | FilterTransactions _ => "transactions"
  end.

(** The operations whose URL does not depend on an argument. *)
Definition hasFixedUrl (op : Operation) : bool :=
  match op with
  | UpdateIncome _ _ | UpdateExpense _ _ | UpdateCategory _ _
  | DeleteIncome _ | DeleteExpense _ | DeleteCategory _ => false
  | _ => true
  end.

(** The operations addressed by id, and their id. *)
Definition idOf (op : Operation) : option string :=
  match op with
  | UpdateIncome id _ | UpdateExpense id _ | UpdateCategory id _
  | DeleteIncome id | DeleteExpense id | DeleteCategory id => Some id
  | _ => None
  end.

(** What the validation of a create refuses in a number: [!n], and [n <= 0]. *)
Definition zeroOrNaN (n : JSNumber) : Prop := n = Finite 0 ∨ n = NaN.

Definition notPositive (n : JSNumber) : Prop :=
  (∃ z : Z, n = Finite z ∧ (z ≤ 0)%Z) ∨ n = Infinity true.

(** A string made of white space only. *)
Definition blank (s : string) : Prop :=
  ∃ parts, Forall (λ p, p ∈ whiteSpace) parts ∧ s = foldr String.append "" parts.

(** The local accounts with these credentials. *)
Definition credentialsOf (email password : string) (account : JSObject) : Prop :=
  JS.lookup_field "email" account = JStr email
  ∧ JS.lookup_field "password" account = JStr password.

(** The emails of the local accounts. *)
Definition localEmails (ls : LocalStorage) : list JSValue :=
  map (JS.lookup_field "email") (users ls).

(** *** Further sample data *)

Module Scenario.
(** A request that times out. *)
Definition timesOut : Server :=
  fun _ => Failed (NoResponse (Some "ECONNABORTED") "timeout of 5000ms exceeded").

(** A server that accepts everything with an empty object. *)
Definition accepts : Server := fun _ => Responded (mkResponse 200 (JObj [])).

(** A second local account with the email and the password of the first. *)
Definition twin : JSObject :=
  [("id", JStr "user_2"); ("username", JStr "joseph"); ("email", JStr "joe@example.com");
   ("password", JStr "secret")].

Definition twoAccounts : World :=
  mkWorld (mkStorage None None None [Sample.localUser; twin] ∅) [] None
          "http://localhost:5173".
End Scenario.

(** * Properties *)

(** ** The local store *)

Section LocalStore.
Implicit Types (ls : LocalStorage) (w : World) (key : string).

Lemma getUserId_setCollection key items ls :
  getUserId (setCollection key items ls) = getUserId ls.
Proof. reflexivity. Qed.

Lemma storageKey_setCollection k key items ls :
  storageKey k (setCollection key items ls) = storageKey k ls.
Proof. reflexivity. Qed.

Lemma storageKey_set_backendMode k m ls :
  storageKey k (set_backendMode m ls) = storageKey k ls.
Proof. reflexivity. Qed.

Lemma getCollection_setCollection key items ls :
  getCollection key (setCollection key items ls) = items.
Proof. unfold getCollection, setCollection; simpl. by rewrite lookup_insert_eq. Qed.

Lemma getCollection_setCollection_ne key key' items ls :
  key ≠ key' →
  getCollection key' (setCollection key items ls) = getCollection key' ls.
Proof.
  intros Hne. unfold getCollection, setCollection; simpl.
  by rewrite lookup_insert_ne.
Qed.

Lemma setCollection_idemp key items items' ls :
  setCollection key items (setCollection key items' ls) = setCollection key items ls.
Proof. unfold setCollection; simpl. by rewrite insert_insert_eq. Qed.

Lemma isOfflineMode_setCollection key items ls :
  isOfflineMode (setCollection key items ls) = isOfflineMode ls.
Proof. reflexivity. Qed.

Lemma isOfflineMode_setOffline w : isOfflineMode (storage (setOffline w)) = true.
Proof. reflexivity. Qed.

Lemma filter_otherId_idemp id (items : list JSObject) :
  List.filter (otherId id) (List.filter (otherId id) items)
  = List.filter (otherId id) items.
Proof.
  induction items as [|x items IH]; simpl; [done|].
  destruct (otherId id x) eqn:Hx; simpl; rewrite ?Hx, IH; done.
Qed.

Lemma removeLocal_spec r id w :
  removeLocal (kind r) id w
  = (Returned success,
     update_storage
       (setCollection (storageKey (kind r) (storage w))
                      (List.filter (otherId id) (stored r w))) w).
Proof. reflexivity. Qed.
End LocalStore.

(** C9. In local mode, deleting an income, an expense or a category by id
    always returns [{ success: true }], whether or not a record has that id;
    the stored collection becomes the old one without the records whose id
    is the given id, the others staying in place, and nothing else in the
    world changes; deleting the same id again returns success and leaves
    that state as it is. *)
Theorem local_delete_idempotent (r : Resource) (id : string) (fuel : nat)
    (srv srv' : Server) (now now' : N) (w : World) :
  isOfflineMode (storage w) = true →
  let w' := update_storage
              (setCollection (storageKey (kind r) (storage w))
                             (List.filter (otherId id) (stored r w))) w in
  run (S fuel) srv now (Delete r id) w = Some (Returned success, w')
  ∧ stored r w' = List.filter (otherId id) (stored r w)
  ∧ (∀ x, x ∈ stored r w' ↔ x ∈ stored r w ∧ JS.lookup_field "id" x ≠ JStr id)
  ∧ (∀ key, key ≠ storageKey (kind r) (storage w) →
       collections (storage w') !! key = collections (storage w) !! key)
  ∧ run (S fuel) srv' now' (Delete r id) w' = Some (Returned success, w').
Proof.
  intros Hoff w'.
  assert (Hstored : stored r w' = List.filter (otherId id) (stored r w)).
  { unfold stored, w'; simpl. rewrite storageKey_setCollection.
    apply getCollection_setCollection. }
  assert (Hoff' : isOfflineMode (storage w') = true) by exact Hoff.
  assert (Hrun : ∀ s n v, isOfflineMode (storage v) = true →
            run (S fuel) s n (Delete r id) v = Some (removeLocal (kind r) id v)).
  { intros s n v Hv. destruct r; simpl; by rewrite Hv. }
  split_and!.
  - rewrite Hrun by done. by rewrite removeLocal_spec.
  - done.
  - intros x. rewrite Hstored, !list_elem_of_In, filter_In.
    unfold otherId, JS.eq_string.
    split; intros [Hin Hid]; split; try done.
    + intros Heq. rewrite Heq, String.eqb_refl in Hid. done.
    + destruct (JS.lookup_field "id" x) as [| | | |s| |]; try done.
      destruct (String.eqb_spec s id) as [->|]; done.
  - intros key Hne. unfold w'; simpl. by rewrite lookup_insert_ne.
  - rewrite Hrun by done. rewrite removeLocal_spec, Hstored, filter_otherId_idemp.
    unfold w', update_storage, set_storage; simpl.
    rewrite storageKey_setCollection, setCollection_idemp. done.
Qed.

Lemma local_delete_idempotent_witness :
  isOfflineMode (storage Sample.offlineWorld) = true
  ∧ ∃ w', run 1 Sample.unreachable 0 (Delete Incomes "inc_1") Sample.offlineWorld
          = Some (Returned success, w')
          ∧ stored Incomes w' = [Sample.bonus]
          ∧ run 1 Sample.unreachable 1 (Delete Incomes "inc_1") w'
            = Some (Returned success, w').
Proof.
  split; [reflexivity|].
  destruct (local_delete_idempotent Incomes "inc_1" 0 Sample.unreachable
              Sample.unreachable 0 1 Sample.offlineWorld eq_refl)
    as (Hrun & Hstored & _ & _ & Hagain).
  eexists. split_and!; [exact Hrun | exact Hstored | exact Hagain].
Defined.

(** C10. In local mode, fetching the categories of a user whose stored
    category collection is empty (or absent) writes the fixed list of seven
    default categories under that user's key and returns it; a later fetch
    returns the same seven categories and changes nothing. *)
Theorem default_categories_seeded (fuel fuel' : nat) (srv srv' : Server) (now now' : N)
    (w : World) :
  isOfflineMode (storage w) = true →
  stored Categories w = [] →
  let key := storageKey "categories" (storage w) in
  let w' := update_storage (setCollection key defaultCategories) w in
  run (S fuel) srv now FetchCategories w
  = Some (Returned (asArray defaultCategories), w')
  ∧ collections (storage w') !! key = Some defaultCategories
  ∧ storageKey "categories" (storage w') = key
  ∧ run (S fuel') srv' now' FetchCategories w'
    = Some (Returned (asArray defaultCategories), w')
  ∧ length defaultCategories = 7%nat
  ∧ map (λ c, (JS.lookup_field "name" c, JS.lookup_field "type" c,
               JS.lookup_field "color" c)) defaultCategories
    = [ (JStr "Salary", JStr "income", JStr "#10b981");
        (JStr "Freelance", JStr "income", JStr "#34d399");
        (JStr "Investment", JStr "income", JStr "#6ee7b7");
        (JStr "Food", JStr "expense", JStr "#ef4444");
        (JStr "Transport", JStr "expense", JStr "#f87171");
        (JStr "Entertainment", JStr "expense", JStr "#fca5a5");
        (JStr "Bills", JStr "expense", JStr "#dc2626") ].
Proof.
  intros Hoff Hempty key w'.
  assert (Hoff' : isOfflineMode (storage w') = true) by exact Hoff.
  assert (Hrun : ∀ f s n v, isOfflineMode (storage v) = true →
            run (S f) s n FetchCategories v = Some (loadCategoriesLocal v)).
  { intros f s n v Hv. simpl. by rewrite Hv. }
  assert (Hstored' : getCollection key (storage w') = defaultCategories).
  { apply getCollection_setCollection. }
  split_and!; try reflexivity.
  - rewrite Hrun by done. unfold loadCategoriesLocal.
    unfold stored in Hempty; simpl in Hempty. by rewrite Hempty.
  - unfold w'; simpl. by rewrite lookup_insert_eq.
  - rewrite Hrun by done. unfold loadCategoriesLocal.
    replace (storageKey "categories" (storage w')) with key by reflexivity.
    by rewrite Hstored'.
Qed.

Lemma default_categories_seeded_witness :
  isOfflineMode (storage Sample.offlineWorld) = true
  ∧ stored Categories Sample.offlineWorld = []
  ∧ ∃ w', run 1 Sample.unreachable 0 FetchCategories Sample.offlineWorld
          = Some (Returned (asArray defaultCategories), w')
          ∧ run 1 Sample.unreachable 1 FetchCategories w'
            = Some (Returned (asArray defaultCategories), w').
Proof.
  split_and!; [reflexivity..|].
  destruct (default_categories_seeded 0 0 Sample.unreachable Sample.unreachable 0 1
              Sample.offlineWorld eq_refl eq_refl)
    as (Hrun & _ & _ & Hagain & _).
  eexists. split; [exact Hrun | exact Hagain].
Defined.

(** ** Routing *)

Section Routing.
Implicit Types (op : Operation) (w : World) (srv : Server) (e : JSError).

Lemma run_offline op fuel srv now w :
  hasOfflineBranch op = true →
  isOfflineMode (storage w) = true →
  run (S fuel) srv now op w
  = Some (match precheck op with
          | Thrown e => (Thrown e, w)
          | Returned _ => localStore now op w
          end).
Proof.
  intros Hop Hoff.
  destruct op; try discriminate Hop; simpl;
    unfold fetchIncomes, fetchExpenses, createIncome, createExpense;
    try destruct (validate i) as [[]|err]; rewrite ?Hoff; reflexivity.
Qed.

Lemma localStore_returns op now w :
  ∃ v w', localStore now op w = (Returned v, w')
          ∧ requests w' = requests w
          ∧ href w' = href w
          ∧ backendMode (storage w') = backendMode (storage w)
          ∧ token (storage w') = token (storage w)
          ∧ currentUser (storage w') = currentUser (storage w).
Proof.
  destruct op; simpl; unfold loadLocal, saveLocal, removeLocal, loadCategoriesLocal;
    try (eexists _, _; split_and!; reflexivity).
  destruct (_ =? _)%nat; eexists _, _; split_and!; reflexivity.
Qed.

Lemma run_network_error op fuel srv now w e w1 :
  hasOfflineBranch op = true →
  isOfflineMode (storage w) = false →
  precheck op = Returned () →
  remoteCall op srv w = (Thrown e, w1) →
  isNetworkError e = true →
  run (S (S fuel)) srv now op w = Some (localStore now op (setOffline w1)).
Proof.
  intros Hop Hoff Hpre Hcall Hnet.
  destruct op; try discriminate Hop; simpl in Hcall, Hpre |- *;
    unfold fetchIncomes, fetchExpenses, createIncome, createExpense;
    rewrite ?Hpre, ?Hoff, Hcall; simpl; rewrite Hnet; reflexivity.
Qed.

Lemma run_other_error op fuel srv now w e w1 :
  isOfflineMode (storage w) = false →
  precheck op = Returned () →
  remoteCall op srv w = (Thrown e, w1) →
  isNetworkError e = false →
  ∃ e', run (S fuel) srv now op w = Some (Thrown e', w1).
Proof.
  intros Hoff Hpre Hcall Hnet.
  destruct op; simpl in Hcall, Hpre |- *;
    unfold fetchIncomes, fetchExpenses, createIncome, createExpense,
      updateIncome, updateExpense, updateCategory, filterTransactions;
    rewrite ?Hpre, ?Hoff, Hcall; simpl; rewrite ?Hnet; eauto.
  - destruct (response e) as [resp|]; [|eauto].
    destruct (withValidationErrors _ _); eauto.
  - destruct (response e) as [resp|]; eauto.
Qed.

(** Two levels of recursion are enough: the retry runs in local mode. *)
Lemma run_total op fuel srv now w :
  ∃ out w', run (S (S fuel)) srv now op w = Some (out, w').
Proof.
  destruct op; simpl;
    repeat match goal with
    | |- ∃ out w', Some ?p = Some (out, w') => exists p.1, p.2; by destruct p
    | |- context [if isOfflineMode (storage ?v) then _ else _] =>
        destruct (isOfflineMode (storage v)) eqn:?
    | |- context [axios ?s ?m ?u ?b ?v] => destruct (axios s m u b v) as [r w1] eqn:?
    | |- context [attempt ?r ?f] => destruct (attempt r f) eqn:?
    | |- context [isNetworkError ?e] => destruct (isNetworkError e) eqn:?
    end; simpl.
Qed.

Lemma run_precheck_fails op fuel srv now w e :
  precheck op = Thrown e →
  run fuel srv now op w = Some (Thrown e, w).
Proof.
  intros Hpre. destruct op; try discriminate Hpre; simpl in *;
    unfold createIncome, createExpense; by rewrite Hpre.
Qed.

(** An operation without an offline branch makes its HTTP call whatever
    the mode. *)
Lemma run_always_remote op fuel srv now w :
  hasOfflineBranch op = false →
  ∃ out, run fuel srv now op w = Some (out, (remoteCall op srv w).2).
Proof.
  intros Hop. destruct op; try discriminate Hop; simpl;
    unfold updateIncome, updateExpense, updateCategory, filterTransactions;
    destruct (axios _ _ _ _ _); simpl; eauto.
Qed.

Lemma remoteCall_requests op srv w :
  ∃ req, requests (remoteCall op srv w).2 = (requests w ++ [req])%list.
Proof.
  assert (Hax : ∀ m u b, ∃ req, requests (axios srv m u b w).2 = (requests w ++ [req])%list).
  { intros m u b. unfold axios.
    set (config := requestInterceptor _ _). exists config.
    destruct (srv config) as [resp|f]; simpl; [done|].
    unfold responseInterceptor.
    repeat (case_match; simpl; try done). }
  destruct op; simpl; apply Hax.
Qed.

End Routing.

(** ** Failures of the HTTP call *)

Section Failures.
Implicit Types (op : Operation) (w : World) (srv : Server) (e : JSError).

Lemma bad_status_not_network r : isNetworkError (AxiosError (BadStatus r)) = false.
Proof.
  unfold isNetworkError. apply orb_false_intro; apply bool_decide_eq_false.
  - simpl. repeat case_match; discriminate.
  - simpl. discriminate.
Qed.

Lemma read_error_not_network v k : isNetworkError (TypeError_read v k) = false.
Proof.
  unfold isNetworkError.
  apply orb_false_intro; apply bool_decide_eq_false; simpl; discriminate.
Qed.

(** A thrown HTTP call threw the axios error of some failure, after the
    response interceptor saw it. *)
Lemma axios_thrown srv m u b w e w1 :
  axios srv m u b w = (Thrown e, w1) →
  ∃ f, e = AxiosError f
       ∧ w1 = responseInterceptor e
                (send (requestInterceptor (storage w) (mkRequest m u b None)) w).
Proof.
  unfold axios. destruct (srv _) as [resp|f]; intros [= <- <-]. eauto.
Qed.

Lemma remoteCall_thrown op srv w e w1 :
  remoteCall op srv w = (Thrown e, w1) →
  ∃ f req, e = AxiosError f ∧ w1 = responseInterceptor e (send req w).
Proof.
  intros H. destruct op; simpl in H;
    apply axios_thrown in H as (f & -> & ->); eauto.
Qed.

Lemma axios_error_response f resp :
  response (AxiosError f) = Some resp → f = BadStatus resp.
Proof. destruct f; simpl; congruence. Qed.

(** What the response interceptor does with an HTTP error status. *)
Lemma responseInterceptor_bad_status r w :
  let w1 := responseInterceptor (AxiosError (BadStatus r)) w in
  requests w1 = requests w
  ∧ collections (storage w1) = collections (storage w)
  ∧ users (storage w1) = users (storage w)
  ∧ (status r ≠ 401%Z → w1 = w)
  ∧ (status r = 401%Z →
       token (storage w1) = None ∧ currentUser (storage w1) = None).
Proof.
  unfold responseInterceptor; simpl.
  destruct w as [ls reqs h o].
  repeat case_bool_decide; simpl; split_and!; try done; try congruence.
  all: try (intros ->; done).
  all: match goal with H : _ ∨ _ |- _ => destruct H; discriminate | _ => idtac end.
  all: exfalso; repeat case_match; discriminate.
Qed.
End Failures.

(** ** The mode arbiter *)

(** C4, as the code has it. In local mode, every list, create and delete
    operation on incomes, expenses and categories is answered by the local
    store alone: its result does not depend on the server, no request is
    sent, and once its input is valid the result is the one of its offline
    branch. The update operations and the filter have no offline branch:
    they send their request in local mode too. *)
Theorem local_mode_routing (op : Operation) (fuel : nat) (now : N) (w : World) :
  isOfflineMode (storage w) = true →
  (hasOfflineBranch op = true →
     ∃ out w', (∀ srv, run (S fuel) srv now op w = Some (out, w'))
               ∧ requests w' = requests w
               ∧ (precheck op = Returned () → localStore now op w = (out, w')))
  ∧ (hasOfflineBranch op = false →
     ∀ srv, ∃ out w' req, run (S fuel) srv now op w = Some (out, w')
                          ∧ requests w' = (requests w ++ [req])%list).
Proof.
  intros Hoff. split; intros Hop.
  - destruct (precheck op) as [[]|err] eqn:Hpre.
    + destruct (localStore_returns op now w) as (v & w' & Hloc & Hreq & _).
      exists (Returned v), w'. split_and!; [|done..].
      intros srv. by rewrite run_offline, Hpre, Hloc.
    + exists (Thrown err), w. split_and!; [|done..].
      intros srv. by rewrite run_offline, Hpre.
  - intros srv.
    destruct (run_always_remote op (S fuel) srv now w Hop) as [out Hrun].
    destruct (remoteCall_requests op srv w) as [req Hreq].
    eauto.
Qed.

Lemma local_mode_routing_witness :
  isOfflineMode (storage Sample.offlineWorld) = true
  ∧ ∃ out w', (∀ srv, run 1 srv 0 FetchIncomes Sample.offlineWorld = Some (out, w'))
              ∧ requests w' = requests Sample.offlineWorld.
Proof.
  split; [reflexivity|].
  destruct (local_mode_routing FetchIncomes 0 0 Sample.offlineWorld eq_refl) as [H _].
  destruct (H eq_refl) as (out & w' & Hrun & Hreq & _).
  exists out, w'. split; assumption.
Defined.

(** C4 fails as stated: in local mode, [updateIncome] sends its PUT request. *)
Lemma update_in_local_mode_calls_remote :
  isOfflineMode (storage Sample.offlineWorld) = true
  ∧ requests Sample.offlineWorld = []
  ∧ ∃ out w',
      run 2 (Sample.answers 200 (JObj [])) 0 (UpdateIncome "inc_1" Sample.patch)
          Sample.offlineWorld = Some (out, w')
      ∧ requests w'
        = [mkRequest PUT "/incomes/inc_1" Sample.patch (Some "Bearer offline_1")].
Proof. split_and!; [reflexivity..|]. eexists _, _. split; reflexivity. Qed.




(** After a 401 the response interceptor has written the mode local. *)
Lemma responseInterceptor_unauthorized r w :
  status r = 401%Z →
  isOfflineMode (storage (responseInterceptor (AxiosError (BadStatus r)) w)) = true.
Proof.
  intros H401. unfold responseInterceptor. simpl. rewrite H401.
  by rewrite bool_decide_eq_true_2.
Qed.

(** C2, the code at an HTTP error status. When the HTTP call of an operation
    fails in remote mode with an HTTP error status, the operation throws to
    its caller, and nothing is read from or written to the local collections
    and the local users. If the status is not 401 the whole of localStorage
    is as it was, the mode included. If the status is 401 the response
    interceptor has removed the token and the current user and has written
    the mode local: from then on every list, create and delete operation is
    served by the local store and sends no request, whatever the server
    would answer. *)
Theorem http_error_is_surfaced (op : Operation) (fuel : nat) (srv : Server)
    (now : N) (w : World) (e : JSError) (w1 : World) (resp : HttpResponse) :
  isOfflineMode (storage w) = false →
  precheck op = Returned () →
  remoteCall op srv w = (Thrown e, w1) →
  response e = Some resp →
  ∃ e', run (S fuel) srv now op w = Some (Thrown e', w1)
        ∧ collections (storage w1) = collections (storage w)
        ∧ users (storage w1) = users (storage w)
        ∧ (status resp ≠ 401%Z → storage w1 = storage w ∧ href w1 = href w)
        ∧ (status resp = 401%Z →
             token (storage w1) = None ∧ currentUser (storage w1) = None)
        ∧ (status resp = 401%Z →
             isOfflineMode (storage w1) = true
             ∧ ∀ op' fuel' srv' now',
                 hasOfflineBranch op' = true →
                 precheck op' = Returned () →
                 ∃ v w2, run (S fuel') srv' now' op' w1 = Some (Returned v, w2)
                         ∧ localStore now' op' w1 = (Returned v, w2)
                         ∧ requests w2 = requests w1).
Proof.
  intros Hoff Hpre Hcall Hresp.
  destruct (remoteCall_thrown _ _ _ _ _ Hcall) as (f & req & -> & ->).
  apply axios_error_response in Hresp as ->.
  destruct (run_other_error op fuel srv now w _ _ Hoff Hpre Hcall
              (bad_status_not_network resp)) as [e' Hrun].
  destruct (responseInterceptor_bad_status resp (send req w))
    as (_ & Hcol & Husers & Hother & H401).
  exists e'. split_and!; try done.
  - intros Hne. by rewrite (Hother Hne).
  - intros Hst.
    pose proof (responseInterceptor_unauthorized resp (send req w) Hst) as Hlocal.
    split; [exact Hlocal|].
    intros op' fuel' srv' now' Hop' Hpre'.
    destruct (localStore_returns op' now'
                (responseInterceptor (AxiosError (BadStatus resp)) (send req w)))
      as (v & w2 & Hloc & Hreq & _).
    exists v, w2. split_and!; [|done..].
    by rewrite run_offline, Hpre', Hloc.
Qed.

Lemma http_error_is_surfaced_witness :
  isOfflineMode (storage Sample.onlineWorld) = false
  ∧ ∃ e' w1,
      run 1 (Sample.answers 400 (JObj [("message", JStr "Invalid amount")])) 0
          (CreateIncome Sample.salaryInput) Sample.onlineWorld = Some (Thrown e', w1)
      ∧ storage w1 = storage Sample.onlineWorld.
Proof.
  split; [reflexivity|].
  destruct (http_error_is_surfaced (CreateIncome Sample.salaryInput) 0
              (Sample.answers 400 (JObj [("message", JStr "Invalid amount")])) 0
              Sample.onlineWorld _ _ _ eq_refl eq_refl eq_refl eq_refl)
    as (e' & Hrun & _ & _ & Hsame & _).
  eexists e', _. split; [exact Hrun|].
  apply Hsame. discriminate.
Defined.

(** C2, the failing input: a 401 on a list call in remote mode leaves the
    mode local, and the income created next is stored locally, without a
    request, although the server would have accepted it. *)
Lemma unauthorized_flips_mode :
  isOfflineMode (storage Sample.onlineWorld) = false
  ∧ ∃ e w',
      run 2 (Sample.answers 401 JNull) 0 FetchIncomes Sample.onlineWorld
      = Some (Thrown e, w')
      ∧ response e = Some (mkResponse 401 JNull)
      ∧ backendMode (storage w') = Some "offline"
      ∧ isOfflineMode (storage w') = true
      ∧ ∃ w'',
          run 2 (Sample.answers 201 (JObj [("id", JNum 7)])) 5
              (CreateIncome Sample.salaryInput) w'
          = Some (Returned (JObj (merge [("id", JStr "inc_5")]
                                        (input_fields Sample.salaryInput))), w'')
          ∧ requests w'' = requests w'
          ∧ getCollection "incomes_offline_user" (storage w'')
            = [merge [("id", JStr "inc_5")] (input_fields Sample.salaryInput)].
Proof.
  split; [reflexivity|]. eexists _, _. split_and!; [reflexivity..|].
  eexists. split_and!; reflexivity.
Qed.

(** ** The response normalizer *)

Lemma listOf_returns kind body :
  JS.nullish body = false →
  listOf kind body
  = Returned (let d := JS.or (JS.prop body kind) (JS.or (JS.prop body "data") body) in
              if JS.isArray d then d else JArr []).
Proof.
  intros Hbody. unfold listOf, get. rewrite Hbody. simpl.
  destruct (JS.truthy (JS.prop body kind)) eqn:Ha;
    unfold JS.or; rewrite ?Ha; reflexivity.
Qed.

Lemma first_truthy_array (a d body : JSValue) :
  ∃ items,
    (let v := JS.or a (JS.or d body) in if JS.isArray v then v else JArr []) = JArr items
    ∧ (∀ l, body = JArr l → JS.truthy a = false → JS.truthy d = false → items = l)
    ∧ (∀ l, a = JArr l → items = l)
    ∧ (∀ l, JS.truthy a = false → d = JArr l → items = l)
    ∧ (JS.isArray body = false → JS.isArray a = false →
       JS.truthy a = true ∨ JS.isArray d = false → items = []).
Proof.
  unfold JS.or. destruct (JS.truthy a) eqn:Ha.
  - destruct a; simpl in *; try discriminate;
      eexists; (split; [reflexivity|]); split_and!; intros; simplify_eq; done.
  - destruct (JS.truthy d) eqn:Hd.
    + destruct d; simpl in *; try discriminate;
        eexists; (split; [reflexivity|]); split_and!; intros; subst; simpl in *;
        intuition congruence.
    + destruct body; simpl in *;
        eexists; (split; [reflexivity|]); split_and!; intros; subst; simpl in *;
        congruence.
Qed.

Lemma run_fetch_responded r fuel srv now w resp :
  isOfflineMode (storage w) = false →
  (remoteCall (Fetch r) srv w).1 = Returned resp →
  JS.nullish (data resp) = false →
  run (S fuel) srv now (Fetch r) w
  = Some (listOf (kind r) (data resp), (remoteCall (Fetch r) srv w).2).
Proof.
  intros Hoff Hcall Hbody.
  pose proof (listOf_returns (kind r) (data resp) Hbody) as Hlist.
  destruct r; simpl in *; unfold fetchIncomes, fetchExpenses; rewrite Hoff;
    destruct (axios _ _ _ _ _) as [out w1]; simpl in *; subst out; simpl;
    rewrite Hlist; reflexivity.
Qed.

(** C5, as the code has it. In remote mode, a list operation on incomes,
    expenses or categories whose response body is not [null] returns an
    array and never fails: the first truthy one of [body.<kind>],
    [body.data] and the body itself is taken, and returned when it is an
    array. So a bare array is returned as it is, [{ <kind>: array }] gives
    that array, [{ data: array }] gives that array when [body.<kind>] is
    absent or falsy, and every other body, the nested
    [{ success, data: { <kind>: array } }] included, gives the empty
    collection. *)
Theorem list_normalization (r : Resource) (fuel : nat) (srv : Server) (now : N)
    (w : World) (resp : HttpResponse) :
  isOfflineMode (storage w) = false →
  (remoteCall (Fetch r) srv w).1 = Returned resp →
  JS.nullish (data resp) = false →
  let body := data resp in
  ∃ items,
    run (S fuel) srv now (Fetch r) w
    = Some (Returned (JArr items), (remoteCall (Fetch r) srv w).2)
    ∧ (∀ l, body = JArr l → items = l)
    ∧ (∀ l, JS.prop body (kind r) = JArr l → items = l)
    ∧ (∀ l, JS.truthy (JS.prop body (kind r)) = false →
            JS.prop body "data" = JArr l → items = l)
    ∧ (JS.isArray body = false →
       JS.isArray (JS.prop body (kind r)) = false →
       JS.truthy (JS.prop body (kind r)) = true
         ∨ JS.isArray (JS.prop body "data") = false →
       items = []).
Proof.
  intros Hoff Hcall Hbody body.
  rewrite (run_fetch_responded r fuel srv now w resp Hoff Hcall Hbody).
  rewrite (listOf_returns _ _ Hbody). fold body.
  destruct (first_truthy_array (JS.prop body (kind r)) (JS.prop body "data") body)
    as (items & Heq & Hbare & Hkey & Hdata & Hnone).
  exists items. cbv zeta in Heq |- *. rewrite Heq. split_and!; try done.
  intros l Hl. apply Hbare; [done|..]; rewrite Hl; reflexivity.
Qed.

Lemma list_normalization_witness :
  isOfflineMode (storage Sample.onlineWorld) = false
  ∧ ∃ w1, run 1 (Sample.answers 200 Sample.keyed) 0 FetchIncomes Sample.onlineWorld
          = Some (Returned (JArr [JObj Sample.salary]), w1).
Proof.
  split; [reflexivity|].
  destruct (list_normalization Incomes 0 (Sample.answers 200 Sample.keyed) 0
              Sample.onlineWorld _ eq_refl eq_refl eq_refl)
    as (items & Hrun & _ & Hkey & _).
  rewrite (Hkey [JObj Sample.salary] eq_refl) in Hrun.
  eexists. exact Hrun.
Defined.

(** C5 fails as stated: the nested shape is not recognized, the list comes
    back empty where the specification's normalizer finds the array; and a
    [null] body makes the operation throw. *)
Lemma nested_list_shape_is_not_recognized :
  isOfflineMode (storage Sample.onlineWorld) = false
  ∧ firstRecognizedShape "incomes" Sample.nested = JArr [JObj Sample.salary]
  ∧ (∃ w1, run 2 (Sample.answers 200 Sample.nested) 0 FetchIncomes Sample.onlineWorld
           = Some (Returned (JArr []), w1))
  ∧ (∃ w1, run 2 (Sample.answers 200 JNull) 0 FetchIncomes Sample.onlineWorld
           = Some (Thrown (TypeError_read JNull "incomes"), w1)).
Proof. split_and!; try reflexivity; eexists; reflexivity. Qed.

(** ** Authentication *)

(** Every format that yields a token requires a user next to it, so the
    fallback user of [normalizeAuth] is never the one returned. *)
Lemma fallback_user_is_never_used (fallback fallback' d : JSValue) :
  normalizeAuth fallback d = normalizeAuth fallback' d.
Proof.
  unfold normalizeAuth, extractAuth, get.
  destruct (JS.nullish d); simpl; [reflexivity|].
  repeat match goal with
  | |- context [if ?a && ?b then _ else _] =>
      let H := fresh "H" in
      destruct (a && b) eqn:H; simpl;
      [ repeat (apply andb_prop in H as [? H]);
        repeat match goal with
               | Ht : JS.truthy _ = true |- _ => rewrite Ht; clear Ht
               end; simpl; reflexivity
      | clear H ]
  end.
  reflexivity.
Qed.

(** The user handed to the application by a remote authentication is
    truthy, so what the forms write to [currentUser] is never [null]. *)
Lemma normalizeAuth_user_truthy (fallback d : JSValue) (t : string) (u : JSValue) :
  normalizeAuth fallback d = Returned (t, u) → JS.truthy u = true.
Proof.
  unfold normalizeAuth, extractAuth, get.
  destruct (JS.nullish d); simpl; [discriminate|].
  repeat match goal with
  | |- context [if ?a && ?b then _ else _] =>
      let H := fresh "H" in
      destruct (a && b) eqn:H; simpl;
      [ repeat (apply andb_prop in H as [? H]);
        repeat match goal with
               | Ht : JS.truthy ?v = true |- context [JS.truthy ?v] => rewrite Ht
               end; simpl;
        repeat case_match; intros [= <- <-]; assumption
      | clear H ]
  end.
  discriminate.
Qed.

(** C1, the code at a response that carries no token: the thrown
    [Invalid response from server] is caught by the offline fallback of the
    same form, which logs the user in against the local accounts, writes an
    offline token, the user and the mode, and reports a successful login. *)
Theorem invalid_login_response_logs_in_offline :
  normalizeAuth JNull (JObj []) = Thrown InvalidServerResponse
  ∧ Login.handleSubmit (Sample.answers 200 (JObj [])) 99 "joe@example.com" "secret"
      Sample.loggedOutWorld
    = (Authenticated (JObj (without "password" Sample.localUser)) "offline_99",
       mkWorld (mkStorage (Some "offline") (Some "offline_99")
                          (Some (JObj (without "password" Sample.localUser)))
                          [Sample.localUser] ∅)
               [Sample.loginRequest] None "http://localhost:5173")
  ∧ storage Sample.loggedOutWorld = mkStorage None None None [Sample.localUser] ∅.
Proof. split_and!; reflexivity. Qed.

(** C6, the code at a response with a token and no user. The result of the
    normalization never depends on the fallback user; at the body
    [{ token: "abc" }] no format matches, so the token is dropped and the
    normalization throws; the login form then turns to the offline accounts
    and the registration form registers the account offline, neither keeps
    the token of the server. *)
Theorem token_without_user_is_rejected :
  (∀ fallback fallback' d, normalizeAuth fallback d = normalizeAuth fallback' d)
  ∧ (∀ fallback, normalizeAuth fallback (JObj [("token", JStr "abc")])
                 = Thrown InvalidServerResponse)
  ∧ Login.handleSubmit (Sample.answers 200 (JObj [("token", JStr "abc")])) 99
      "joe@example.com" "secret" Sample.freshWorld
    = (ShowError (JStr "Invalid email or password. (Offline Mode - Create an account first)"),
       send Sample.loginRequest Sample.freshWorld)
  ∧ ∃ w', Register.handleSubmit (Sample.answers 200 (JObj [("token", JStr "abc")])) 98 99
            "joe" "joe@example.com" "secret" "secret" Sample.freshWorld
          = (Authenticated (JObj [("id", JStr "user_98"); ("username", JStr "joe");
                                  ("email", JStr "joe@example.com")]) "offline_99", w')
          ∧ token (storage w') = Some "offline_99"
          ∧ backendMode (storage w') = Some "offline".
Proof.
  split_and!; [exact fallback_user_is_never_used | reflexivity..|].
  eexists. split_and!; reflexivity.
Qed.

(** ** Creating records in the local store *)

Section LocalCreate.
Implicit Types (w : World) (i : TransactionInput) (c : CategoryInput).

Lemma new_transaction_id (x : string) i :
  JS.lookup_field "id" (merge [("id", JStr x)] (input_fields i)) = JStr x.
Proof. destruct i as [[n|] cid a d [de|]]; reflexivity. Qed.

(** The trip through JSON keeps a field that holds a string. *)
Lemma lookup_json_object (k s : string) (fs : JSObject) :
  JS.lookup_field k fs = JStr s → JS.lookup_field k (JS.json_object fs) = JStr s.
Proof.
  unfold JS.json_object. simpl.
  induction fs as [|[k' v] fs IH]; simpl; [done|].
  destruct (String.eqb_spec k' k) as [->|Hne].
  - intros ->. simpl. by rewrite String.eqb_refl.
  - intros H. specialize (IH H).
    destruct v; simpl; try done; by apply String.eqb_neq in Hne as ->.
Qed.

(** A transaction whose numbers are finite is stored as it is returned. *)
Lemma json_transaction (x : string) i (c a : Z) :
  in_categoryId i = Finite c →
  in_amount i = Finite a →
  JS.json_object (merge [("id", JStr x)] (input_fields i))
  = merge [("id", JStr x)] (input_fields i).
Proof. destruct i as [[n|] cid amt d [de|]]; simpl; intros -> ->; reflexivity. Qed.

(** So is every category. *)
Lemma json_category (x : string) c :
  JS.json_object (merge [("id", JStr x)] (category_fields c))
  = merge [("id", JStr x)] (category_fields c).
Proof. destruct c as [n t [col|]]; reflexivity. Qed.

Lemma new_category_fields (x : string) c :
  let item := merge [("id", JStr x)] (category_fields c) in
  JS.lookup_field "id" item = JStr x
  ∧ JS.lookup_field "name" item = JStr (cat_name c)
  ∧ JS.lookup_field "type" item = JStr (type_name (cat_type c)).
Proof. destruct c as [n t [col|]]; split_and!; reflexivity. Qed.

Lemma incomes_key_ne_expenses_key (ls : LocalStorage) :
  storageKey "incomes" ls ≠ storageKey "expenses" ls.
Proof. unfold storageKey; simpl. discriminate. Qed.

Lemma idPrefix_inj t t' (a b : N) :
  idPrefix t +:+ pretty a = idPrefix t' +:+ pretty b → t = t' ∧ a = b.
Proof.
  destruct t, t'; simpl; intros H; try discriminate H;
    (split; [reflexivity|]); injection H as H; by apply (inj pretty).
Qed.

Lemma generatedBefore_mono t now now' x :
  (now ≤ now')%N → generatedBefore t now x → generatedBefore t now' x.
Proof. intros Hle (a & Hid & Hlt). exists a. split; [done|lia]. Qed.

(** A create in local mode appends the new record to its collection and
    touches nothing else. *)
Lemma run_create_local t fuel srv now i w :
  isOfflineMode (storage w) = true →
  validate i = Returned () →
  let item := merge [("id", JStr (idPrefix t +:+ pretty now))] (input_fields i) in
  let w' := update_storage
              (setCollection (storageKey (kind (resourceOf t)) (storage w))
                             (stored (resourceOf t) w ++ [JS.json_object item])) w in
  run fuel srv now (Create t i) w = Some (Returned (JObj item), w')
  ∧ stored (resourceOf t) w' = (stored (resourceOf t) w ++ [JS.json_object item])%list
  ∧ (∀ t', t' ≠ t → stored (resourceOf t') w' = stored (resourceOf t') w).
Proof.
  intros Hoff Hval item w'.
  split_and!.
  - destruct t; simpl; unfold createIncome, createExpense; by rewrite Hval, Hoff.
  - unfold stored, w'; simpl. rewrite storageKey_setCollection.
    apply getCollection_setCollection.
  - intros t' Hne. unfold stored, w'; simpl. rewrite storageKey_setCollection.
    apply getCollection_setCollection_ne.
    pose proof (incomes_key_ne_expenses_key (storage w)).
    destruct t, t'; simpl; congruence.
Qed.
End LocalCreate.

(** C8, as the code has it. The id of a transaction created in local mode is
    its type prefix followed by the clock reading. When the records stored
    for the user are those of earlier local creates, made at earlier clock
    readings, and their ids are distinct, the new id differs from every
    stored id, the ids stay distinct, and the store is again of that form at
    every later clock reading. The record stored is the record returned
    after its trip through JSON: the same record when its numbers are
    finite, and in every case a record with the same id. *)
Theorem local_ids_unique (t : CategoryType) (fuel : nat) (srv : Server) (now : N)
    (i : TransactionInput) (w : World) :
  isOfflineMode (storage w) = true →
  validate i = Returned () →
  locallyGenerated now w →
  NoDup (transactionIds w) →
  ∃ item w',
    run fuel srv now (Create t i) w = Some (Returned (JObj item), w')
    ∧ stored (resourceOf t) w'
      = (stored (resourceOf t) w ++ [JS.json_object item])%list
    ∧ (∀ c a : Z, in_categoryId i = Finite c → in_amount i = Finite a →
         stored (resourceOf t) w' = (stored (resourceOf t) w ++ [item])%list)
    ∧ JS.lookup_field "id" item = JStr (idPrefix t +:+ pretty now)
    ∧ JS.lookup_field "id" (JS.json_object item) = JStr (idPrefix t +:+ pretty now)
    ∧ (JS.lookup_field "id" item ∉ transactionIds w)
    ∧ NoDup (transactionIds w')
    ∧ ∀ now', (now < now')%N → locallyGenerated now' w'.
Proof.
  intros Hoff Hval [Hinc Hexp] Hnodup.
  destruct (run_create_local t fuel srv now i w Hoff Hval) as (Hrun & Hsame & Hother).
  set (returned := merge [("id", JStr (idPrefix t +:+ pretty now))] (input_fields i)) in *.
  set (w' := update_storage _ w) in *.
  assert (Hreturned : JS.lookup_field "id" returned = JStr (idPrefix t +:+ pretty now))
    by apply new_transaction_id.
  assert (Hfinite : ∀ c a : Z, in_categoryId i = Finite c → in_amount i = Finite a →
            stored (resourceOf t) w' = (stored (resourceOf t) w ++ [returned])%list).
  { intros c a Hc Ha. rewrite Hsame. unfold returned.
    by rewrite (json_transaction _ i c a Hc Ha). }
  set (item := JS.json_object returned) in *.
  assert (Hid : JS.lookup_field "id" item = JStr (idPrefix t +:+ pretty now))
    by by apply lookup_json_object.
  assert (Hfresh : JS.lookup_field "id" item ∉ transactionIds w).
  { rewrite Hid. unfold transactionIds. rewrite map_app, elem_of_app, !list_elem_of_fmap.
    intros [(x & Hx & Hin)|(x & Hx & Hin)].
    - rewrite Forall_forall in Hinc. destruct (Hinc x Hin) as (a & Ha & Hlt).
      rewrite Ha in Hx. injection Hx as Hx.
      apply (idPrefix_inj t income now a) in Hx as [_ Heq]. lia.
    - rewrite Forall_forall in Hexp. destruct (Hexp x Hin) as (a & Ha & Hlt).
      rewrite Ha in Hx. injection Hx as Hx.
      apply (idPrefix_inj t expense now a) in Hx as [_ Heq]. lia. }
  exists returned, w'. split_and!; try done.
  { by rewrite Hreturned, <- Hid. }
  - unfold transactionIds in *.
    rewrite map_app in Hnodup, Hfresh. rewrite elem_of_app in Hfresh.
    apply NoDup_app in Hnodup as (Hn1 & Hdisj & Hn2).
    destruct t; simpl in Hsame.
    + pose proof (Hother expense ltac:(done)) as Ho; simpl in Ho.
      rewrite Hsame, Ho, !map_app. simpl.
      apply NoDup_app. split_and!; [| |done].
      2:{ intros x [Hx|Hx%list_elem_of_singleton]%elem_of_app Hx';
            [by eapply Hdisj | subst x; tauto]. }
      apply NoDup_app. split_and!; [done| |apply NoDup_singleton].
      intros x Hx Hx'%list_elem_of_singleton. subst x. tauto.
    + pose proof (Hother income ltac:(done)) as Ho; simpl in Ho.
      rewrite Hsame, Ho, !map_app. simpl.
      apply NoDup_app. split_and!; [done| |].
      * intros x Hx [Hx'|Hx'%list_elem_of_singleton]%elem_of_app;
          [by eapply Hdisj | subst x; tauto].
      * apply NoDup_app. split_and!; [done| |apply NoDup_singleton].
        intros x Hx Hx'%list_elem_of_singleton. subst x. tauto.
  - intros now' Hlt.
    assert (Hnew : generatedBefore t now' item) by (exists now; done).
    assert (Hinc' : Forall (generatedBefore income now') (stored Incomes w)).
    { eapply Forall_impl; [exact Hinc|]. intros x; apply generatedBefore_mono; lia. }
    assert (Hexp' : Forall (generatedBefore expense now') (stored Expenses w)).
    { eapply Forall_impl; [exact Hexp|]. intros x; apply generatedBefore_mono; lia. }
    unfold locallyGenerated. destruct t; simpl in Hsame.
    + pose proof (Hother expense ltac:(done)) as Ho; simpl in Ho.
      rewrite Hsame, Ho, Forall_app, Forall_singleton. done.
    + pose proof (Hother income ltac:(done)) as Ho; simpl in Ho.
      rewrite Hsame, Ho, Forall_app, Forall_singleton. done.
Qed.

Lemma local_ids_unique_witness :
  isOfflineMode (storage Sample.offlineWorld) = true
  ∧ validate Sample.salaryInput = Returned ()
  ∧ locallyGenerated 1700000000000 Sample.offlineWorld
  ∧ NoDup (transactionIds Sample.offlineWorld)
  ∧ ∃ item w',
      run 1 Sample.unreachable 1700000000000 (Create income Sample.salaryInput)
          Sample.offlineWorld = Some (Returned (JObj item), w')
      ∧ JS.lookup_field "id" item = JStr "inc_1700000000000"
      ∧ NoDup (transactionIds w').
Proof.
  assert (Hgen : locallyGenerated 1700000000000 Sample.offlineWorld).
  { split; [|by apply Forall_nil].
    apply Forall_cons; split; [exists 1%N; split; [reflexivity|lia]|].
    apply Forall_cons; split; [exists 2%N; split; [reflexivity|lia]|].
    apply Forall_nil. done. }
  assert (Hnodup : NoDup (transactionIds Sample.offlineWorld)).
  { change (NoDup [JStr "inc_1"; JStr "inc_2"]).
    apply NoDup_cons; split; [|apply NoDup_singleton].
    intros H%list_elem_of_singleton. discriminate H. }
  split_and!; [reflexivity | reflexivity | exact Hgen | exact Hnodup |].
  destruct (local_ids_unique income 1 Sample.unreachable 1700000000000 Sample.salaryInput
              Sample.offlineWorld eq_refl eq_refl Hgen Hnodup)
    as (item & w' & Hrun & _ & _ & Hid & _ & _ & Hnodup' & _).
  exists item, w'. split_and!; assumption.
Defined.

(** C8 fails as stated: two incomes created in local mode within the same
    millisecond are stored under the same id. *)
Lemma same_millisecond_same_id :
  isOfflineMode (storage Sample.offlineWorld) = true
  ∧ ∃ first w1 second w2,
      run 1 Sample.unreachable 1700000000000 (CreateIncome Sample.salaryInput)
          Sample.offlineWorld = Some (Returned first, w1)
      ∧ run 1 Sample.unreachable 1700000000000 (CreateIncome Sample.freelance) w1
        = Some (Returned second, w2)
      ∧ JS.prop first "id" = JStr "inc_1700000000000"
      ∧ JS.prop second "id" = JStr "inc_1700000000000"
      ∧ transactionIds w2
        = [JStr "inc_1"; JStr "inc_2"; JStr "inc_1700000000000"; JStr "inc_1700000000000"]
      ∧ ¬ NoDup (transactionIds w2).
Proof.
  split; [reflexivity|]. eexists _, _, _, _.
  split_and!; [reflexivity..|].
  change (¬ NoDup [JStr "inc_1"; JStr "inc_2"; JStr "inc_1700000000000";
                   JStr "inc_1700000000000"]).
  rewrite !NoDup_cons. intros (_ & _ & Hnot & _).
  apply Hnot. apply list_elem_of_singleton. reflexivity.
Qed.

(** ** Categories *)

Lemma isDuplicate_true (toLowerCase : string → string) (categories : list Category)
    (name : string) (type : CategoryType) (c : Category) :
  c ∈ categories →
  category_type c = type →
  toLowerCase (category_name c) = toLowerCase name →
  CategoryPage.isDuplicate toLowerCase categories name type = true.
Proof.
  intros Hin Htype Hname. unfold CategoryPage.isDuplicate.
  apply existsb_exists. exists c. split; [by apply list_elem_of_In|].
  rewrite Hname, String.eqb_refl. simpl. by apply bool_decide_eq_true.
Qed.

(** C7, as the code has it. The duplicate check is the one of the category
    form: a submitted name that is not blank and equals, letter case aside
    (the two names have the same [toLowerCase], whatever the lower-casing of
    the engine is), the name of a category of the same type in the list the
    form shows is refused with the duplicate-category message, and nothing
    is sent or stored. The facade itself makes no such check: in local mode
    [createCategory] appends the new category to the stored collection
    whatever it holds. *)
Theorem duplicate_category_rejected_by_form (toLowerCase : string → string)
    (fuel : nat) (srv : Server) (now : N)
    (categories : list Category) (name : string) (type : CategoryType) (w : World) :
  (String.eqb (trim name) "" = false →
   (∃ c, c ∈ categories ∧ category_type c = type
         ∧ toLowerCase (category_name c) = toLowerCase name) →
   CategoryPage.handleSubmit toLowerCase fuel srv now categories name type w
   = Some (FormError (JStr "A category with this name already exists for this type"), w))
  ∧ (isOfflineMode (storage w) = true →
     ∀ color, ∃ item w',
       createCategory (S fuel) srv now (mkCategoryInput name type color) w
       = Some (Returned (JObj item), w')
       ∧ stored Categories w' = (stored Categories w ++ [item])%list
       ∧ JS.lookup_field "id" item = JStr ("cat_" +:+ pretty now)
       ∧ JS.lookup_field "name" item = JStr name
       ∧ JS.lookup_field "type" item = JStr (type_name type)).
Proof.
  split.
  - intros Hblank (c & Hin & Htype & Hname).
    unfold CategoryPage.handleSubmit.
    by rewrite Hblank, (isDuplicate_true toLowerCase categories name type c).
  - intros Hoff color. simpl. rewrite Hoff. unfold saveLocal.
    eexists _, _. split; [reflexivity|].
    destruct (new_category_fields ("cat_" +:+ pretty now)
                (mkCategoryInput name type color)) as (Hid & Hname & Htype).
    split_and!; try done.
    unfold stored; simpl. rewrite storageKey_setCollection.
    rewrite getCollection_setCollection. by destruct color.
Qed.

Lemma duplicate_category_rejected_by_form_witness :
  String.eqb (trim "food") "" = false
  ∧ (∃ c, c ∈ Sample.shown ∧ category_type c = expense
          ∧ asciiLowerCase (category_name c) = asciiLowerCase "food")
  ∧ isOfflineMode (storage Sample.offlineWorld) = true
  ∧ CategoryPage.handleSubmit asciiLowerCase 2 Sample.unreachable 5 Sample.shown "food"
      expense Sample.offlineWorld
    = Some (FormError (JStr "A category with this name already exists for this type"),
            Sample.offlineWorld)
  ∧ ∃ item w',
      createCategory 1 Sample.unreachable 5 (mkCategoryInput "food" expense None)
        Sample.offlineWorld = Some (Returned (JObj item), w').
Proof.
  assert (Hdup : ∃ c, c ∈ Sample.shown ∧ category_type c = expense
                      ∧ asciiLowerCase (category_name c) = asciiLowerCase "food").
  { exists (mkCategory "4" "Food" expense "#ef4444").
    split_and!; [apply list_elem_of_here | reflexivity | reflexivity]. }
  destruct (duplicate_category_rejected_by_form asciiLowerCase 2 Sample.unreachable 5
              Sample.shown "food" expense Sample.offlineWorld) as [Hform _].
  destruct (duplicate_category_rejected_by_form asciiLowerCase 0 Sample.unreachable 5
              Sample.shown "food" expense Sample.offlineWorld) as [_ Hstore].
  split_and!; [reflexivity | exact Hdup | reflexivity | exact (Hform eq_refl Hdup) |].
  destruct (Hstore eq_refl None) as (item & w' & Hrun & _).
  exists item, w'. exact Hrun.
Defined.

(** C7 fails as stated: in local mode the facade stores a second category
    with the name and the type of the first, and reports no error. *)
Lemma local_store_accepts_duplicate_category :
  isOfflineMode (storage Sample.offlineWorld) = true
  ∧ ∃ first w1 second w2,
      run 2 Sample.unreachable 10 (CreateCategory Sample.food) Sample.offlineWorld
      = Some (Returned first, w1)
      ∧ run 2 Sample.unreachable 20 (CreateCategory Sample.food) w1
        = Some (Returned second, w2)
      ∧ map (λ c, (JS.lookup_field "name" c, JS.lookup_field "type" c))
            (stored Categories w2)
        = [(JStr "Food", JStr "expense"); (JStr "Food", JStr "expense")].
Proof.
  split; [reflexivity|]. eexists _, _, _, _. split_and!; reflexivity.
Qed.

(** * Further properties *)

(** ** What a request carries and what it can change *)

Section Requests.
Implicit Types (op : Operation) (w : World) (srv : Server) (e : JSError).

Lemma responseInterceptor_effect e w :
  let w1 := responseInterceptor e w in
  requests w1 = requests w
  ∧ origin w1 = origin w
  ∧ collections (storage w1) = collections (storage w)
  ∧ users (storage w1) = users (storage w)
  ∧ (token (storage w1) = token (storage w) ∨ token (storage w1) = None)
  ∧ (response e = None →
       token (storage w1) = token (storage w)
       ∧ currentUser (storage w1) = currentUser (storage w)
       ∧ href w1 = href w).
Proof.
  unfold responseInterceptor. destruct w as [ls reqs h o].
  repeat case_match; simpl; split_and!; auto.
  all: intros Hnone; rewrite Hnone in *; simpl in *;
    repeat case_bool_decide; try discriminate; auto.
Qed.

Lemma axios_effect srv m u b w :
  let w1 := (axios srv m u b w).2 in
  requests w1 = (requests w ++ [requestInterceptor (storage w) (mkRequest m u b None)])%list
  ∧ origin w1 = origin w
  ∧ collections (storage w1) = collections (storage w)
  ∧ users (storage w1) = users (storage w)
  ∧ (token (storage w1) = token (storage w) ∨ token (storage w1) = None).
Proof.
  unfold axios. set (config := requestInterceptor _ _).
  destruct (srv config) as [resp|f]; simpl; [by split_and!; auto|].
  destruct (responseInterceptor_effect (AxiosError f) (send config w))
    as (Hreq & Horigin & Hcol & Husers & Htok & _).
  split_and!; assumption.
Qed.

Lemma remoteCall_effect op srv w :
  let w1 := (remoteCall op srv w).2 in
  (∃ req, requests w1 = (requests w ++ [req])%list)
  ∧ collections (storage w1) = collections (storage w)
  ∧ users (storage w1) = users (storage w)
  ∧ (token (storage w1) = token (storage w) ∨ token (storage w1) = None).
Proof.
  assert (H : ∀ m u b,
    let w1 := (axios srv m u b w).2 in
    (∃ req, requests w1 = (requests w ++ [req])%list)
    ∧ collections (storage w1) = collections (storage w)
    ∧ users (storage w1) = users (storage w)
    ∧ (token (storage w1) = token (storage w) ∨ token (storage w1) = None)).
  { intros m u b. destruct (axios_effect srv m u b w) as (Hreq & _ & Hcol & Husers & Htok).
    split_and!; eauto. }
  destruct op; simpl; apply H.
Qed.

(** What the handling of a response throws is not a network error. *)
Lemma listOf_thrown k d e : listOf k d = Thrown e → isNetworkError e = false.
Proof.
  unfold listOf, get. destruct (JS.nullish d); simpl.
  - intros [= <-]. apply read_error_not_network.
  - destruct (JS.truthy _); discriminate.
Qed.

Lemma withName_thrown i resp e : withName i resp = Thrown e → isNetworkError e = false.
Proof.
  unfold withName, get. destruct (JS.nullish _); simpl; [|discriminate].
  intros [= <-]. apply read_error_not_network.
Qed.

(** Where an operation can leave the world: as it was, after its offline
    branch, after its HTTP call, or after the offline branch that follows a
    failed HTTP call. *)
Lemma run_world op fuel srv now w out w' :
  run (S (S fuel)) srv now op w = Some (out, w') →
  w' = w
  ∨ (hasOfflineBranch op = true ∧ isOfflineMode (storage w) = true
     ∧ w' = (localStore now op w).2)
  ∨ w' = (remoteCall op srv w).2
  ∨ (hasOfflineBranch op = true
     ∧ (∃ e, (remoteCall op srv w).1 = Thrown e ∧ isNetworkError e = true)
     ∧ w' = (localStore now op (setOffline (remoteCall op srv w).2)).2).
Proof.
  destruct op; simpl;
    unfold fetchIncomes, fetchExpenses, createIncome, createExpense, updateIncome,
      updateExpense, updateCategory, filterTransactions;
    repeat match goal with
    | |- context [match validate ?i with _ => _ end] => destruct (validate i) as [[]|?]
    | |- context [if isOfflineMode (storage ?v) then _ else _] =>
        destruct (isOfflineMode (storage v)) eqn:?
    | |- context [axios ?s ?m ?u ?b ?v] => destruct (axios s m u b v) as [r w1] eqn:?
    | |- context [attempt ?r ?f] => destruct r as [resp|err]; simpl
    | |- context [match listOf ?k ?d with _ => _ end] => destruct (listOf k d) eqn:?
    | |- context [match withName ?i ?d with _ => _ end] => destruct (withName i d) eqn:?
    | |- context [isNetworkError ?e] => destruct (isNetworkError e) eqn:?
    | |- context [match response ?e with _ => _ end] => destruct (response e)
    | |- context [match withValidationErrors ?a ?b with _ => _ end] =>
        destruct (withValidationErrors a b)
    end; simpl;
    intros H; apply (inj Some) in H; apply (f_equal snd) in H; simpl in H;
    subst w'; simpl;
    first [ by left
          | by right; left; split_and!
          | by right; right; left
          | right; right; right; split_and!; [done|by eauto|done]
          | exfalso;
            match goal with
            | H1 : listOf _ _ = Thrown ?e, H2 : isNetworkError ?e = true |- _ =>
                apply listOf_thrown in H1; congruence
            | H1 : withName _ _ = Thrown ?e, H2 : isNetworkError ?e = true |- _ =>
                apply withName_thrown in H1; congruence
            end ].
Qed.
End Requests.

Section Requests2.
Implicit Types (op : Operation) (w : World) (srv : Server) (e : JSError).

Lemma localStore_collections op now w key :
  key ≠ storageKey (kindOf op) (storage w) →
  collections (storage (localStore now op w).2) !! key = collections (storage w) !! key.
Proof.
  intros Hne. destruct op; simpl; unfold loadCategoriesLocal; try done;
    try (destruct (_ =? _)%nat; simpl; try done);
    by rewrite lookup_insert_ne.
Qed.

Lemma network_error_no_response f :
  isNetworkError (AxiosError f) = true → response (AxiosError f) = None.
Proof.
  destruct f as [c msg|r]; [done|]. by rewrite bad_status_not_network.
Qed.

(** After a network error the request is logged, the mode may be local, and
    nothing else has changed. *)
Lemma remoteCall_network_error op srv w e :
  (remoteCall op srv w).1 = Thrown e →
  isNetworkError e = true →
  let w1 := (remoteCall op srv w).2 in
  currentUser (storage w1) = currentUser (storage w)
  ∧ token (storage w1) = token (storage w)
  ∧ href w1 = href w.
Proof.
  intros Hthrown Hnet.
  destruct (remoteCall op srv w) as [r w1] eqn:Hcall. simpl in *. subst r.
  destruct (remoteCall_thrown _ _ _ _ _ Hcall) as (f & req & -> & ->).
  destruct (responseInterceptor_effect (AxiosError f) (send req w))
    as (_ & _ & _ & _ & _ & Hnone).
  destruct (Hnone (network_error_no_response f Hnet)) as (Htok & Huser & Hhref).
  split_and!; assumption.
Qed.

Lemma run_responded op fuel srv now w resp w1 :
  isOfflineMode (storage w) = false →
  precheck op = Returned () →
  remoteCall op srv w = (Returned resp, w1) →
  ∃ out, run (S fuel) srv now op w = Some (out, w1).
Proof.
  intros Hoff Hpre Hcall.
  destruct op; simpl in Hcall, Hpre |- *;
    unfold fetchIncomes, fetchExpenses, createIncome, createExpense, updateIncome,
      updateExpense, updateCategory, filterTransactions;
    rewrite ?Hpre, ?Hoff, Hcall; simpl; eauto;
    match goal with
    | |- context [match listOf ?k ?d with _ => _ end] =>
        destruct (listOf k d) as [v|e] eqn:Hl;
        [eauto | rewrite (listOf_thrown _ _ _ Hl); eauto]
    | |- context [match withName ?i ?d with _ => _ end] =>
        destruct (withName i d) as [v|e] eqn:Hn; [eauto|];
        rewrite (withName_thrown _ _ _ Hn); simpl;
        destruct (response e); [|eauto];
        try destruct (withValidationErrors _ _); eauto
    end.
Qed.

(** In remote mode an operation with valid input leaves the world as its
    HTTP call left it, or as the offline branch that follows a network
    error left it. *)
Lemma run_remote_world op fuel srv now w out w' :
  isOfflineMode (storage w) = false →
  precheck op = Returned () →
  run (S (S fuel)) srv now op w = Some (out, w') →
  w' = (remoteCall op srv w).2
  ∨ (hasOfflineBranch op = true
     ∧ (∃ e, (remoteCall op srv w).1 = Thrown e ∧ isNetworkError e = true)
     ∧ w' = (localStore now op (setOffline (remoteCall op srv w).2)).2).
Proof.
  intros Hoff Hpre Hrun.
  destruct (remoteCall op srv w) as [[resp|e] w1] eqn:Hcall.
  - destruct (run_responded op (S fuel) srv now w resp w1 Hoff Hpre Hcall) as [out' Hrun'].
    rewrite Hrun' in Hrun. injection Hrun as _ <-. by left.
  - destruct (isNetworkError e) eqn:Hnet.
    + destruct (hasOfflineBranch op) eqn:Hop.
      * rewrite (run_network_error op fuel srv now w e w1) in Hrun by done.
        injection Hrun as Hrun. right. split_and!; [done|eauto|].
        simpl. by rewrite Hrun.
      * destruct (run_always_remote op (S (S fuel)) srv now w Hop) as [out' Hrun'].
        rewrite Hrun', Hcall in Hrun. injection Hrun as _ <-. by left.
    + destruct (run_other_error op (S fuel) srv now w e w1 Hoff Hpre Hcall Hnet)
        as [e' Hrun'].
      rewrite Hrun' in Hrun. injection Hrun as _ <-. by left.
Qed.
End Requests2.

(** X1. No call of the facade ever writes a token: after any data operation,
    [loginUser], [registerUser] or [checkBackendAvailable], the stored token
    is the one that was there, or has been removed. *)
Theorem no_operation_sets_a_token (srv : Server) (w : World) :
  let kept w' :=
    token (storage w') = token (storage w) ∨ token (storage w') = None in
  (∀ op fuel now out w', run (S (S fuel)) srv now op w = Some (out, w') → kept w')
  ∧ (∀ email password, kept (loginUser srv email password w).2)
  ∧ (∀ username email password, kept (registerUser srv username email password w).2)
  ∧ kept (checkBackendAvailable srv w).2.
Proof.
  intros kept. unfold kept. split_and!.
  - intros op fuel now out w' Hrun.
    assert (Hlocal : ∀ v, token (storage (localStore now op v).2) = token (storage v)).
    { intros v. destruct (localStore_returns op now v) as (x & v' & -> & _ & _ & _ & Ht & _).
      exact Ht. }
    destruct (remoteCall_effect op srv w) as (_ & _ & _ & Hremote).
    destruct (run_world op fuel srv now w out w' Hrun)
      as [->|[(_ & _ & ->)|[->|(_ & _ & ->)]]];
      rewrite ?Hlocal; auto.
  - intros email password. unfold loginUser.
    destruct (axios_effect srv POST API_END_POINTS.LOGIN
                (JObj [("email", JStr email); ("password", JStr password)]) w)
      as (_ & _ & _ & _ & Htok).
    destruct (axios _ _ _ _ _) as [[resp|e] w1]; exact Htok.
  - intros username email password. unfold registerUser.
    destruct (axios_effect srv POST API_END_POINTS.REGISTER
                (JObj [("username", JStr username); ("email", JStr email);
                       ("password", JStr password)]) w)
      as (_ & _ & _ & _ & Htok).
    destruct (axios _ _ _ _ _) as [[resp|e] w1]; exact Htok.
  - unfold checkBackendAvailable. destruct (negb _); [auto|].
    destruct (axios_effect srv GET API_END_POINTS.INCOME JUndefined w)
      as (_ & _ & _ & _ & Htok).
    destruct (axios _ _ _ _ _) as [[resp|e] w1]; exact Htok.
Qed.

Lemma no_operation_sets_a_token_witness :
  ∃ out w', run 2 (Sample.answers 401 JNull) 0 FetchIncomes Sample.onlineWorld
            = Some (out, w')
            ∧ (token (storage w') = token (storage Sample.onlineWorld)
               ∨ token (storage w') = None).
Proof.
  destruct (run_total FetchIncomes 0 (Sample.answers 401 JNull) 0 Sample.onlineWorld)
    as (out & w' & Hrun).
  exists out, w'. split; [exact Hrun|].
  destruct (no_operation_sets_a_token (Sample.answers 401 JNull) Sample.onlineWorld)
    as [Hops _].
  exact (Hops FetchIncomes 0 0%N out w' Hrun).
Defined.

(** X2. The update operations and the filter never write the local store:
    whatever the mode and the answer of the server, the stored collections
    and the local accounts are as before, and exactly one request has been
    sent. A record kept in the local store is therefore never changed by an
    update. *)
Theorem update_and_filter_never_write_locally (op : Operation) (fuel : nat)
    (srv : Server) (now : N) (w : World) (out : Outcome JSValue) (w' : World) :
  hasOfflineBranch op = false →
  run fuel srv now op w = Some (out, w') →
  collections (storage w') = collections (storage w)
  ∧ users (storage w') = users (storage w)
  ∧ ∃ req, requests w' = (requests w ++ [req])%list.
Proof.
  intros Hop Hrun.
  destruct (run_always_remote op fuel srv now w Hop) as [out' Hrun'].
  rewrite Hrun' in Hrun. injection Hrun as _ <-.
  destruct (remoteCall_effect op srv w) as (Hreq & Hcol & Husers & _).
  split_and!; assumption.
Qed.

Lemma update_and_filter_never_write_locally_witness :
  ∃ out w', run 1 Scenario.accepts 0 (UpdateIncome "inc_1" Sample.patch)
              Sample.offlineWorld = Some (out, w')
            ∧ collections (storage w') = collections (storage Sample.offlineWorld).
Proof.
  eexists _, _. split; [reflexivity|].
  exact (proj1 (update_and_filter_never_write_locally
                  (UpdateIncome "inc_1" Sample.patch) 1 Scenario.accepts 0
                  Sample.offlineWorld _ _ eq_refl eq_refl)).
Defined.

(** X3. An operation writes at most one collection, the one of its kind
    under the key of the current user: in every mode and whatever the server
    answers, every other entry of the local store keeps its value, and the
    local accounts are untouched. *)
Theorem operation_touches_one_collection (op : Operation) (fuel : nat) (srv : Server)
    (now : N) (w : World) (out : Outcome JSValue) (w' : World) :
  run (S (S fuel)) srv now op w = Some (out, w') →
  (∀ key, key ≠ storageKey (kindOf op) (storage w) →
          collections (storage w') !! key = collections (storage w) !! key)
  ∧ users (storage w') = users (storage w).
Proof.
  intros Hrun.
  assert (Husers : ∀ v, users (storage (localStore now op v).2) = users (storage v)).
  { intros v. destruct op; simpl; unfold loadCategoriesLocal; try done.
    by destruct (_ =? _)%nat. }
  destruct (remoteCall_effect op srv w) as (_ & Hcol & Hu & _).
  destruct (run_world op fuel srv now w out w' Hrun)
    as [->|[(_ & _ & ->)|[->|(_ & (e & He & Hnet) & ->)]]].
  - done.
  - split; [|apply Husers]. intros key Hne. by apply localStore_collections.
  - split; [|done]. intros key _. by rewrite Hcol.
  - destruct (remoteCall_network_error op srv w e He Hnet) as (Huser & _).
    split.
    + intros key Hne. rewrite localStore_collections.
      * simpl. by rewrite Hcol.
      * unfold storageKey, getUserId in *. simpl. by rewrite Huser.
    + rewrite Husers. simpl. exact Hu.
Qed.

Lemma operation_touches_one_collection_witness :
  ∃ out w', run 2 Sample.unreachable 7 (CreateExpense Sample.salaryInput)
              Sample.offlineWorld = Some (out, w')
            ∧ collections (storage w') !! "incomes_u1"
              = collections (storage Sample.offlineWorld) !! "incomes_u1".
Proof.
  eexists _, _. split; [reflexivity|].
  refine (proj1 (operation_touches_one_collection (CreateExpense Sample.salaryInput) 0
                   Sample.unreachable 7 Sample.offlineWorld _ _ eq_refl) "incomes_u1" _).
  discriminate.
Defined.

(** X4. A request that is aborted or times out (code ECONNABORTED) flips the
    mode to local in the response interceptor, yet the operation makes no
    local retry: the error is thrown to the caller and no collection is
    written. *)
Theorem timeout_flips_mode_without_fallback (op : Operation) (fuel : nat)
    (srv : Server) (now : N) (w : World) (msg : string) (w1 : World) :
  isOfflineMode (storage w) = false →
  precheck op = Returned () →
  msg ≠ "Network Error" →
  remoteCall op srv w = (Thrown (AxiosError (NoResponse (Some "ECONNABORTED") msg)), w1) →
  ∃ e', run (S fuel) srv now op w = Some (Thrown e', w1)
        ∧ isOfflineMode (storage w1) = true
        ∧ collections (storage w1) = collections (storage w).
Proof.
  intros Hoff Hpre Hmsg Hcall.
  assert (Hnet : isNetworkError (AxiosError (NoResponse (Some "ECONNABORTED") msg)) = false).
  { unfold isNetworkError; simpl. by rewrite bool_decide_eq_false_2. }
  destruct (run_other_error op fuel srv now w _ _ Hoff Hpre Hcall Hnet) as [e' Hrun].
  exists e'. split; [exact Hrun|].
  destruct (remoteCall_thrown _ _ _ _ _ Hcall) as (f & req & _ & ->).
  split; [reflexivity|].
  by destruct (responseInterceptor_effect
                 (AxiosError (NoResponse (Some "ECONNABORTED") msg)) (send req w))
    as (_ & _ & Hcol & _).
Qed.

Lemma timeout_flips_mode_without_fallback_witness :
  isOfflineMode (storage Sample.onlineWorld) = false
  ∧ ∃ e' w1, run 1 Scenario.timesOut 0 (CreateIncome Sample.salaryInput) Sample.onlineWorld
             = Some (Thrown e', w1)
             ∧ isOfflineMode (storage w1) = true.
Proof.
  split; [reflexivity|].
  destruct (timeout_flips_mode_without_fallback (CreateIncome Sample.salaryInput) 0
              Scenario.timesOut 0 Sample.onlineWorld "timeout of 5000ms exceeded" _
              eq_refl eq_refl ltac:(discriminate) eq_refl)
    as (e' & Hrun & Hoff & _).
  eexists e', _. split; [exact Hrun | exact Hoff].
Defined.

(** ** The Authorization header *)

Lemma includes_prefix needle hay :
  String.prefix needle hay = true → includes needle hay = true.
Proof. intros H. destruct hay; cbn [includes]; by rewrite H. Qed.

Lemma includes_app_r needle a b :
  includes needle b = true → includes needle (a +:+ b) = true.
Proof.
  intros H. induction a as [|c a IH]; [done|].
  change (String c a +:+ b) with (String c (a +:+ b)). cbn [includes].
  rewrite IH. apply orb_true_r.
Qed.

Lemma requests_after_run op fuel srv now w out w' :
  isOfflineMode (storage w) = false →
  precheck op = Returned () →
  run (S (S fuel)) srv now op w = Some (out, w') →
  requests w' = requests (remoteCall op srv w).2.
Proof.
  intros Hoff Hpre Hrun.
  destruct (run_remote_world op fuel srv now w out w' Hoff Hpre Hrun)
    as [->|(_ & _ & ->)]; [done|].
  destruct (localStore_returns op now (setOffline (remoteCall op srv w).2))
    as (v & w2 & -> & Hreq & _). exact Hreq.
Qed.

(** X5. In remote mode, with a non-empty token stored, the request of every
    list, create and filter operation carries [Authorization: Bearer
    <token>]. *)
Theorem facade_requests_carry_the_token (op : Operation) (fuel : nat) (srv : Server)
    (now : N) (w : World) (t : string) (out : Outcome JSValue) (w' : World) :
  hasFixedUrl op = true →
  isOfflineMode (storage w) = false →
  precheck op = Returned () →
  token (storage w) = Some t →
  t ≠ "" →
  run (S (S fuel)) srv now op w = Some (out, w') →
  ∃ req, requests w' = (requests w ++ [req])%list
         ∧ authorization req = Some ("Bearer " +:+ t).
Proof.
  intros Hop Hoff Hpre Htok Ht Hrun.
  rewrite (requests_after_run op fuel srv now w out w' Hoff Hpre Hrun).
  assert (Hne : String.eqb t "" = false) by by apply String.eqb_neq.
  destruct op; try discriminate Hop; simpl;
    match goal with
    | |- context [axios ?s ?m ?u ?b ?v] =>
        destruct (axios_effect s m u b v) as (-> & _);
        eexists; split; [reflexivity|]
    end;
    unfold requestInterceptor; simpl; by rewrite Htok, Hne.
Qed.

Lemma facade_requests_carry_the_token_witness :
  ∃ out w', run 2 Scenario.accepts 0 FetchExpenses Sample.onlineWorld = Some (out, w')
            ∧ ∃ req, requests w' = (requests Sample.onlineWorld ++ [req])%list
                     ∧ authorization req = Some "Bearer jwt".
Proof.
  eexists _, _. split; [reflexivity|].
  eapply (facade_requests_carry_the_token FetchExpenses 0 Scenario.accepts 0
            Sample.onlineWorld "jwt");
    [reflexivity | reflexivity | reflexivity | reflexivity | discriminate | reflexivity].
Defined.

(** X6. The token is left out by a substring test on the URL: an update or a
    delete whose id begins with [login] or [register] is sent without the
    Authorization header, whatever token is stored. *)
Theorem id_can_suppress_the_token (op : Operation) (id : string) (fuel : nat)
    (srv : Server) (now : N) (w : World) (out : Outcome JSValue) (w' : World) :
  idOf op = Some id →
  String.prefix "login" id = true ∨ String.prefix "register" id = true →
  isOfflineMode (storage w) = false →
  run (S (S fuel)) srv now op w = Some (out, w') →
  ∃ req, requests w' = (requests w ++ [req])%list ∧ authorization req = None.
Proof.
  intros Hid Hpre Hoff Hrun.
  assert (Hcheck : precheck op = Returned ()) by (destruct op; done).
  rewrite (requests_after_run op fuel srv now w out w' Hoff Hcheck Hrun).
  assert (Hskip : ∀ base,
    existsb (fun endpoint => includes endpoint (base +:+ "/" +:+ id)) excludeEndpoints
    = true).
  { intros base. simpl. destruct Hpre as [H|H].
    - rewrite (includes_app_r "/login" base ("/" +:+ id)); [done|].
      apply includes_prefix. simpl. exact H.
    - rewrite (includes_app_r "/register" base ("/" +:+ id)); [apply orb_true_r|].
      apply includes_prefix. simpl. exact H. }
  destruct op; try discriminate Hid; injection Hid as ->; simpl;
    match goal with
    | |- context [axios ?s ?m ?u ?b ?v] =>
        destruct (axios_effect s m u b v) as (-> & _);
        eexists; split; [reflexivity|]
    end;
    unfold requestInterceptor; cbn [url]; by rewrite Hskip.
Qed.

Lemma id_can_suppress_the_token_witness :
  ∃ out w', run 2 Scenario.accepts 0 (DeleteIncome "login_fee") Sample.onlineWorld
            = Some (out, w')
            ∧ ∃ req, requests w' = (requests Sample.onlineWorld ++ [req])%list
                     ∧ authorization req = None.
Proof.
  eexists _, _. split; [reflexivity|].
  eapply (id_can_suppress_the_token (DeleteIncome "login_fee") "login_fee" 0
            Scenario.accepts 0 Sample.onlineWorld);
    [reflexivity | left; reflexivity | reflexivity | reflexivity].
Defined.

(** ** Creating, listing and deleting in the local store *)

(** The two tests the validation makes on a number. *)
Lemma falsy_spec (n : JSNumber) : Num.falsy n = true ↔ zeroOrNaN n.
Proof.
  unfold zeroOrNaN. destruct n as [z| |b]; simpl.
  - destruct (Z.eqb_spec z 0) as [->|Hz]; split; try done; [by left|].
    intros [[= ->]|[=]]. done.
  - split; [by right|done].
  - split; [done|]. by intros [|].
Qed.

Lemma le0_spec (n : JSNumber) : Num.le0 n = true ↔ notPositive n.
Proof.
  unfold notPositive. destruct n as [z| |b]; simpl.
  - destruct (Z.leb_spec z 0) as [Hz|Hz]; split; try done.
    + intros _. left. by exists z.
    + intros [(z' & [= <-] & Hz')|[=]]. lia.
  - split; [done|]. by intros [(z & [=] & _)|].
  - destruct b; split; try done; [by right|].
    by intros [(z & [=] & _)|].
Qed.

Lemma validate_ok i :
  validate i = Returned ()
  ↔ ¬ zeroOrNaN (in_categoryId i) ∧ ¬ notPositive (in_amount i) ∧ in_date i ≠ "".
Proof.
  rewrite <- falsy_spec, <- le0_spec. unfold validate.
  destruct (Num.falsy (in_categoryId i)), (Num.le0 (in_amount i)),
    (String.eqb_spec (in_date i) ""); simpl;
    split; try discriminate; try done; intros (? & ? & ?); done.
Qed.

Lemma axios_responded srv m u b w resp w1 :
  axios srv m u b w = (Returned resp, w1) →
  w1 = send (requestInterceptor (storage w) (mkRequest m u b None)) w.
Proof. unfold axios. destruct (srv _); intros [= _ <-]; reflexivity. Qed.

Lemma remoteCall_responded op srv w resp w1 :
  remoteCall op srv w = (Returned resp, w1) → storage w1 = storage w.
Proof.
  intros H. destruct op; simpl in H; apply axios_responded in H; by subst w1.
Qed.

Lemma filter_otherId_fresh id (items : list JSObject) :
  JStr id ∉ map (JS.lookup_field "id") items →
  List.filter (otherId id) items = items.
Proof.
  induction items as [|x items IH]; simpl; [done|].
  intros Hnot. apply not_elem_of_cons in Hnot as [Hx Hrest].
  assert (Hother : otherId id x = true).
  { unfold otherId, JS.eq_string. destruct (JS.lookup_field "id" x); try done.
    destruct (String.eqb_spec s id) as [->|]; [by destruct Hx|done]. }
  by rewrite Hother, IH.
Qed.

Lemma missing_fields_named (category amount date : bool) :
  let missing := ((if category then ["category"] else []) ++
                  (if amount then ["amount"] else []) ++
                  (if date then ["date"] else []))%list in
  ("category" ∈ missing ↔ category = true)
  ∧ ("amount" ∈ missing ↔ amount = true)
  ∧ ("date" ∈ missing ↔ date = true).
Proof.
  destruct category, amount, date; simpl; split_and!;
    (split;
     [ intros H; repeat (apply elem_of_cons in H as [H|H]; try done);
       by apply elem_of_nil in H
     | try done;
       intros; repeat first [apply list_elem_of_here | apply list_elem_of_further] ]).
Qed.

(** X7. [createIncome] and [createExpense] check their input before they
    look at the mode. An input whose category id is 0 or NaN, whose amount
    is at most 0 or whose date is empty is refused: the call throws
    [Missing required fields: ...], sends nothing and stores nothing; every
    other input passes the check. The message names the category and the
    date exactly when they are at fault, and the amount when it is at most 0
    or NaN: an amount that is NaN passes the check on its own and is named
    when another field has the input refused. *)
Theorem invalid_transaction_is_refused (t : CategoryType) (fuel : nat) (srv : Server)
    (now : N) (i : TransactionInput) (w : World) :
  let refused := zeroOrNaN (in_categoryId i) ∨ notPositive (in_amount i)
                 ∨ in_date i = "" in
  (refused →
   run fuel srv now (Create t i) w
   = Some (Thrown (Error ("Missing required fields: " +:+ JS.join ", " (missingFields i))),
           w)
   ∧ missingFields i ≠ [])
  ∧ (¬ refused → validate i = Returned ())
  ∧ ("category" ∈ missingFields i ↔ zeroOrNaN (in_categoryId i))
  ∧ ("amount" ∈ missingFields i ↔ notPositive (in_amount i) ∨ in_amount i = NaN)
  ∧ ("date" ∈ missingFields i ↔ in_date i = "").
Proof.
  intros refused. subst refused.
  pose proof (missing_fields_named (Num.falsy (in_categoryId i))
                (Num.falsy (in_amount i) || Num.le0 (in_amount i))
                (String.eqb (in_date i) "")) as Hnamed.
  cbv zeta in Hnamed. fold (missingFields i) in Hnamed.
  destruct Hnamed as (Hcategory & Hamount & Hdate).
  assert (Hamount' : Num.falsy (in_amount i) || Num.le0 (in_amount i) = true
                     ↔ notPositive (in_amount i) ∨ in_amount i = NaN).
  { rewrite orb_true_iff, falsy_spec, le0_spec. unfold zeroOrNaN, notPositive.
    split.
    - intros [[Hz|Hn]|Hle]; [|by right|by left].
      left. left. exists 0%Z. by split.
    - intros [Hle|Hn]; [by right|]. left. by right. }
  split_and!.
  - intros Hbad.
    assert (Hval : validate i
      = Thrown (Error ("Missing required fields: " +:+ JS.join ", " (missingFields i)))).
    { destruct (validate i) as [[]|e] eqn:Hv.
      - apply validate_ok in Hv as (? & ? & ?). by destruct Hbad as [|[|]].
      - revert Hv. unfold validate. case_match; [|done]. by intros [= <-]. }
    split.
    + destruct t; simpl; unfold createIncome, createExpense; by rewrite Hval.
    + intros Hnil.
      destruct Hbad as [Hc|[Ha|Hd]].
      * assert (Hin : "category" ∈ missingFields i)
          by (apply Hcategory; by apply falsy_spec).
        rewrite Hnil in Hin. by apply elem_of_nil in Hin.
      * assert (Hin : "amount" ∈ missingFields i)
          by (apply Hamount, Hamount'; by left).
        rewrite Hnil in Hin. by apply elem_of_nil in Hin.
      * assert (Hin : "date" ∈ missingFields i)
          by (apply Hdate; by apply String.eqb_eq).
        rewrite Hnil in Hin. by apply elem_of_nil in Hin.
  - intros Hgood. apply validate_ok. split_and!; intros H; apply Hgood; auto.
  - by rewrite Hcategory, falsy_spec.
  - by rewrite Hamount, Hamount'.
  - by rewrite Hdate, String.eqb_eq.
Qed.

Lemma invalid_transaction_is_refused_witness :
  (∃ e, run 0 Sample.unreachable 0
          (CreateIncome (mkInput (Some "Salary") NaN 5000 "2025-01-01" None))
          Sample.onlineWorld
        = Some (Thrown e, Sample.onlineWorld)
        ∧ message e = "Missing required fields: category")
  ∧ validate (mkInput (Some "Salary") 1 NaN "2025-01-01" None) = Returned ()
  ∧ missingFields (mkInput (Some "Salary") 1 NaN "" None) = ["amount"; "date"].
Proof.
  split_and!; [|reflexivity..].
  eexists. split.
  - apply (invalid_transaction_is_refused income 0 Sample.unreachable 0
             (mkInput (Some "Salary") NaN 5000 "2025-01-01" None) Sample.onlineWorld).
    left. by right.
  - reflexivity.
Defined.

Lemma run_fetch_local r fuel srv now w :
  isOfflineMode (storage w) = true →
  r ≠ Categories ∨ stored r w ≠ [] →
  run (S fuel) srv now (Fetch r) w = Some (Returned (asArray (stored r w)), w).
Proof.
  intros Hoff Hne.
  assert (Hop : hasOfflineBranch (Fetch r) = true) by by destruct r.
  rewrite run_offline by done.
  destruct r; simpl; try done.
  unfold loadCategoriesLocal. destruct Hne as [|Hne]; [done|].
  unfold stored in *; simpl in *.
  destruct (getCollection _ _); [done|reflexivity].
Qed.

(** X8. A transaction that [createIncome] or [createExpense] returns while
    the mode ends up local, be it that the mode was local or that the
    request failed with a network error, has been stored: it carries the id
    made of the type prefix and the clock reading, and the next listing of
    that type returns the records stored before followed by the new one,
    without a request. The new one is listed as JSON keeps it: as it was
    returned when its numbers are finite, with [null] for an amount that is
    NaN or infinite. *)
Theorem created_record_is_listed (t : CategoryType) (fuel fuel' : nat)
    (srv srv' : Server) (now now' : N) (i : TransactionInput) (w : World)
    (v : JSValue) (w' : World) :
  run (S (S fuel)) srv now (Create t i) w = Some (Returned v, w') →
  isOfflineMode (storage w') = true →
  ∃ item,
    v = JObj item
    ∧ JS.lookup_field "id" item = JStr (idPrefix t +:+ pretty now)
    ∧ stored (resourceOf t) w' = (stored (resourceOf t) w ++ [JS.json_object item])%list
    ∧ run (S fuel') srv' now' (Fetch (resourceOf t)) w'
      = Some (Returned (asArray (stored (resourceOf t) w ++ [JS.json_object item])), w')
    ∧ (∀ c a : Z, in_categoryId i = Finite c → in_amount i = Finite a →
         JS.json_object item = item)
    ∧ ((∀ a : Z, in_amount i ≠ Finite a) →
         JS.lookup_field "amount" item = JNum (in_amount i)
         ∧ JS.lookup_field "amount" (JS.json_object item) = JNull).
Proof.
  intros Hrun Hoff'.
  assert (Hval : validate i = Returned ()).
  { destruct (validate i) as [[]|e] eqn:Hv; [done|].
    rewrite (run_precheck_fails (Create t i) _ srv now w e) in Hrun by by destruct t.
    discriminate. }
  assert (Hpre : precheck (Create t i) = Returned ()) by by destruct t.
  assert (Hop : hasOfflineBranch (Create t i) = true) by by destruct t.
  set (item := merge [("id", JStr (idPrefix t +:+ pretty now))] (input_fields i)).
  assert (Hlisted : ∀ u, isOfflineMode (storage u) = true →
            stored (resourceOf t) u
            = (stored (resourceOf t) w ++ [JS.json_object item])%list →
            run (S fuel') srv' now' (Fetch (resourceOf t)) u
            = Some (Returned (asArray (stored (resourceOf t) w ++ [JS.json_object item])),
                    u)).
  { intros u Hu Hst. rewrite run_fetch_local, Hst; [done..|].
    left. by destruct t. }
  assert (Hfinite : ∀ c a : Z, in_categoryId i = Finite c → in_amount i = Finite a →
            JS.json_object item = item).
  { intros c a Hc Ha. by apply (json_transaction _ i c a). }
  assert (Hnan : (∀ a : Z, in_amount i ≠ Finite a) →
            JS.lookup_field "amount" item = JNum (in_amount i)
            ∧ JS.lookup_field "amount" (JS.json_object item) = JNull).
  { unfold item. destruct i as [[n|] cid [a| |b'] d [de|]]; simpl; intros Hamt;
      try (by destruct (Hamt a));
      destruct cid as [z| |b]; split; reflexivity. }
  destruct (isOfflineMode (storage w)) eqn:Hoff.
  - pose proof (run_create_local t (S (S fuel)) srv now i w Hoff Hval) as Hlocal.
    cbv zeta in Hlocal. destruct Hlocal as (Hrun' & Hst & _).
    rewrite Hrun' in Hrun. inversion Hrun as [[Hv Hw]]. clear Hrun.
    exists item.
    split_and!; [done|apply new_transaction_id|done|by apply Hlisted|done|done].
  - destruct (remoteCall (Create t i) srv w) as [[resp|e] w1] eqn:Hcall.
    + destruct (run_responded _ (S fuel) srv now w resp w1 Hoff Hpre Hcall) as [out Hrun'].
      rewrite Hrun' in Hrun. injection Hrun as _ <-.
      apply remoteCall_responded in Hcall. rewrite Hcall, Hoff in Hoff'. discriminate.
    + destruct (isNetworkError e) eqn:Hnet.
      * rewrite (run_network_error _ fuel srv now w e w1 Hop Hoff Hpre Hcall Hnet) in Hrun.
        destruct (remoteCall_network_error (Create t i) srv w e) as (Huser & _);
          [by rewrite Hcall | done |].
        destruct (remoteCall_effect (Create t i) srv w) as (_ & Hcol & _).
        rewrite Hcall in Huser, Hcol. simpl in Huser, Hcol.
        assert (Hsame : stored (resourceOf t) (setOffline w1) = stored (resourceOf t) w).
        { unfold stored, getCollection, storageKey, getUserId. simpl.
          by rewrite Huser, Hcol. }
        pose proof (run_create_local t 1 srv now i (setOffline w1) eq_refl Hval) as Hlocal.
        cbv zeta in Hlocal. destruct Hlocal as (Hrun' & Hst & _).
        pose proof (run_offline (Create t i) 0 srv now (setOffline w1) Hop eq_refl) as Hro.
        rewrite Hpre in Hro. rewrite Hsame in Hrun', Hst.
        rewrite <- Hro, Hrun' in Hrun. inversion Hrun as [[Hv Hw]]. clear Hrun.
        exists item.
        split_and!; [done|apply new_transaction_id|done|by apply Hlisted|done|done].
      * destruct (run_other_error _ (S fuel) srv now w e w1 Hoff Hpre Hcall Hnet)
          as [e' Hrun'].
        rewrite Hrun' in Hrun. discriminate.
Qed.

Lemma created_record_is_listed_witness :
  ∃ v w', run 2 Sample.unreachable 1700000000000 (Create income Sample.salaryInput)
            Sample.onlineWorld = Some (Returned v, w')
          ∧ isOfflineMode (storage w') = true
          ∧ run 1 Scenario.accepts 1700000000001 FetchIncomes w'
            = Some (Returned (JArr [v]), w').
Proof.
  eexists _, _. split; [reflexivity|]. split; [reflexivity|].
  destruct (created_record_is_listed income 0 0 Sample.unreachable Scenario.accepts
              1700000000000 1700000000001 Sample.salaryInput Sample.onlineWorld _ _
              eq_refl eq_refl) as (item & Hv & _ & _ & Hfetch & _).
  injection Hv as <-. exact Hfetch.
Defined.

Lemma run_delete_local r id fuel srv now w :
  isOfflineMode (storage w) = true →
  run (S fuel) srv now (Delete r id) w
  = Some (Returned success,
          update_storage
            (setCollection (storageKey (kind r) (storage w))
                           (List.filter (otherId id) (stored r w))) w).
Proof. intros Hoff. destruct r; simpl; by rewrite Hoff. Qed.

Lemma run_create_category_local c fuel srv now w :
  isOfflineMode (storage w) = true →
  let item := merge [("id", JStr ("cat_" +:+ pretty now))] (category_fields c) in
  let w' := update_storage
              (setCollection (storageKey "categories" (storage w))
                             (stored Categories w ++ [item])) w in
  run (S fuel) srv now (CreateCategory c) w = Some (Returned (JObj item), w')
  ∧ stored Categories w' = (stored Categories w ++ [item])%list
  ∧ isOfflineMode (storage w') = true.
Proof.
  intros Hoff item w'. split_and!; [|apply getCollection_setCollection|exact Hoff].
  simpl. rewrite Hoff. unfold saveLocal, w', item. by rewrite json_category.
Qed.

(** X9. The seven default categories are written only by a listing that
    finds the stored collection empty. A category created in local mode
    before the first listing is the only one the listing returns; created
    after it, the category comes eighth, after the defaults. *)
Theorem first_category_suppresses_the_defaults (fuel : nat) (srv : Server) (now : N)
    (c : CategoryInput) (w : World) :
  isOfflineMode (storage w) = true →
  stored Categories w = [] →
  let item := merge [("id", JStr ("cat_" +:+ pretty now))] (category_fields c) in
  (∃ w1, run (S fuel) srv now (CreateCategory c) w = Some (Returned (JObj item), w1)
         ∧ run (S fuel) srv now FetchCategories w1
           = Some (Returned (asArray [item]), w1))
  ∧ (∃ w2 w3, run (S fuel) srv now FetchCategories w
              = Some (Returned (asArray defaultCategories), w2)
              ∧ run (S fuel) srv now (CreateCategory c) w2
                = Some (Returned (JObj item), w3)
              ∧ run (S fuel) srv now FetchCategories w3
                = Some (Returned (asArray (defaultCategories ++ [item])), w3)).
Proof.
  intros Hoff Hempty item.
  split.
  - pose proof (run_create_category_local c fuel srv now w Hoff) as Hc.
    cbv zeta in Hc. destruct Hc as (Hrun & Hst & Hoff1). rewrite Hempty in *.
    eexists. split; [exact Hrun|].
    rewrite (run_fetch_local Categories) by (done || right; by rewrite Hst).
    by rewrite Hst.
  - set (w2 := update_storage
                 (setCollection (storageKey "categories" (storage w)) defaultCategories) w).
    assert (Hst2 : stored Categories w2 = defaultCategories)
      by apply getCollection_setCollection.
    pose proof (run_create_category_local c fuel srv now w2 Hoff) as Hc.
    cbv zeta in Hc. destruct Hc as (Hrun & Hst & Hoff3). rewrite Hst2 in *.
    eexists w2, _. split_and!; [|exact Hrun|].
    + simpl. rewrite Hoff. unfold loadCategoriesLocal.
      unfold stored in Hempty; simpl in Hempty. by rewrite Hempty.
    + rewrite (run_fetch_local Categories) by (done || right; by rewrite Hst).
      by rewrite Hst.
Qed.

Lemma first_category_suppresses_the_defaults_witness :
  isOfflineMode (storage Sample.offlineWorld) = true
  ∧ stored Categories Sample.offlineWorld = []
  ∧ ∃ item w1, run 1 Sample.unreachable 5 (CreateCategory Sample.food) Sample.offlineWorld
               = Some (Returned (JObj item), w1)
               ∧ run 1 Sample.unreachable 5 FetchCategories w1
                 = Some (Returned (asArray [item]), w1).
Proof.
  split_and!; [reflexivity..|].
  destruct (first_category_suppresses_the_defaults 0 Sample.unreachable 5 Sample.food
              Sample.offlineWorld eq_refl eq_refl) as [(w1 & Hcreate & Hfetch) _].
  eexists _, w1. split; [exact Hcreate | exact Hfetch].
Defined.

(** X10. In local mode, deleting the id that a create has just returned
    undoes the create, provided no stored record of that type already had
    that id: the listing of that type is what it was, and so is every other
    entry of the local store. *)
Theorem delete_undoes_create (t : CategoryType) (fuel : nat) (srv srv' : Server)
    (now now' : N) (i : TransactionInput) (w : World) :
  isOfflineMode (storage w) = true →
  validate i = Returned () →
  JStr (idPrefix t +:+ pretty now) ∉ map (JS.lookup_field "id") (stored (resourceOf t) w) →
  ∃ item w1 w2,
    run fuel srv now (Create t i) w = Some (Returned (JObj item), w1)
    ∧ run (S fuel) srv' now'
          (Delete (resourceOf t) (idPrefix t +:+ pretty now)) w1
      = Some (Returned success, w2)
    ∧ stored (resourceOf t) w2 = stored (resourceOf t) w
    ∧ (∀ key, key ≠ storageKey (kind (resourceOf t)) (storage w) →
         collections (storage w2) !! key = collections (storage w) !! key).
Proof.
  intros Hoff Hval Hfresh.
  pose proof (run_create_local t fuel srv now i w Hoff Hval) as Hc.
  cbv zeta in Hc. destruct Hc as (Hcreate & Hst & _).
  set (item := merge [("id", JStr (idPrefix t +:+ pretty now))] (input_fields i)) in *.
  set (w1 := update_storage _ w) in *.
  assert (Hoff1 : isOfflineMode (storage w1) = true) by exact Hoff.
  assert (Hitem : otherId (idPrefix t +:+ pretty now) (JS.json_object item) = false).
  { unfold otherId, item.
    rewrite (lookup_json_object _ _ _ (new_transaction_id _ i)). simpl.
    by rewrite String.eqb_refl. }
  eexists item, w1, _. split_and!; [exact Hcreate|by apply run_delete_local| |].
  - unfold stored at 1; simpl. rewrite storageKey_setCollection.
    rewrite getCollection_setCollection, Hst, List.filter_app. simpl.
    rewrite Hitem, app_nil_r. by apply filter_otherId_fresh.
  - intros key Hne. simpl. rewrite storageKey_setCollection.
    by rewrite !lookup_insert_ne.
Qed.

Lemma delete_undoes_create_witness :
  isOfflineMode (storage Sample.offlineWorld) = true
  ∧ ∃ item w1 w2,
      run 1 Sample.unreachable 1700000000000 (Create income Sample.salaryInput)
          Sample.offlineWorld = Some (Returned (JObj item), w1)
      ∧ run 2 Sample.unreachable 1700000000001 (DeleteIncome "inc_1700000000000") w1
        = Some (Returned success, w2)
      ∧ stored Incomes w2 = stored Incomes Sample.offlineWorld.
Proof.
  split; [reflexivity|].
  assert (Hfresh : JStr "inc_1700000000000"
                   ∉ map (JS.lookup_field "id") (stored Incomes Sample.offlineWorld)).
  { change (JStr "inc_1700000000000" ∉ [JStr "inc_1"; JStr "inc_2"]).
    intros H. repeat (apply elem_of_cons in H as [H|H]; [discriminate H|]).
    by apply elem_of_nil in H. }
  destruct (delete_undoes_create income 1 Sample.unreachable Sample.unreachable
              1700000000000 1700000000001 Sample.salaryInput Sample.offlineWorld
              eq_refl eq_refl Hfresh) as (item & w1 & w2 & Hc & Hd & Hs & _).
  exists item, w1, w2. split_and!; assumption.
Defined.

(** ** Authentication: the forms *)

Section AuthForms.
Implicit Types (w : World) (srv : Server) (account : JSObject).

Lemma eq_string_true (v : JSValue) (s : string) :
  JS.eq_string v s = true ↔ v = JStr s.
Proof.
  destruct v; simpl; try (split; [discriminate|intros [=]]).
  destruct (String.eqb_spec s0 s) as [->|Hne]; split; try done; intros [=]; done.
Qed.

Lemma lookup_without (k : string) (fs : JSObject) :
  JS.lookup_field k (without k fs) = JUndefined.
Proof.
  induction fs as [|[k' v] fs IH]; simpl; [done|].
  destruct (String.eqb_spec k' k) as [->|Hne]; simpl; [done|].
  by destruct (String.eqb_spec k' k).
Qed.

Lemma lookup_without_ne (k k' : string) (fs : JSObject) :
  k ≠ k' → JS.lookup_field k' (without k fs) = JS.lookup_field k' fs.
Proof.
  intros Hne. induction fs as [|[k0 v] fs IH]; simpl; [done|].
  destruct (String.eqb_spec k0 k) as [->|Hk]; simpl.
  - destruct (String.eqb_spec k k'); done.
  - by rewrite IH.
Qed.

Lemma find_account email password (l : list JSObject) :
  match List.find (fun u => JS.eq_string (JS.lookup_field "email" u) email
                            && JS.eq_string (JS.lookup_field "password" u) password) l with
  | Some account => account ∈ l ∧ credentialsOf email password account
  | None => ∀ account, account ∈ l → ¬ credentialsOf email password account
  end.
Proof.
  destruct (List.find _ l) as [account|] eqn:Hfind.
  - apply find_some in Hfind as [Hin Hm]. apply andb_prop in Hm as [He Hp].
    split; [by apply list_elem_of_In|]. split; by apply eq_string_true.
  - intros account Hin [He Hp]. apply list_elem_of_In in Hin.
    pose proof (find_none _ _ Hfind account Hin) as Hno. simpl in Hno.
    apply eq_string_true in He, Hp. by rewrite He, Hp in Hno.
Qed.

(** [find] returns the first element that fits. *)
Lemma find_first (f : JSObject → bool) (before after : list JSObject) (x : JSObject) :
  (∀ y, y ∈ before → f y = false) → f x = true →
  List.find f (before ++ x :: after) = Some x.
Proof.
  intros Hl Hx. induction before as [|y l IH]; simpl; [by rewrite Hx|].
  rewrite (Hl y) by apply list_elem_of_here.
  apply IH. intros z Hz. apply Hl. by apply list_elem_of_further.
Qed.

(** A request that got no response leaves the session as it was. *)
Lemma axios_no_response srv m u b w c msg :
  (∀ req, srv req = Failed (NoResponse c msg)) →
  ∃ w1, axios srv m u b w = (Thrown (AxiosError (NoResponse c msg)), w1)
        ∧ token (storage w1) = token (storage w)
        ∧ currentUser (storage w1) = currentUser (storage w)
        ∧ users (storage w1) = users (storage w)
        ∧ collections (storage w1) = collections (storage w).
Proof.
  intros Hsrv. unfold axios. rewrite Hsrv. eexists. split; [reflexivity|].
  destruct (responseInterceptor_effect (AxiosError (NoResponse c msg))
              (send (requestInterceptor (storage w) (mkRequest m u b None)) w))
    as (_ & _ & Hcol & Husers & _ & Hnone).
  destruct (Hnone eq_refl) as (Htok & Huser & _). by split_and!.
Qed.
End AuthForms.

(** X11. When the login request gets no response, the login is decided by
    the local accounts alone. It succeeds exactly when an account has the
    submitted email and password: the first such account in the stored
    order, without its password, becomes the current user, the token is
    [offline_<now>] and the mode is local. Otherwise the form shows the
    offline error and the token and the current user stay as they were. The
    accounts and the collections are never changed. *)
Theorem offline_login_checks_local_accounts (srv : Server) (now : N)
    (email password : string) (w : World) (c : option string) (msg : string) :
  email ≠ "" →
  password ≠ "" →
  (∀ req, srv req = Failed (NoResponse c msg)) →
  let result := (Login.handleSubmit srv now email password w).1 in
  let w' := (Login.handleSubmit srv now email password w).2 in
  users (storage w') = users (storage w)
  ∧ collections (storage w') = collections (storage w)
  ∧ ((∃ account, account ∈ users (storage w) ∧ credentialsOf email password account) →
     ∃ account,
       account ∈ users (storage w) ∧ credentialsOf email password account
       ∧ result = Authenticated (JObj (without "password" account))
                                ("offline_" +:+ pretty now)
       ∧ token (storage w') = Some ("offline_" +:+ pretty now)
       ∧ currentUser (storage w') = Some (JObj (without "password" account))
       ∧ JS.prop (JObj (without "password" account)) "password" = JUndefined
       ∧ isOfflineMode (storage w') = true)
  ∧ (∀ before account after,
       users (storage w) = (before ++ account :: after)%list →
       (∀ other, other ∈ before → ¬ credentialsOf email password other) →
       credentialsOf email password account →
       result = Authenticated (JObj (without "password" account))
                              ("offline_" +:+ pretty now)
       ∧ currentUser (storage w') = Some (JObj (without "password" account)))
  ∧ ((∀ account, account ∈ users (storage w) → ¬ credentialsOf email password account) →
     result = ShowError
                (JStr "Invalid email or password. (Offline Mode - Create an account first)")
     ∧ token (storage w') = token (storage w)
     ∧ currentUser (storage w') = currentUser (storage w)).
Proof.
  intros Hemail Hpassword Hsrv result w'. subst result w'.
  unfold Login.handleSubmit.
  apply String.eqb_neq in Hemail, Hpassword. rewrite Hemail, Hpassword. simpl.
  destruct (axios_no_response srv POST API_END_POINTS.LOGIN
              (JObj [("email", JStr email); ("password", JStr password)]) w c msg Hsrv)
    as (w1 & -> & Htok & Huser & Husers & Hcol).
  cbn [attempt mbind Outcome_bind].
  replace (usesOfflineFallback (AxiosError (NoResponse c msg))) with true
    by (unfold usesOfflineFallback; simpl; by rewrite orb_true_r).
  assert (Hfirst : ∀ before account after,
            users (storage w) = (before ++ account :: after)%list →
            (∀ other, other ∈ before → ¬ credentialsOf email password other) →
            credentialsOf email password account →
            List.find (fun u => JS.eq_string (JS.lookup_field "email" u) email
                                && JS.eq_string (JS.lookup_field "password" u) password)
                      (users (storage w1)) = Some account).
  { intros before account after Hsplit Hbefore [He Hp]. rewrite Husers, Hsplit.
    apply find_first.
    - intros y Hy. apply not_true_is_false.
      intros [Hye%eq_string_true Hyp%eq_string_true]%andb_prop.
      by apply (Hbefore y Hy).
    - apply andb_true_intro. split; by apply eq_string_true. }
  pose proof (find_account email password (users (storage w1))) as Hfind.
  destruct (List.find _ (users (storage w1))) as [account|]; simpl.
  - destruct Hfind as [Hin Hcred]. rewrite Husers in Hin.
    split_and!; [done|done| | |].
    + intros _. exists account. split_and!; try done. apply lookup_without.
    + intros before account' after Hsplit Hbefore Hcred'.
      by injection (Hfirst before account' after Hsplit Hbefore Hcred') as ->.
    + intros Hnone. destruct (Hnone account Hin Hcred).
  - rewrite Husers in Hfind. split_and!; [done|done| | |done].
    + intros (account & Hin & Hcred). destruct (Hfind account Hin Hcred).
    + intros before account after Hsplit Hbefore Hcred.
      discriminate (Hfirst before account after Hsplit Hbefore Hcred).
Qed.

Lemma offline_login_checks_local_accounts_witness :
  users (storage Scenario.twoAccounts) = [Sample.localUser; Scenario.twin]
  ∧ credentialsOf "joe@example.com" "secret" Scenario.twin
  ∧ (Login.handleSubmit Sample.unreachable 99 "joe@example.com" "secret"
       Scenario.twoAccounts).1
    = Authenticated (JObj (without "password" Sample.localUser)) "offline_99".
Proof.
  split; [reflexivity|]. split; [by split|].
  destruct (offline_login_checks_local_accounts Sample.unreachable 99
              "joe@example.com" "secret" Scenario.twoAccounts
              (Some "ERR_NETWORK") "Network Error"
              ltac:(discriminate) ltac:(discriminate) (fun _ => eq_refl))
    as (_ & _ & _ & Hfirst & _).
  apply (Hfirst [] Sample.localUser [Scenario.twin] eq_refl).
  - intros other Hother. by apply elem_of_nil in Hother.
  - by split.
Defined.

Section Registration.
Implicit Types (w : World) (srv : Server).


Lemma existsb_email email (l : list JSObject) :
  existsb (fun u => JS.eq_string (JS.lookup_field "email" u) email) l = true
  ↔ JStr email ∈ map (JS.lookup_field "email") l.
Proof.
  rewrite existsb_exists, list_elem_of_fmap. split.
  - intros (u & Hin & He). exists u. apply eq_string_true in He.
    split; [done|by apply list_elem_of_In].
  - intros (u & He & Hin). exists u. split; [by apply list_elem_of_In|].
    by apply eq_string_true.
Qed.

Lemma find_last (f : JSObject → bool) (l : list JSObject) (x : JSObject) :
  (∀ y, y ∈ l → f y = false) → f x = true → List.find f (l ++ [x]) = Some x.
Proof.
  intros Hl Hx. induction l as [|y l IH]; simpl; [by rewrite Hx|].
  rewrite (Hl y) by apply list_elem_of_here.
  apply IH. intros z Hz. apply Hl. by apply list_elem_of_further.
Qed.
End Registration.



(** X13. An account registered while the server cannot be reached can log in
    the same way afterwards: for a password of at least 6 UTF-16 code units,
    the registration hands over the user [{ id: user_<now>, username, email }]
    and an offline token, and as long as the local accounts are those it
    left, an offline login with the same email and password hands over that
    same user; a second offline registration of the email is refused with
    [Email already exists]. *)
Theorem offline_account_round_trip (srv srv' : Server) (now1 now2 now3 : N)
    (username email password : string) (w : World) (c c' : option string)
    (msg msg' : string) :
  username ≠ "" →
  email ≠ "" →
  (6 ≤ Str.length password)%nat →
  (∀ req, srv req = Failed (NoResponse c msg)) →
  (∀ req, srv' req = Failed (NoResponse c' msg')) →
  JStr email ∉ localEmails (storage w) →
  let user := JObj [("id", JStr ("user_" +:+ pretty now1)); ("username", JStr username);
                    ("email", JStr email)] in
  ∃ w1,
    Register.handleSubmit srv now1 now2 username email password password w
    = (Authenticated user ("offline_" +:+ pretty now2), w1)
    ∧ (∀ v, users (storage v) = users (storage w1) →
         (Login.handleSubmit srv' now3 email password v).1
         = Authenticated user ("offline_" +:+ pretty now3))
    ∧ (∀ v username' password',
         users (storage v) = users (storage w1) →
         username' ≠ "" →
         (6 ≤ Str.length password')%nat →
         (Register.handleSubmit srv' now3 now3 username' email password' password' v).1
         = ShowError (JStr "Email already exists")).
Proof.
  intros Husername Hemail Hlen Hsrv Hsrv' Hfresh user.
  assert (Hnonempty : ∀ p, (6 ≤ Str.length p)%nat → String.eqb p "" = false).
  { intros p Hp. apply String.eqb_neq. intros ->. simpl in Hp. lia. }
  assert (Hshort : ∀ p, (6 ≤ Str.length p)%nat → (Str.length p <? 6)%nat = false).
  { intros p Hp. apply Nat.ltb_ge. lia. }
  apply String.eqb_neq in Hemail.
  set (newUser := [("id", JStr ("user_" +:+ pretty now1)); ("username", JStr username);
                   ("email", JStr email); ("password", JStr password)] : JSObject).
  destruct (axios_no_response srv POST API_END_POINTS.REGISTER
              (JObj [("username", JStr username); ("email", JStr email);
                     ("password", JStr password)]) w c msg Hsrv)
    as (w0 & Hcall & _ & _ & Husers0 & _).
  assert (Hnot : existsb (fun u => JS.eq_string (JS.lookup_field "email" u) email)
                   (users (storage w0)) = false).
  { rewrite Husers0. apply not_true_is_false. intros H. by apply existsb_email in H. }
  eexists. split_and!.
  - unfold Register.handleSubmit.
    apply String.eqb_neq in Husername.
    rewrite Husername, Hemail, (Hnonempty password Hlen), String.eqb_refl,
      (Hshort password Hlen). simpl.
    rewrite Hcall. cbn [attempt mbind Outcome_bind].
    replace (usesOfflineFallback (AxiosError (NoResponse c msg))) with true
      by (unfold usesOfflineFallback; simpl; by rewrite orb_true_r).
    rewrite Hnot. reflexivity.
  - intros v Hv. unfold Login.handleSubmit.
    rewrite Hemail, (Hnonempty password Hlen). simpl.
    destruct (axios_no_response srv' POST API_END_POINTS.LOGIN
                (JObj [("email", JStr email); ("password", JStr password)]) v c' msg' Hsrv')
      as (v1 & -> & _ & _ & Husers & _).
    cbn [attempt mbind Outcome_bind].
    replace (usesOfflineFallback (AxiosError (NoResponse c' msg'))) with true
      by (unfold usesOfflineFallback; simpl; by rewrite orb_true_r).
    rewrite Husers, Hv. simpl. rewrite Husers0.
    rewrite (find_last _ (users (storage w)) newUser).
    + reflexivity.
    + intros y Hy. apply andb_false_intro1. apply not_true_is_false.
      intros He%eq_string_true. apply Hfresh. unfold localEmails.
      apply list_elem_of_fmap. by exists y.
    + simpl. by rewrite !String.eqb_refl.
  - intros v username' password' Hv Husername' Hlen'. unfold Register.handleSubmit.
    apply String.eqb_neq in Husername'.
    rewrite Husername', Hemail, (Hnonempty password' Hlen'), String.eqb_refl,
      (Hshort password' Hlen'). simpl.
    destruct (axios_no_response srv' POST API_END_POINTS.REGISTER
                (JObj [("username", JStr username'); ("email", JStr email);
                       ("password", JStr password')]) v c' msg' Hsrv')
      as (v1 & -> & _ & _ & Husers & _).
    cbn [attempt mbind Outcome_bind].
    replace (usesOfflineFallback (AxiosError (NoResponse c' msg'))) with true
      by (unfold usesOfflineFallback; simpl; by rewrite orb_true_r).
    replace (existsb _ (users (storage v1))) with true; [reflexivity|].
    symmetry. apply existsb_email. rewrite Husers, Hv. simpl. rewrite Husers0.
    rewrite map_app, elem_of_app. right. apply list_elem_of_here.
Qed.

Lemma offline_account_round_trip_witness :
  ∃ user w1,
    Register.handleSubmit Sample.unreachable 98 99 "ann" "ann@example.com"
      "secret1" "secret1" Sample.loggedOutWorld
    = (Authenticated user "offline_99", w1)
    ∧ (Login.handleSubmit Sample.unreachable 120 "ann@example.com" "secret1" w1).1
      = Authenticated user "offline_120".
Proof.
  assert (Hfresh : JStr "ann@example.com" ∉ localEmails (storage Sample.loggedOutWorld)).
  { intros H%list_elem_of_singleton. discriminate H. }
  destruct (offline_account_round_trip Sample.unreachable Sample.unreachable 98 99 120
              "ann" "ann@example.com" "secret1" Sample.loggedOutWorld
              (Some "ERR_NETWORK") (Some "ERR_NETWORK") "Network Error" "Network Error"
              ltac:(discriminate) ltac:(discriminate) ltac:(simpl; lia)
              (fun _ => eq_refl) (fun _ => eq_refl) Hfresh)
    as (w1 & Hreg & Hlogin & _).
  eexists _, w1. split; [exact Hreg|]. exact (Hlogin w1 eq_refl).
Defined.

(** X26. The registration form validates before it sends, in this order: an
    empty field, two passwords that differ, a password of fewer than 6
    UTF-16 code units. In each case it shows its message and neither sends
    nor writes anything. Otherwise it sends one request, [POST /register]
    with the username, the email and the password, and without an
    Authorization header whatever token is stored. *)
Theorem registration_validates_before_sending (srv : Server) (now1 now2 : N)
    (username email password confirmPassword : string) (w : World) :
  let submitted := Register.handleSubmit srv now1 now2 username email password
                     confirmPassword w in
  (username = "" ∨ email = "" ∨ password = "" ∨ confirmPassword = "" →
   submitted = (ShowError (JStr "Please fill in all fields"), w))
  ∧ (username ≠ "" → email ≠ "" → password ≠ "" → confirmPassword ≠ "" →
     password ≠ confirmPassword →
     submitted = (ShowError (JStr "Passwords do not match"), w))
  ∧ (username ≠ "" → email ≠ "" → password ≠ "" → confirmPassword = password →
     (Str.length password < 6)%nat →
     submitted = (ShowError (JStr "Password must be at least 6 characters"), w))
  ∧ (username ≠ "" → email ≠ "" → confirmPassword = password →
     (6 ≤ Str.length password)%nat →
     requests submitted.2
     = (requests w ++
        [mkRequest POST "/register"
           (JObj [("username", JStr username); ("email", JStr email);
                  ("password", JStr password)]) None])%list).
Proof.
  intros submitted. subst submitted. unfold Register.handleSubmit. split_and!.
  - intros Hempty.
    replace (String.eqb username "" || String.eqb email "" || String.eqb password ""
             || String.eqb confirmPassword "") with true; [done|].
    symmetry. rewrite !orb_true_iff, !String.eqb_eq. tauto.
  - intros Hu He Hp Hc Hne.
    apply String.eqb_neq in Hu, He, Hp, Hc, Hne. by rewrite Hu, He, Hp, Hc, Hne.
  - intros Hu He Hp -> Hlen.
    apply String.eqb_neq in Hu, He, Hp. apply Nat.ltb_lt in Hlen.
    by rewrite Hu, He, Hp, String.eqb_refl, Hlen.
  - intros Hu He -> Hlen.
    assert (Hp : password ≠ "") by (intros ->; simpl in Hlen; lia).
    apply String.eqb_neq in Hu, He, Hp. apply Nat.ltb_ge in Hlen.
    rewrite Hu, He, Hp, String.eqb_refl, Hlen. simpl.
    destruct (axios_effect srv POST API_END_POINTS.REGISTER
                (JObj [("username", JStr username); ("email", JStr email);
                       ("password", JStr password)]) w) as (Hreq & _).
    destruct (axios srv POST API_END_POINTS.REGISTER _ w) as [r w1]; simpl in Hreq.
    repeat case_match; simpl; exact Hreq.
Qed.

Lemma registration_validates_before_sending_witness :
  String.length (utf8 [195; 169; 195; 169; 195; 169]) = 6%nat
  ∧ Register.handleSubmit Sample.unreachable 98 99 "ann" "ann@example.com"
      (utf8 [195; 169; 195; 169; 195; 169]) (utf8 [195; 169; 195; 169; 195; 169])
      Sample.freshWorld
    = (ShowError (JStr "Password must be at least 6 characters"), Sample.freshWorld).
Proof.
  split; [reflexivity|].
  destruct (registration_validates_before_sending Sample.unreachable 98 99 "ann"
              "ann@example.com" (utf8 [195; 169; 195; 169; 195; 169])
              (utf8 [195; 169; 195; 169; 195; 169]) Sample.freshWorld)
    as (_ & _ & Hshort & _).
  apply Hshort; [discriminate..|reflexivity|simpl; lia].
Defined.

(** X14. The four response formats of the authentication, in the order the
    forms try them: [{ token, user }]; [{ success, token, data: { user } }]
    when there is no top-level user; [{ accessToken, user }] when there is no
    top-level token; [{ data: { token, user } }] when there is no top-level
    token and no access token or no top-level user. Each yields its token
    and its user. *)
Theorem auth_formats (fallback body : JSValue) (t : string) :
  t ≠ "" →
  JS.nullish body = false →
  let inner := JS.prop body "data" in
  (JS.prop body "token" = JStr t →
   JS.truthy (JS.prop body "user") = true →
   normalizeAuth fallback body = Returned (t, JS.prop body "user"))
  ∧ (JS.prop body "token" = JStr t →
     JS.truthy (JS.prop body "user") = false →
     JS.truthy (JS.prop body "success") = true →
     JS.truthy (JS.prop inner "user") = true →
     normalizeAuth fallback body = Returned (t, JS.prop inner "user"))
  ∧ (JS.truthy (JS.prop body "token") = false →
     JS.prop body "accessToken" = JStr t →
     JS.truthy (JS.prop body "user") = true →
     normalizeAuth fallback body = Returned (t, JS.prop body "user"))
  ∧ (JS.truthy (JS.prop body "token") = false →
     JS.truthy (JS.prop body "accessToken") = false
       ∨ JS.truthy (JS.prop body "user") = false →
     JS.prop inner "token" = JStr t →
     JS.truthy (JS.prop inner "user") = true →
     normalizeAuth fallback body = Returned (t, JS.prop inner "user")).
Proof.
  intros Ht Hbody inner.
  assert (Hne : String.eqb t "" = false) by by apply String.eqb_neq.
  unfold normalizeAuth, extractAuth, get. rewrite Hbody. simpl. fold inner.
  split_and!.
  - intros -> Hu. simpl. rewrite Hne, Hu. simpl. by rewrite Hne, Hu.
  - intros -> Hu Hs Hiu. simpl. rewrite Hne, Hu, Hs, Hiu. simpl. by rewrite Hne, Hiu.
  - intros Htok Hacc Hu. rewrite Htok, Hacc, Hu. simpl. rewrite Hne. simpl.
    rewrite andb_false_r. simpl. by rewrite Hne, Hu.
  - intros Htok Hno Hit Hiu. rewrite Htok, Hit, Hiu. simpl. rewrite Hne. simpl.
    rewrite andb_false_r. simpl.
    replace (JS.truthy (JS.prop body "accessToken") && JS.truthy (JS.prop body "user"))
      with false by (destruct Hno as [-> | ->]; by rewrite ?andb_false_r).
    simpl. by rewrite Hne, Hiu.
Qed.

Lemma auth_formats_witness :
  normalizeAuth JNull
    (JObj [("accessToken", JStr "jwt"); ("user", Sample.user)])
  = Returned ("jwt", Sample.user).
Proof.
  destruct (auth_formats JNull (JObj [("accessToken", JStr "jwt"); ("user", Sample.user)])
              "jwt" ltac:(discriminate) eq_refl) as (_ & _ & H3 & _).
  exact (H3 eq_refl eq_refl eq_refl).
Defined.

Lemma axios_answered srv m u b w resp :
  (∀ req, srv req = Responded resp) →
  axios srv m u b w
  = (Returned resp, send (requestInterceptor (storage w) (mkRequest m u b None)) w).
Proof. intros Hsrv. unfold axios. by rewrite Hsrv. Qed.

(** X15. A login whose response yields a token and a user writes the
    session: the token, the user and the mode [online] are stored, so the
    mode is remote whatever it was, the collections and the local accounts
    are untouched, and the request itself carried no Authorization header
    even when a token was stored. *)
Theorem remote_login_stores_the_session (srv : Server) (now : N)
    (email password : string) (w : World) (resp : HttpResponse) (t : string)
    (user : JSValue) :
  email ≠ "" →
  password ≠ "" →
  (∀ req, srv req = Responded resp) →
  normalizeAuth JNull (data resp) = Returned (t, user) →
  ∃ w', Login.handleSubmit srv now email password w = (Authenticated user t, w')
        ∧ token (storage w') = Some t
        ∧ currentUser (storage w') = Some user
        ∧ backendMode (storage w') = Some "online"
        ∧ isOfflineMode (storage w') = false
        ∧ users (storage w') = users (storage w)
        ∧ collections (storage w') = collections (storage w)
        ∧ requests w'
          = (requests w ++
             [mkRequest POST "/login"
                (JObj [("email", JStr email); ("password", JStr password)]) None])%list.
Proof.
  intros Hemail Hpassword Hsrv Hauth.
  apply String.eqb_neq in Hemail, Hpassword.
  eexists. split.
  - unfold Login.handleSubmit. rewrite Hemail, Hpassword. simpl.
    rewrite (axios_answered srv _ _ _ w resp Hsrv).
    cbn [attempt mbind Outcome_bind].
    rewrite (fallback_user_is_never_used _ JNull), Hauth. reflexivity.
  - split_and!; reflexivity.
Qed.

Lemma remote_login_stores_the_session_witness :
  ∃ w', Login.handleSubmit
          (Sample.answers 200 (JObj [("token", JStr "jwt2"); ("user", Sample.user)]))
          0 "joe@example.com" "secret" Sample.offlineWorld
        = (Authenticated Sample.user "jwt2", w')
        ∧ isOfflineMode (storage w') = false.
Proof.
  destruct (remote_login_stores_the_session
              (Sample.answers 200 (JObj [("token", JStr "jwt2"); ("user", Sample.user)]))
              0 "joe@example.com" "secret" Sample.offlineWorld
              (mkResponse 200 (JObj [("token", JStr "jwt2"); ("user", Sample.user)]))
              "jwt2" Sample.user ltac:(discriminate) ltac:(discriminate)
              (fun _ => eq_refl) eq_refl)
    as (w' & Hrun & _ & _ & _ & Hmode & _).
  exists w'. split; assumption.
Defined.

(** X16. A login answered with an HTTP error status shows the first
    non-empty one of the server's [message], [error] and [msg], else
    [Invalid email or password], and authenticates nobody. With a status
    other than 401 localStorage is left as it was. With 401 the response
    interceptor has removed the token and the current user, set the mode to
    local and sent the browser to [/]. *)
Theorem login_http_error (srv : Server) (now : N) (email password : string)
    (w : World) (r : HttpResponse) :
  email ≠ "" →
  password ≠ "" →
  (∀ req, srv req = Failed (BadStatus r)) →
  let w' := (Login.handleSubmit srv now email password w).2 in
  (Login.handleSubmit srv now email password w).1
  = ShowError (JS.or (JS.prop (data r) "message")
                 (JS.or (JS.prop (data r) "error")
                    (JS.or (JS.prop (data r) "msg") (JStr "Invalid email or password"))))
  ∧ (status r ≠ 401%Z → storage w' = storage w ∧ href w' = href w)
  ∧ (status r = 401%Z →
       token (storage w') = None ∧ currentUser (storage w') = None
       ∧ isOfflineMode (storage w') = true ∧ href w' = Some "/").
Proof.
  intros Hemail Hpassword Hsrv w'. subst w'.
  apply String.eqb_neq in Hemail, Hpassword.
  unfold Login.handleSubmit. rewrite Hemail, Hpassword. simpl.
  unfold axios. rewrite Hsrv. cbn [attempt mbind Outcome_bind].
  replace (usesOfflineFallback (AxiosError (BadStatus r))) with false
    by (unfold usesOfflineFallback; by rewrite bad_status_not_network).
  cbn [fst snd]. split; [reflexivity|].
  set (config := requestInterceptor _ _).
  destruct (responseInterceptor_bad_status r (send config w)) as (_ & _ & _ & Hother & _).
  split.
  - intros Hne. by rewrite (Hother Hne).
  - intros H401. unfold responseInterceptor. simpl. rewrite H401. simpl.
    by split_and!.
Qed.

Lemma login_http_error_witness :
  (Login.handleSubmit (Sample.answers 403 (JObj [("error", JStr "Account not activated")]))
     0 "joe@example.com" "secret" Sample.loggedOutWorld).1
  = ShowError (JStr "Account not activated").
Proof.
  exact (proj1 (login_http_error
                  (Sample.answers 403 (JObj [("error", JStr "Account not activated")]))
                  0 "joe@example.com" "secret" Sample.loggedOutWorld
                  (mkResponse 403 (JObj [("error", JStr "Account not activated")]))
                  ltac:(discriminate) ltac:(discriminate) (fun _ => eq_refl))).
Defined.

(** ** The session: reload, logout, profile *)

Lemma requestInterceptor_no_token ls config :
  token ls = None → requestInterceptor ls config = config.
Proof. intros H. unfold requestInterceptor. rewrite H. by destruct (negb _). Qed.

(** X17. A page load with a token and a user in localStorage writes the mode
    [online], as [forceOnlineMode] does, whatever the mode was: the local
    mode entered after a network error or an offline login does not survive
    a reload, and the next operation with valid input sends its request
    again. Without a token or without a user the load changes nothing in
    localStorage. *)
Theorem reload_resets_the_mode (st : App.State) (w : World) :
  let w' := (App.checkAuthentication st w).2 in
  (hasToken (storage w) = true →
   currentUser (storage w) ≠ None →
   w' = forceOnlineMode w
   ∧ isOfflineMode (storage w') = false
   ∧ App.st_backendMode (App.checkAuthentication st w).1 = "online"
   ∧ token (storage w') = token (storage w)
   ∧ collections (storage w') = collections (storage w)
   ∧ ∀ op fuel srv now out w'',
       precheck op = Returned () →
       run (S (S fuel)) srv now op w' = Some (out, w'') →
       ∃ req, requests w'' = (requests w ++ [req])%list)
  ∧ (hasToken (storage w) = false ∨ currentUser (storage w) = None → w' = w).
Proof.
  intros w'. subst w'. unfold App.checkAuthentication. split.
  - intros Htok Huser. destruct (currentUser (storage w)) as [authUser|]; [|done].
    rewrite Htok. simpl. split_and!; try reflexivity.
    intros op fuel srv now out w'' Hpre Hrun.
    assert (Hon : isOfflineMode
                    (storage (update_storage (set_backendMode (Some "online")) w))
                  = false) by reflexivity.
    rewrite (requests_after_run op fuel srv now _ out w'' Hon Hpre Hrun).
    destruct (remoteCall_effect op srv
                (update_storage (set_backendMode (Some "online")) w)) as ([req Hreq] & _).
    exists req. exact Hreq.
  - intros [Htok|Huser].
    + rewrite Htok. by destruct (currentUser (storage w)).
    + by rewrite Huser.
Qed.

Lemma reload_resets_the_mode_witness :
  isOfflineMode (storage Sample.offlineWorld) = true
  ∧ isOfflineMode (storage (App.checkAuthentication App.initial Sample.offlineWorld).2)
    = false.
Proof.
  split; [reflexivity|].
  destruct (reload_resets_the_mode App.initial Sample.offlineWorld) as [H _].
  exact (proj1 (proj2 (H eq_refl ltac:(discriminate)))).
Defined.

(** X18. Logging out removes the token, the current user and the mode, as
    [clearAuthToken] does, and nothing else: the local accounts and every
    stored collection survive. Afterwards nobody is authenticated, the mode
    is remote, the local key is the one of [offline_user], and no request
    carries an Authorization header. *)
Theorem logout_clears_the_session (st : App.State) (w : World) :
  let w' := (App.handleLogout st w).2 in
  storage w' = clearAuthToken (storage w)
  ∧ users (storage w') = users (storage w)
  ∧ collections (storage w') = collections (storage w)
  ∧ isAuthenticated (storage w') = false
  ∧ isOfflineMode (storage w') = false
  ∧ getUserId (storage w') = JStr "offline_user"
  ∧ App.st_currentUser (App.handleLogout st w).1 = None
  ∧ App.st_transactions (App.handleLogout st w).1 = []
  ∧ ∀ op srv, ∃ req, requests (remoteCall op srv w').2 = (requests w ++ [req])%list
                     ∧ authorization req = None.
Proof.
  intros w'. subst w'. split_and!; try reflexivity.
  intros op srv.
  assert (H : ∀ m u b v, token (storage v) = None →
    ∃ req, requests (axios srv m u b v).2 = (requests v ++ [req])%list
           ∧ authorization req = None).
  { intros m u b v Hv. destruct (axios_effect srv m u b v) as (-> & _).
    eexists. split; [reflexivity|]. by rewrite requestInterceptor_no_token. }
  destruct op; simpl;
    (edestruct H as (req & Hreq & Hauth); cycle 1;
     [exists req; split; [exact Hreq|exact Hauth]|reflexivity]).
Qed.

Lemma profile_submitted user username email cur new conf img p :
  Profile.handleSubmit user username email cur new conf img = inr p →
  email ≠ "" ∧ ∃ pw, p = Profile.profile username email pw img.
Proof.
  unfold Profile.handleSubmit.
  destruct (String.eqb_spec username ""), (String.eqb_spec email ""); simpl;
    try discriminate.
  repeat case_match; try discriminate; intros [= <-]; eauto.
Qed.

(** X19. The profile form stores an object without an id, so after a profile
    update the user id of the local keys is the submitted email: every
    collection is then read and written under [<kind>_<email>], and what was
    stored under the key of the former id is no longer listed. *)
Theorem profile_update_rekeys_local_data (user : JSValue)
    (username email cur new conf img : string) (p : JSValue) (st : App.State)
    (w : World) :
  Profile.handleSubmit user username email cur new conf img = inr p →
  let w' := (App.handleUpdateProfile p st w).2 in
  getUserId (storage w') = JStr email
  ∧ (∀ r, stored r w' = getCollection (kind r +:+ "_" +:+ email) (storage w))
  ∧ token (storage w') = token (storage w)
  ∧ collections (storage w') = collections (storage w).
Proof.
  intros Hsubmit w'. subst w'.
  destruct (profile_submitted _ _ _ _ _ _ _ _ Hsubmit) as (Hemail & pw & ->).
  assert (Hid : getUserId (storage (App.handleUpdateProfile
                  (Profile.profile username email pw img) st w).2) = JStr email).
  { by destruct pw. }
  split_and!; [done| |done..].
  intros r. unfold stored, storageKey. by rewrite Hid.
Qed.

Lemma profile_update_rekeys_local_data_witness :
  stored Incomes Sample.offlineWorld = [Sample.salary; Sample.bonus]
  ∧ ∃ p, Profile.handleSubmit Sample.user "joe" "joe@example.com" "" "" "" "" = inr p
         ∧ stored Incomes (App.handleUpdateProfile p App.initial Sample.offlineWorld).2
           = [].
Proof.
  split; [reflexivity|]. eexists. split; [reflexivity|].
  rewrite (proj1 (proj2 (profile_update_rekeys_local_data Sample.user "joe"
                           "joe@example.com" "" "" "" "" _ App.initial
                           Sample.offlineWorld eq_refl)) Incomes).
  reflexivity.
Defined.

(** X20. The profile form changes a password only against the password held
    in the user object: whenever one of the three password fields is filled
    and the current-password field is not exactly the password of the user
    object, the submission is refused and nothing is handed to the
    application. A user object without a password, such as the one an
    offline login produces, can therefore never change the password. *)
Theorem password_change_needs_the_stored_password (user : JSValue)
    (username email cur new conf img : string) :
  cur ≠ "" ∨ new ≠ "" ∨ conf ≠ "" →
  JS.prop user "password" ≠ JStr cur →
  ∃ msg, Profile.handleSubmit user username email cur new conf img = inl msg.
Proof.
  intros Hfilled Hpw. unfold Profile.handleSubmit.
  destruct (String.eqb _ _ || String.eqb _ _); [eauto|].
  assert (Hany : negb (String.eqb new "") || negb (String.eqb conf "")
                 || negb (String.eqb cur "") = true).
  { destruct (String.eqb_spec new ""), (String.eqb_spec conf ""),
      (String.eqb_spec cur ""); simpl; try done. by destruct Hfilled as [|[|]]. }
  rewrite Hany. destruct (String.eqb cur ""); [eauto|].
  assert (Hno : JS.eq_string (JS.prop user "password") cur = false).
  { apply not_true_is_false. by intros H%eq_string_true. }
  rewrite Hno. simpl. eauto.
Qed.

Lemma password_change_needs_the_stored_password_witness :
  ∃ msg, Profile.handleSubmit (JObj (without "password" Sample.localUser))
           "joe" "joe@example.com" "secret" "secret2" "secret2" "" = inl msg.
Proof.
  apply password_change_needs_the_stored_password; [left|]; discriminate.
Defined.

(** ** Remote creation, backend check, category form *)

Lemma lookup_set_field k v fs : JS.lookup_field k (JS.set_field k v fs) = v.
Proof.
  induction fs as [|[k' v'] fs IH]; simpl.
  - by rewrite String.eqb_refl.
  - destruct (String.eqb_spec k' k) as [->|Hne]; simpl.
    + by rewrite String.eqb_refl.
    + by apply String.eqb_neq in Hne as ->.
Qed.

Lemma lookup_set_field_ne k k' v fs :
  k' ≠ k → JS.lookup_field k' (JS.set_field k v fs) = JS.lookup_field k' fs.
Proof.
  intros Hne. induction fs as [|[k0 v0] fs IH]; simpl.
  - assert (H : String.eqb k k' = false) by (apply String.eqb_neq; congruence).
    by rewrite H.
  - destruct (String.eqb_spec k0 k) as [->|Hk]; simpl.
    + assert (H : String.eqb k k' = false) by (apply String.eqb_neq; congruence).
      by rewrite H.
    + by rewrite IH.
Qed.

(** X21. In remote mode a creation the server answers with an object returns
    that object: its [name] is the server's when that is truthy and the
    submitted one otherwise, every other field is the server's, and nothing
    is written to localStorage, so the new record is in no local
    collection. *)
Theorem remote_create_returns_the_server_record (t : CategoryType) (fuel : nat)
    (srv : Server) (now : N) (i : TransactionInput) (w : World) (st : Z)
    (fs : JSObject) :
  isOfflineMode (storage w) = false →
  validate i = Returned () →
  (∀ req, srv req = Responded (mkResponse st (JObj fs))) →
  ∃ fs' w',
    run fuel srv now (Create t i) w = Some (Returned (JObj fs'), w')
    ∧ JS.lookup_field "name" fs'
      = JS.or (JS.lookup_field "name" fs) (of_option (in_name i))
    ∧ (∀ k, k ≠ "name" → JS.lookup_field k fs' = JS.lookup_field k fs)
    ∧ storage w' = storage w
    ∧ stored (resourceOf t) w' = stored (resourceOf t) w.
Proof.
  intros Hoff Hval Hsrv.
  set (fs' := JS.set_field "name"
                (JS.or (JS.lookup_field "name" fs) (of_option (in_name i))) fs).
  destruct t;
    (eexists fs', _; split_and!;
     [ simpl; unfold createIncome, createExpense;
       rewrite Hval, Hoff, (axios_answered _ _ _ _ _ _ Hsrv); reflexivity
     | apply lookup_set_field
     | intros k Hk; by apply lookup_set_field_ne
     | reflexivity
     | reflexivity ]).
Qed.

Lemma remote_create_returns_the_server_record_witness :
  ∃ fs' w',
    run 1 (λ _, Responded (mkResponse 201 (JObj [("id", JNum 7)]))) 5%N
        (Create income Sample.salaryInput) Sample.onlineWorld
    = Some (Returned (JObj fs'), w')
    ∧ JS.lookup_field "id" fs' = JNum 7
    ∧ stored Incomes w' = stored Incomes Sample.onlineWorld.
Proof.
  destruct (remote_create_returns_the_server_record income 1
              (λ _, Responded (mkResponse 201 (JObj [("id", JNum 7)]))) 5%N
              Sample.salaryInput Sample.onlineWorld 201 [("id", JNum 7)]
              eq_refl eq_refl (λ _, eq_refl))
    as (fs' & w' & Hrun & _ & Hrest & _ & Hstored).
  exists fs', w'. split_and!; [exact Hrun| |exact Hstored].
  rewrite (Hrest "id"); [reflexivity|discriminate].
Defined.



(** X23. The backend check asks the server only when a token is stored.
    With a token, any HTTP error status counts as an available backend and a
    network error as an unavailable one; after a 401 the token is gone, so
    the next check answers [false] without sending anything. *)
Theorem backend_check_needs_a_token (srv : Server) (w : World) :
  (hasToken (storage w) = false → checkBackendAvailable srv w = (false, w))
  ∧ (hasToken (storage w) = true →
     (∀ r, (∀ req, srv req = Failed (BadStatus r)) →
           (checkBackendAvailable srv w).1 = true
           ∧ (status r = 401%Z →
              ∀ srv', checkBackendAvailable srv' (checkBackendAvailable srv w).2
                      = (false, (checkBackendAvailable srv w).2)))
     ∧ (∀ c msg, (∀ req, srv req = Failed (NoResponse c msg)) →
           (checkBackendAvailable srv w).1
           = negb (isNetworkError (AxiosError (NoResponse c msg))))
     ∧ ∃ req, requests (checkBackendAvailable srv w).2
              = (requests w ++ [req])%list).
Proof.
  unfold checkBackendAvailable. split.
  - by intros ->.
  - intros ->. simpl. split_and!.
    + intros r Hsrv. unfold axios. rewrite Hsrv.
      cbv beta iota zeta delta [fst snd].
      rewrite bad_status_not_network. split; [done|].
      intros H401 srv'.
      destruct (responseInterceptor_bad_status r
                  (send (requestInterceptor (storage w)
                           (mkRequest GET API_END_POINTS.INCOME JUndefined None)) w))
        as (_ & _ & _ & _ & Hgone).
      destruct (Hgone H401) as [Htok _].
      unfold hasToken. by rewrite Htok.
    + intros c msg Hsrv. unfold axios. by rewrite Hsrv.
    + destruct (axios_effect srv GET API_END_POINTS.INCOME JUndefined w) as (Hreq & _).
      destruct (axios srv GET API_END_POINTS.INCOME JUndefined w) as [[resp|e] w1];
        simpl in *; eauto.
Qed.

Lemma backend_check_needs_a_token_witness :
  checkBackendAvailable Sample.unreachable Sample.loggedOutWorld
  = (false, Sample.loggedOutWorld).
Proof.
  apply (proj1 (backend_check_needs_a_token Sample.unreachable Sample.loggedOutWorld)).
  reflexivity.
Defined.

(** [trim] gives the empty string exactly on the strings made of the
    characters of [whiteSpace]. *)
Lemma trimStart_whiteSpace (p s : string) :
  p ∈ whiteSpace → trimStart (p +:+ s) = trimStart s.
Proof.
  intros Hp. unfold whiteSpace in Hp.
  repeat (apply elem_of_cons in Hp as [->|Hp]; [reflexivity|]).
  by apply elem_of_nil in Hp.
Qed.

Lemma trim_blank (s : string) : blank s → trim s = "".
Proof.
  intros (parts & Hparts & ->). unfold trim.
  replace (trimStart (foldr String.append "" parts)) with "".
  { reflexivity. }
  induction Hparts as [|p parts Hp _ IH]; simpl; [done|].
  by rewrite trimStart_whiteSpace.
Qed.

Lemma byte_eq (a : ascii) (n : nat) : nat_of_ascii a = n → a = ascii_of_nat n.
Proof. intros <-. by rewrite ascii_nat_embedding. Qed.

Ltac in_whiteSpace :=
  unfold whiteSpace, utf8; simpl;
  repeat first [apply list_elem_of_here | apply list_elem_of_further].

Lemma space1_whiteSpace a : space1 a = true → String a "" ∈ whiteSpace.
Proof.
  unfold space1. intros H.
  assert (Hn : (nat_of_ascii a = 9 ∨ nat_of_ascii a = 10 ∨ nat_of_ascii a = 11
               ∨ nat_of_ascii a = 12 ∨ nat_of_ascii a = 13 ∨ nat_of_ascii a = 32)%nat).
  { apply orb_true_iff in H as [H%Nat.eqb_eq|[H1%Nat.leb_le H2%Nat.leb_le]%andb_true_iff];
      lia. }
  repeat destruct Hn as [Hn|Hn]; apply byte_eq in Hn as ->; in_whiteSpace.
Qed.

Lemma space2_whiteSpace a b : space2 a b = true → String a (String b "") ∈ whiteSpace.
Proof.
  unfold space2. intros [Ha%Nat.eqb_eq Hb%Nat.eqb_eq]%andb_true_iff.
  apply byte_eq in Ha as ->, Hb as ->. in_whiteSpace.
Qed.

Lemma space3_whiteSpace a b c :
  space3 a b c = true → String a (String b (String c "")) ∈ whiteSpace.
Proof.
  unfold space3. intros H.
  assert (Hn : ∃ x y z : nat,
    nat_of_ascii a = x ∧ nat_of_ascii b = y ∧ nat_of_ascii c = z
    ∧ ((x, y, z) = (225, 154, 128)%nat ∨ (x = 226 ∧ y = 128 ∧ 128 ≤ z ≤ 138)%nat
       ∨ (x, y, z) = (226, 128, 168)%nat ∨ (x, y, z) = (226, 128, 169)%nat
       ∨ (x, y, z) = (226, 128, 175)%nat ∨ (x, y, z) = (226, 129, 159)%nat
       ∨ (x, y, z) = (227, 128, 128)%nat ∨ (x, y, z) = (239, 187, 191)%nat)).
  { exists (nat_of_ascii a), (nat_of_ascii b), (nat_of_ascii c).
    split_and!; [done..|].
    repeat match goal with
    | H : _ || _ = true |- _ => apply orb_true_iff in H as [H|H]
    | H : _ && _ = true |- _ => apply andb_true_iff in H as [? H]
    | H : (_ =? _)%nat = true |- _ => apply Nat.eqb_eq in H
    | H : (_ <=? _)%nat = true |- _ => apply Nat.leb_le in H
    end; try (repeat match goal with H : _ = _ |- _ => rewrite H; clear H end; tauto);
    right; left; lia. }
  destruct Hn as (x & y & z & Ha & Hb & Hc & Hcase).
  apply byte_eq in Ha as ->, Hb as ->, Hc as ->.
  destruct Hcase as [[= -> -> ->]|[(-> & -> & Hz)|Hcase]]; [in_whiteSpace| |].
  - assert (Hz' : (z = 128 ∨ z = 129 ∨ z = 130 ∨ z = 131 ∨ z = 132 ∨ z = 133 ∨ z = 134
                  ∨ z = 135 ∨ z = 136 ∨ z = 137 ∨ z = 138)%nat) by lia.
    repeat destruct Hz' as [Hz'|Hz']; subst z; in_whiteSpace.
  - repeat destruct Hcase as [Hcase|Hcase]; injection Hcase as -> -> ->; in_whiteSpace.
Qed.

Lemma blank_cons (p s : string) : p ∈ whiteSpace → blank s → blank (p +:+ s).
Proof.
  intros Hp (parts & Hparts & ->). exists (p :: parts). split; [|done].
  by apply Forall_cons.
Qed.

Lemma trimStart_steps (n : nat) (s : string) :
  (String.length s < n)%nat →
  trimStart (trimStart s) = trimStart s ∧ (trimStart s = "" → blank s).
Proof.
  revert s. induction n as [|n IH]; intros s Hn; [lia|].
  assert (Hstep : ∀ p s', p ∈ whiteSpace → (String.length s' < n)%nat →
            trimStart (trimStart s') = trimStart s'
            ∧ (trimStart s' = "" → blank (p +:+ s'))).
  { intros p s' Hp Hs'. destruct (IH s' Hs') as [Hidem Hblank].
    split; [done|]. intros H. apply blank_cons; auto. }
  destruct s as [|a s1].
  { split; [done|]. intros _. exists []. by split. }
  cbn [trimStart]. destruct (space1 a) eqn:H1.
  { apply (Hstep (String a "")); [by apply space1_whiteSpace|simpl in Hn; lia]. }
  destruct s1 as [|b s2].
  { cbn [trimStart]. rewrite H1. by split. }
  destruct (space2 a b) eqn:H2.
  { apply (Hstep (String a (String b ""))); [by apply space2_whiteSpace|simpl in Hn; lia]. }
  destruct s2 as [|c s3].
  { cbn [trimStart]. rewrite H1, H2. by split. }
  destruct (space3 a b c) eqn:H3.
  { apply (Hstep (String a (String b (String c ""))));
      [by apply space3_whiteSpace|simpl in Hn; lia]. }
  cbn [trimStart]. rewrite H1, H2, H3. by split.
Qed.

Lemma trim_empty (s : string) : trim s = "" → blank s.
Proof.
  unfold trim. intros H.
  destruct (trimStart_steps (S (String.length s)) s ltac:(lia)) as [Hidem Hblank].
  apply Hblank.
  destruct (trimStart s) as [|a s'] eqn:Hs; [done|].
  cbn [trimEnd] in H. rewrite Hidem in H. simpl in H. done.
Qed.

(** X24. The category form refuses a name made of white space only, of
    whatever white space and line terminator characters of ECMAScript: it
    shows its message, sends nothing and writes nothing. Every other name
    passes this test of the form. *)
Theorem blank_category_name_is_refused (toLowerCase : string → string) (fuel : nat)
    (srv : Server) (now : N) (categories : list Category) (name : string)
    (type : CategoryType) (w : World) :
  (blank name →
   CategoryPage.handleSubmit toLowerCase fuel srv now categories name type w
   = Some (FormError (JStr "Please enter a category name"), w))
  ∧ (¬ blank name → String.eqb (trim name) "" = false).
Proof.
  split.
  - intros Hblank. unfold CategoryPage.handleSubmit.
    by rewrite (trim_blank _ Hblank).
  - intros Hnot. apply String.eqb_neq. intros H. by apply Hnot, trim_empty.
Qed.

Lemma blank_category_name_is_refused_witness :
  CategoryPage.handleSubmit asciiLowerCase 3 Sample.unreachable 5%N []
    (utf8 [32; 194; 160; 9]) income Sample.onlineWorld
  = Some (FormError (JStr "Please enter a category name"), Sample.onlineWorld).
Proof.
  apply blank_category_name_is_refused.
  exists [utf8 [32]; utf8 [194; 160]; utf8 [9]]. split; [|reflexivity].
  repeat (apply Forall_cons; split; [in_whiteSpace|]).
  apply Forall_nil. done.
Defined.

(** ** The token report *)

Lemma length_append (s1 s2 : string) :
  String.length (s1 +:+ s2) = (String.length s1 + String.length s2)%nat.
Proof. induction s1 as [|c s1 IH]; simpl; [done|]. by rewrite IH. Qed.

Lemma length_substring_le (n m : nat) (s : string) :
  (String.length (String.substring n m s) ≤ m)%nat.
Proof.
  revert n m. induction s as [|c s IH]; intros [|n] [|m]; simpl; try lia.
  - specialize (IH 0%nat m). lia.
  - apply (IH n 0%nat).
  - apply (IH n (S m)).
Qed.

(** X25. The token report of [verifyTokenUsage] agrees with what the request
    interceptor does: a token is reported exactly when a request outside the
    login and register endpoints gets an Authorization header, the reported
    length is the length of the token sent, the bearer flag needs a token of
    more than 20 characters, and the reported value shows at most the first
    20 characters of the token. *)
Theorem token_report_matches_the_requests (ls : LocalStorage) (config : Request) :
  authorization config = None →
  existsb (λ endpoint, includes endpoint (url config)) excludeEndpoints = false →
  let report := verifyTokenUsage ls in
  tokenExists report = isAuthenticated ls
  ∧ (tokenExists report = true ↔
     ∃ t, authorization (requestInterceptor ls config) = Some ("Bearer " +:+ t)
          ∧ token ls = Some t
          ∧ String.length t = tokenLength report)
  ∧ (tokenExists report = false → requestInterceptor ls config = config)
  ∧ (bearerFormat report = true →
     tokenExists report = true ∧ (20 < tokenLength report)%nat)
  ∧ ∀ v, tokenValue report = Some v →
         (String.length v ≤ 23)%nat
         ∧ ∃ t, token ls = Some t ∧ v = String.substring 0 20 t +:+ "...".
Proof.
  intros Hauth Hurl report. subst report.
  unfold verifyTokenUsage, isAuthenticated, getToken, hasToken, requestInterceptor.
  rewrite Hurl. simpl.
  destruct (token ls) as [t|] eqn:Htok; simpl.
  - destruct (String.eqb_spec t "") as [->|Hne]; simpl.
    + split_and!; try done.
      split; [done|]. intros (t & H & _). congruence.
    + split_and!; try done.
      * split; [|done]. intros _. by exists t.
      * intros H%Nat.ltb_lt. done.
      * intros v [= <-]. split; [|by exists t].
        rewrite length_append. simpl.
        pose proof (length_substring_le 0 20 t). lia.
  - split_and!; try done.
    split; [done|]. intros (t & H & _). congruence.
Qed.

Lemma token_report_matches_the_requests_witness :
  tokenExists (verifyTokenUsage (storage Sample.onlineWorld)) = true
  ∧ ∃ t, authorization (requestInterceptor (storage Sample.onlineWorld)
                          (mkRequest GET API_END_POINTS.INCOME JUndefined None))
         = Some ("Bearer " +:+ t).
Proof.
  split; [reflexivity|].
  destruct (token_report_matches_the_requests (storage Sample.onlineWorld)
              (mkRequest GET API_END_POINTS.INCOME JUndefined None)
              eq_refl eq_refl) as (_ & [H _] & _).
  destruct (H eq_refl) as (t & Ht & _). by exists t.
Defined.
